(** * Pump calculator: hydraulic solver, pump model and standards classifier

    A shallow embedding of the numerical core of the pump calculator
    ([utils/hydraulic_calcs.py], [utils/pump_calcs.py], [utils/standards.py])
    and the properties of its specification that are settled on it.

    Numbers.  Python floats are modelled as the real numbers of the
    Standard Library: every statement below is therefore a statement in
    exact real arithmetic, and says nothing about rounding, infinities or
    NaN.  Division is Rocq's total division; it agrees with Python's where
    the divisor is not zero, and every theorem that depends on a quotient
    carries the hypothesis that makes its divisor non-zero.

    Effects.  The code raises exceptions and emits warnings through the
    [warnings] module.  Both are modelled by the monad [Py]: a computation
    yields the list of advisories it emitted together with either a value or
    the exception that ended it.  Methods that write to [self] take the object
    as an argument and give the updated object back. *)

From Stdlib Require Import String Reals Lra Lia List ZArith Bool Sorted Permutation.
Import ListNotations.

Open Scope R_scope.

(** ** Comparisons on reals, as booleans *)

Definition Rltb (x y : R) : bool := if Rlt_dec x y then true else false.
Definition Rleb (x y : R) : bool := if Rle_dec x y then true else false.
Definition Reqb (x y : R) : bool := if Req_dec_T x y then true else false.

(** ** Exceptions and warnings *)

Inductive exn : Type :=
| ValueError
| RuntimeError
| KeyError.

(** The one advisory of the engine: [warnings.warn] of the property table. *)
Inductive advisory : Type :=
| TemperatureOutsideRange (temperature : R).

Inductive outcome (A : Type) : Type :=
| Return (a : A)
| Raise (e : exn).

Arguments Return {A} a.
Arguments Raise {A} e.

Definition Py (A : Type) : Type := (list advisory * outcome A)%type.

Definition ret {A} (a : A) : Py A := ([], Return a).
Definition raise {A} (e : exn) : Py A := ([], Raise e).
Definition warn (w : advisory) : Py unit := ([w], Return tt).

Definition bind {A B} (m : Py A) (k : A -> Py B) : Py B :=
  match m with
  | (w, Return a) => let (w', r) := k a in (w ++ w', r)
  | (w, Raise e) => (w, Raise e)
  end.

Notation "x <- m ;; k" := (bind m (fun x => k))
  (at level 61, m at next level, right associativity).

Definition advisories {A} (m : Py A) : list advisory := fst m.
Definition result {A} (m : Py A) : outcome A := snd m.

(** A computation proceeds when no exception ends it. *)
Definition proceeds {A} (m : Py A) : Prop := exists a, result m = Return a.

(** ** Python and NumPy primitives the engine uses *)

(** [sorted] on a list of integers (insertion sort: on integers every
    sorting algorithm gives the same list). *)
Fixpoint insert_sorted (k : Z) (l : list Z) : list Z :=
  match l with
  | [] => [k]
  | h :: t => if (k <=? h)%Z then k :: l else h :: insert_sorted k t
  end.

Definition sorted (l : list Z) : list Z := fold_right insert_sorted [] l.

(** [d.keys()] and [d[key]] of a dict with integer keys, looked up with a
    float: the entry whose key equals the float. *)
Definition keys {V} (d : list (Z * V)) : list Z := map fst d.

Fixpoint getitem (d : list (Z * R)) (key : R) : Py R :=
  match d with
  | [] => raise KeyError
  | (k, v) :: rest => if Reqb (IZR k) key then ret v else getitem rest key
  end.

(** [x in l] for a float [x] and a list of integers. *)
Definition contains (l : list Z) (x : R) : bool :=
  existsb (fun k => Reqb (IZR k) x) l.

(** [np.log10]. *)
Definition log10 (x : R) : R := ln x / ln 10.

(** [np.maximum(x, 0)], [np.clip(x, lo, hi)] on one element. *)
Definition maximum (x y : R) : R := Rmax x y.
Definition clip (x lo hi : R) : R := Rmin (Rmax x lo) hi.

(** [np.linspace(start, stop, num)]: [num] samples, the [i]-th at
    [start + i * (stop - start) / (num - 1)]. *)
Definition linspace (start stop : R) (num : nat) : list R :=
  match num with
  | O => []
  | S O => [start]
  | _ => map (fun i => start + INR i * ((stop - start) / INR (num - 1)))
             (seq 0 num)
  end.

(** Element-wise binary operation on two arrays. *)
Fixpoint map2 {A B C} (f : A -> B -> C) (l1 : list A) (l2 : list B) : list C :=
  match l1, l2 with
  | a :: t1, b :: t2 => f a b :: map2 f t1 t2
  | _, _ => []
  end.

(** [np.argmin]: the index of the first occurrence of the minimum; an empty
    array raises [ValueError]. *)
Fixpoint argmin_from (best_i : nat) (best : R) (i : nat) (l : list R) : nat :=
  match l with
  | [] => best_i
  | x :: t =>
      if Rltb x best then argmin_from i x (S i) t
      else argmin_from best_i best (S i) t
  end.

Definition argmin (l : list R) : Py nat :=
  match l with
  | [] => raise ValueError
  | x :: t => ret (argmin_from 0 x 1 t)
  end.

(** * Hydraulic solver *)

Module HydraulicCalculator.

Definition GRAVITY : R := 9.81.

Definition viscosity_table : list (Z * R) :=
  [ (0%Z, 1.787e-6); (5%Z, 1.519e-6); (10%Z, 1.307e-6); (15%Z, 1.139e-6);
    (20%Z, 1.004e-6); (25%Z, 0.893e-6); (30%Z, 0.801e-6); (40%Z, 0.658e-6);
    (50%Z, 0.553e-6); (60%Z, 0.475e-6); (70%Z, 0.413e-6); (80%Z, 0.364e-6);
    (90%Z, 0.326e-6); (100%Z, 0.294e-6) ].

Definition density_table : list (Z * R) :=
  [ (0%Z, 999.8); (5%Z, 1000.0); (10%Z, 999.7); (15%Z, 999.1);
    (20%Z, 998.2); (25%Z, 997.0); (30%Z, 995.7); (40%Z, 992.2);
    (50%Z, 988.0); (60%Z, 983.2); (70%Z, 977.8); (80%Z, 971.8);
    (90%Z, 965.3); (100%Z, 958.4) ].

(** The loop [for i in range(len(temps) - 1)]: the first pair of
    neighbouring anchors that encloses the temperature. *)
Fixpoint bracket (temps : list Z) (temperature : R) : option (Z * Z) :=
  match temps with
  | t1 :: ((t2 :: _) as rest) =>
      if Rleb (IZR t1) temperature && Rleb temperature (IZR t2)
      then Some (t1, t2)
      else bracket rest temperature
  | _ => None
  end.

(** The part the two property lookups share word for word: exact match,
    linear interpolation, and the value returned after the loop. *)
Definition lookup_table (table : list (Z * R)) (temperature : R) : Py R :=
  let temps := sorted (keys table) in
  if contains temps temperature then getitem table temperature
  else
    match bracket temps temperature with
    | Some (t1, t2) =>
        v1 <- getitem table (IZR t1) ;;
        v2 <- getitem table (IZR t2) ;;
        ret (v1 + (v2 - v1) * (temperature - IZR t1) / (IZR t2 - IZR t1))
    | None => getitem table (IZR (last temps 0%Z))
    end.

Definition get_kinematic_viscosity (temperature : R) : Py R :=
  _ <- (if Rltb temperature 0 || Rltb 100 temperature
        then warn (TemperatureOutsideRange temperature)
        else ret tt) ;;
  lookup_table viscosity_table temperature.

Definition get_water_density (temperature : R) : Py R :=
  lookup_table density_table temperature.

Definition reynolds_number (velocity diameter viscosity : R) : Py R :=
  if Rleb velocity 0 || Rleb diameter 0 || Rleb viscosity 0
  then raise ValueError
  else ret ((velocity * diameter) / viscosity).

(** The body of the [for iteration in range(max_iter)] loop computes the
    next iterate from the current one. *)
Definition colebrook_next (reynolds relative_roughness f : R) : R :=
  let term1 := relative_roughness / 3.7 in
  let term2 := 2.51 / (reynolds * sqrt f) in
  0.25 / (log10 (term1 + term2)) ^ 2.

(** The loop itself, with [n] iterations left: a [return] from inside the
    loop, or the [raise] that follows it. *)
Fixpoint colebrook_loop (reynolds relative_roughness tolerance : R)
    (n : nat) (f : R) : Py R :=
  match n with
  | O => raise RuntimeError
  | S n' =>
      let f_old := f in
      let f := colebrook_next reynolds relative_roughness f in
      if Rltb (Rabs (f - f_old)) tolerance then ret f
      else colebrook_loop reynolds relative_roughness tolerance n' f
  end.

(** [roughness / diameter] raises [ZeroDivisionError] in the source when the
    diameter is zero: what is proved of this function carries
    [diameter <> 0] wherever that quotient is reached. *)
Definition friction_factor_colebrook (reynolds roughness diameter : R)
    (tolerance : R) (max_iter : nat) : Py R :=
  if Rltb reynolds 4000 then raise ValueError
  else
    let relative_roughness := roughness / diameter in
    let f := 0.25 / (log10 (relative_roughness / 3.7
                            + 5.74 / Rpower reynolds 0.9)) ^ 2 in
    colebrook_loop reynolds relative_roughness tolerance max_iter f.

(** The default arguments [tolerance = 1e-6] and [max_iter = 100]. *)
Definition default_tolerance : R := 1e-6.
Definition default_max_iter : nat := 100.

Definition friction_factor_swamee_jain (reynolds roughness diameter : R) : R :=
  let relative_roughness := roughness / diameter in
  let term := relative_roughness / 3.7 + 5.74 / Rpower reynolds 0.9 in
  0.25 / (log10 term) ^ 2.

Definition head_loss_darcy_weisbach
    (friction_factor length diameter velocity : R) : R :=
  friction_factor * (length / diameter) * (velocity ^ 2) / (2 * GRAVITY).

Definition minor_loss (k_factor velocity : R) : R :=
  k_factor * (velocity ^ 2) / (2 * GRAVITY).

Definition velocity_from_flow (flow_rate diameter : R) : R :=
  let area := PI * (diameter ^ 2) / 4 in
  flow_rate / area.

Definition flow_from_velocity (velocity diameter : R) : R :=
  let area := PI * (diameter ^ 2) / 4 in
  velocity * area.

Definition pressure_to_head (pressure density : R) : R :=
  pressure / (density * GRAVITY).

Definition head_to_pressure (head density : R) : R :=
  density * GRAVITY * head.

(** The three values of the [flow_regime] string. *)
Inductive flow_regime_tag : Type :=
| Laminar
| Transitional
| Turbulent.

Record SystemResult : Type := {
  velocity : R;
  reynolds : R;
  flow_regime : flow_regime_tag;
  friction_factor : R;
  head_loss_friction : R;
  head_loss_minor : R;
  elevation_head : R;
  total_head_loss : R;
  pressure_drop : R;
  density : R;
  viscosity : R
}.

(** Python's [sum] of a list: from 0, left to right. *)
Definition sum (l : list R) : R := fold_left Rplus l 0.

Definition calculate_system (flow_rate diameter length roughness : R)
    (minor_losses_k : list R) (temperature elevation_change : R)
    : Py SystemResult :=
  let velocity := velocity_from_flow flow_rate diameter in
  viscosity <- get_kinematic_viscosity temperature ;;
  density <- get_water_density temperature ;;
  reynolds <- reynolds_number velocity diameter viscosity ;;
  regime_and_factor <-
    (if Rltb reynolds 2300 then
       ret (Laminar, 64 / reynolds)
     else if Rltb reynolds 4000 then
       ret (Transitional,
            friction_factor_swamee_jain reynolds roughness diameter)
     else
       f <- friction_factor_colebrook reynolds roughness diameter
              default_tolerance default_max_iter ;;
       ret (Turbulent, f)) ;;
  let flow_regime := fst regime_and_factor in
  let friction_factor := snd regime_and_factor in
  let head_loss_friction :=
    head_loss_darcy_weisbach friction_factor length diameter velocity in
  let head_loss_minor :=
    sum (map (fun k => minor_loss k velocity) minor_losses_k) in
  let total_head_loss :=
    head_loss_friction + head_loss_minor + elevation_change in
  let pressure_drop := head_to_pressure total_head_loss density / 1000 in
  ret {| velocity := velocity;
         reynolds := reynolds;
         flow_regime := flow_regime;
         friction_factor := friction_factor;
         head_loss_friction := head_loss_friction;
         head_loss_minor := head_loss_minor;
         elevation_head := elevation_change;
         total_head_loss := total_head_loss;
         pressure_drop := pressure_drop;
         density := density;
         viscosity := viscosity |}.

(** [x ** y] with a float exponent is [Rpower x y]; the two agree for a
    positive base, which the properties of this formula assume. *)
Definition head_loss_hazen_williams
    (flow_rate diameter length c_factor : R) : R :=
  10.67 * length * Rpower flow_rate 1.852
  / (Rpower c_factor 1.852 * Rpower diameter 4.87).

(** The default argument [c_factor = 120]. *)
Definition default_c_factor : R := 120.

End HydraulicCalculator.

(** * Pump performance model, pump curve and operating point *)

Module PumpCalculator.

Definition GRAVITY : R := 9.81.

(** The dict that [generate_pump_curve] builds. *)
Record CurveData : Type := {
  flow : list R;
  head : list R;
  power : list R;
  efficiency : list R;
  q_bep : R;
  h_bep : R
}.

(** The attributes of a [PumpCalculator] object. *)
Record object : Type := {
  efficiency_data : option (list R);
  curve_data : option CurveData
}.

Definition __init__ : object :=
  {| efficiency_data := None; curve_data := None |}.

Definition affinity_laws_flow (flow1 speed1 speed2 : R) : R :=
  flow1 * (speed2 / speed1).

Definition affinity_laws_head (head1 speed1 speed2 : R) : R :=
  head1 * (speed2 / speed1) ^ 2.

Definition affinity_laws_power (power1 speed1 speed2 : R) : R :=
  power1 * (speed2 / speed1) ^ 3.

(** The head of one sample: the parabola, floored at zero. *)
Definition head_at (q_bep h_bep q : R) : R :=
  let h_shutoff := h_bep * 1.15 in
  let a := (h_shutoff - h_bep) / q_bep ^ 2 in
  maximum (h_shutoff - a * q ^ 2) 0.

(** The efficiency of one sample: the bell curve, clipped. *)
Definition efficiency_at (q_bep efficiency_bep q : R) : R :=
  let q_normalized := q / q_bep in
  clip (efficiency_bep * exp (-0.5 * ((q_normalized - 1) / 0.4) ^ 2)) 0.01 1.0.

(** The head coefficient divides by [q_bep ** 2], which raises
    [ZeroDivisionError] in the source when the BEP flow is zero, before the
    curve is stored: what is proved of this function and of
    [operating_point] carries a non-zero (or positive) BEP flow. *)
Definition generate_pump_curve (self : object)
    (q_bep h_bep power_bep efficiency_bep : R) (num_points : nat)
    : CurveData * object :=
  let q_range := linspace 0 (1.5 * q_bep) num_points in
  let h_range := map (head_at q_bep h_bep) q_range in
  let efficiency_range := map (efficiency_at q_bep efficiency_bep) q_range in
  let density := 998.2 in
  let hydraulic_power :=
    map2 (fun q h => density * GRAVITY * q * h) q_range h_range in
  let power_range := map2 Rdiv hydraulic_power efficiency_range in
  let curve := {| flow := q_range;
                  head := h_range;
                  power := power_range;
                  efficiency := efficiency_range;
                  q_bep := q_bep;
                  h_bep := h_bep |} in
  (curve, {| efficiency_data := efficiency_data self;
             curve_data := Some curve |}).

Record SystemCurveParams : Type := {
  h_static : R;
  k_coefficient : R
}.

Record PumpCurveParams : Type := {
  param_q_bep : R;
  param_h_bep : R;
  param_power_bep : R;
  param_efficiency_bep : R;
  param_num_points : nat
}.

Record OperatingPoint : Type := {
  flow_operating : R;
  head_operating : R;
  power_operating : R;
  efficiency_operating : R;
  system_curve : list R;
  pump_curve : list R;
  flow_range : list R
}.

(** [a[i]] on an array; the index [np.argmin] gives is always in range, and
    the default is never read. *)
Definition item (a : list R) (i : nat) : R := nth i a 0.

Definition operating_point (self : object)
    (system_curve_params : SystemCurveParams)
    (pump_curve_params : PumpCurveParams) : Py OperatingPoint * object :=
  let (pump_curve, self) :=
    generate_pump_curve self
      (param_q_bep pump_curve_params) (param_h_bep pump_curve_params)
      (param_power_bep pump_curve_params)
      (param_efficiency_bep pump_curve_params)
      (param_num_points pump_curve_params) in
  let h_static := h_static system_curve_params in
  let k := k_coefficient system_curve_params in
  let q_range := flow pump_curve in
  let h_system := map (fun q => h_static + k * q ^ 2) q_range in
  let h_pump := head pump_curve in
  let diff := map2 (fun hp hs => Rabs (hp - hs)) h_pump h_system in
  (idx_op <- argmin diff ;;
   let q_op := item q_range idx_op in
   let h_op := item h_pump idx_op in
   let p_op := item (power pump_curve) idx_op in
   let eff_op := item (efficiency pump_curve) idx_op in
   ret {| flow_operating := q_op;
          head_operating := h_op;
          power_operating := p_op;
          efficiency_operating := eff_op;
          system_curve := h_system;
          pump_curve := h_pump;
          flow_range := q_range |},
   self).

(** The three values of the [status] string, in the order of the code:
    "RIESGO DE CAVITACION", "ADVERTENCIA: Margen bajo", "SEGURO". *)
Inductive cavitation_status : Type :=
| RIESGO_DE_CAVITACION
| ADVERTENCIA_MARGEN_BAJO
| SEGURO.

(** The three values of the [recommendation] string. *)
Inductive cavitation_recommendation : Type :=
| AumentarNPSH
| ConsiderarAumentarNPSH
| CondicionesAdecuadas.

Record CavitationCheck : Type := {
  safe : bool;
  margin : R;
  status : cavitation_status;
  recommendation : cavitation_recommendation;
  npsh_available : R;
  npsh_required : R
}.

Definition cavitation_check (npsh_available npsh_required safety_margin : R)
    : CavitationCheck :=
  let margin := npsh_available - npsh_required in
  let safe := Rleb safety_margin margin in
  let status_and_recommendation :=
    if negb safe then (RIESGO_DE_CAVITACION, AumentarNPSH)
    else if Rltb margin 1.0 then (ADVERTENCIA_MARGEN_BAJO, ConsiderarAumentarNPSH)
    else (SEGURO, CondicionesAdecuadas) in
  {| safe := safe;
     margin := margin;
     status := fst status_and_recommendation;
     recommendation := snd status_and_recommendation;
     npsh_available := npsh_available;
     npsh_required := npsh_required |}.

(** The default argument [safety_margin = 0.5]. *)
Definition default_safety_margin : R := 0.5.

Definition hydraulic_power (flow_rate head density gravity : R) : R :=
  density * gravity * flow_rate * head.

Definition shaft_power (hydraulic_power efficiency : R) : Py R :=
  if Rleb efficiency 0 || Rltb 1 efficiency then raise ValueError
  else ret (hydraulic_power / efficiency).

Definition motor_power (shaft_power motor_efficiency safety_factor : R) : R :=
  (shaft_power / motor_efficiency) * safety_factor.

(** The default arguments [motor_efficiency = 0.95], [safety_factor = 1.15]. *)
Definition default_motor_efficiency : R := 0.95.
Definition default_motor_safety_factor : R := 1.15.

(** The method [npsh_available]; it is named after the variable that holds
    its result, [npsh_available] being a field of [CavitationCheck] here. *)
Definition npsh_a (pressure_suction vapor_pressure velocity_suction
    elevation density gravity : R) : R :=
  let pressure_head := pressure_suction / (density * gravity) in
  let vapor_head := vapor_pressure / (density * gravity) in
  let velocity_head := velocity_suction ^ 2 / (2 * gravity) in
  pressure_head - vapor_head + velocity_head + elevation.

Definition npsh_required_estimate
    (flow_rate speed suction_specific_speed : R) : R :=
  let flow_gpm := flow_rate * 15850.32 in
  let npsh_r :=
    Rpower ((speed * sqrt flow_gpm) / suction_specific_speed) (4 / 3) in
  npsh_r * 0.3048.

(** The default argument [suction_specific_speed = 11000]. *)
Definition default_suction_specific_speed : R := 11000.

Definition specific_speed (flow_rate head speed : R) : R :=
  let flow_m3h := flow_rate * 3600 in
  speed * sqrt flow_m3h / Rpower head 0.75.

(** The six strings [classify_pump_type] returns, in the order of the code:
    "Centrifuga radial de baja velocidad especifica", "Centrifuga radial",
    "Centrifuga radial-mixta", "Centrifuga de flujo mixto",
    "Centrifuga de flujo axial", "Bomba de flujo axial (helice)". *)
Inductive pump_type : Type :=
| RadialBajaVelocidadEspecifica
| Radial
| RadialMixta
| FlujoMixto
| FlujoAxial
| AxialHelice.

Definition classify_pump_type (specific_speed : R) : pump_type :=
  if Rltb specific_speed 20 then RadialBajaVelocidadEspecifica
  else if Rltb specific_speed 40 then Radial
  else if Rltb specific_speed 80 then RadialMixta
  else if Rltb specific_speed 150 then FlujoMixto
  else if Rltb specific_speed 300 then FlujoAxial
  else AxialHelice.

Definition minimum_flow (bep_flow safety_factor : R) : R :=
  bep_flow * safety_factor.

Definition maximum_flow (bep_flow safety_factor : R) : R :=
  bep_flow * safety_factor.

(** The default arguments [safety_factor = 0.3] and [safety_factor = 1.2]. *)
Definition default_minimum_factor : R := 0.3.
Definition default_maximum_factor : R := 1.2.

(** The dict [suction_conditions], passed on as keyword arguments. *)
Record SuctionConditions : Type := {
  pressure_suction : R;
  vapor_pressure : R;
  velocity_suction : R;
  elevation : R
}.

(** The dict [pump_specs]; both keys are read with [.get] and a default. *)
Record PumpSpecs : Type := {
  spec_efficiency : option R;
  spec_speed : option R
}.

(** [d.get(key, default)]. *)
Definition get_default (entry : option R) (default : R) : R :=
  match entry with
  | Some v => v
  | None => default
  end.

(** The dict [complete_pump_analysis] returns; [operating_range] holds the
    two numbers its string is formatted from. *)
Record PumpAnalysis : Type := {
  pa_hydraulic_power_kw : R;
  pa_shaft_power_kw : R;
  pa_motor_power_kw : R;
  pa_motor_power_hp : R;
  pa_efficiency : R;
  pa_npsh_available : R;
  pa_npsh_required : R;
  pa_cavitation_check : CavitationCheck;
  pa_specific_speed : R;
  pa_pump_type : pump_type;
  pa_minimum_flow : R;
  pa_maximum_flow : R;
  pa_operating_range : R * R
}.

Definition complete_pump_analysis (flow_rate total_head : R)
    (suction_conditions : SuctionConditions) (pump_specs : PumpSpecs)
    (density : R) : Py PumpAnalysis :=
  let efficiency := get_default (spec_efficiency pump_specs) 0.75 in
  let hydraulic_pow := hydraulic_power flow_rate total_head density GRAVITY in
  shaft_pow <- shaft_power hydraulic_pow efficiency ;;
  let motor_pow :=
    motor_power shaft_pow default_motor_efficiency
      default_motor_safety_factor in
  let npsh_a :=
    npsh_a (pressure_suction suction_conditions)
      (vapor_pressure suction_conditions)
      (velocity_suction suction_conditions)
      (elevation suction_conditions) density GRAVITY in
  let speed := get_default (spec_speed pump_specs) 1750 in
  let npsh_r :=
    npsh_required_estimate flow_rate speed default_suction_specific_speed in
  let cavitation := cavitation_check npsh_a npsh_r default_safety_margin in
  let ns := specific_speed flow_rate total_head speed in
  let pump_type := classify_pump_type ns in
  let min_flow := minimum_flow flow_rate default_minimum_factor in
  let max_flow := maximum_flow flow_rate default_maximum_factor in
  ret {| pa_hydraulic_power_kw := hydraulic_pow / 1000;
         pa_shaft_power_kw := shaft_pow / 1000;
         pa_motor_power_kw := motor_pow / 1000;
         pa_motor_power_hp := motor_pow / 745.7;
         pa_efficiency := efficiency;
         pa_npsh_available := npsh_a;
         pa_npsh_required := npsh_r;
         pa_cavitation_check := cavitation;
         pa_specific_speed := ns;
         pa_pump_type := pump_type;
         pa_minimum_flow := min_flow;
         pa_maximum_flow := max_flow;
         pa_operating_range := (min_flow * 3600, max_flow * 3600) |}.

(** The default argument [density = 998.2]. *)
Definition default_density : R := 998.2.

End PumpCalculator.

(** * Standards classifier *)

Module Standards.

Definition STANDARD_PIPE_SIZES : list Z :=
  [ 6; 8; 10; 15; 20; 25; 32; 40; 50; 65; 80; 100; 125; 150; 200;
    250; 300; 350; 400; 450; 500; 600; 700; 800; 900; 1000; 1200 ]%Z.

(** The two shapes of the dict that [select_pipe_size] returns: status
    'ERROR' with a message that quotes the required diameter, or status 'OK'
    with the selection. *)
Inductive PipeSelection : Type :=
| ERROR (diameter_required : R)
| OK (required_diameter_mm : R) (recommended_dn : Z) (actual_velocity : R)
     (flow_rate_m3h : R) (next_sizes : list Z).

Definition select_pipe_size (flow_rate max_velocity : R) : PipeSelection :=
  let area_required := flow_rate / max_velocity in
  let diameter_required := sqrt (4 * area_required / PI) * 1000 in
  let suitable_sizes :=
    filter (fun dn => Rleb diameter_required (IZR dn)) STANDARD_PIPE_SIZES in
  match suitable_sizes with
  | [] => ERROR diameter_required
  | recommended_dn :: _ =>
      let diameter_m := IZR recommended_dn / 1000 in
      let area := PI * (diameter_m / 2) ^ 2 in
      let actual_velocity := flow_rate / area in
      OK diameter_required recommended_dn actual_velocity
         (flow_rate * 3600)
         (if (1 <? length suitable_sizes)%nat
          then firstn 3 suitable_sizes else suitable_sizes)
  end.

(** An entry of [VELOCITY_LIMITS]: the keys 'min', 'max', 'recommended'. *)
Record VelocityLimits : Type := {
  lim_min : R;
  lim_max : R;
  lim_recommended : R
}.

Definition VELOCITY_LIMITS : list (string * VelocityLimits) :=
  [ ("Succión de bomba"%string,
     {| lim_min := 0.6; lim_max := 1.5; lim_recommended := 1.0 |});
    ("Descarga de bomba"%string,
     {| lim_min := 1.5; lim_max := 3.0; lim_recommended := 2.0 |});
    ("Tubería general"%string,
     {| lim_min := 1.0; lim_max := 3.0; lim_recommended := 2.0 |});
    ("Drenaje por gravedad"%string,
     {| lim_min := 0.5; lim_max := 2.0; lim_recommended := 1.0 |});
    ("Agua potable"%string,
     {| lim_min := 0.5; lim_max := 2.5; lim_recommended := 1.5 |});
    ("Vapor saturado"%string,
     {| lim_min := 15.0; lim_max := 30.0; lim_recommended := 20.0 |});
    ("Vapor sobrecalentado"%string,
     {| lim_min := 20.0; lim_max := 50.0; lim_recommended := 30.0 |});
    ("Gas"%string,
     {| lim_min := 5.0; lim_max := 30.0; lim_recommended := 15.0 |}) ].

(** An entry of [PRESSURE_CLASSES_ANSI] and of [PRESSURE_CLASSES_PN]. *)
Record AnsiClass : Type := {
  ansi_max_pressure_bar : R;
  max_temp_c : R
}.

Record PnClass : Type := {
  pn_max_pressure_bar : R;
  applications : string
}.

Definition PRESSURE_CLASSES_ANSI : list (string * AnsiClass) :=
  [ ("150"%string, {| ansi_max_pressure_bar := 19.6; max_temp_c := 260 |});
    ("300"%string, {| ansi_max_pressure_bar := 51.0; max_temp_c := 370 |});
    ("600"%string, {| ansi_max_pressure_bar := 102.0; max_temp_c := 400 |});
    ("900"%string, {| ansi_max_pressure_bar := 153.0; max_temp_c := 427 |});
    ("1500"%string, {| ansi_max_pressure_bar := 255.0; max_temp_c := 450 |});
    ("2500"%string, {| ansi_max_pressure_bar := 425.0; max_temp_c := 482 |}) ].

Definition PRESSURE_CLASSES_PN : list (string * PnClass) :=
  [ ("PN6"%string,
     {| pn_max_pressure_bar := 6;
        applications := "Baja presión, drenaje" |});
    ("PN10"%string,
     {| pn_max_pressure_bar := 10;
        applications := "Agua fría, baja presión" |});
    ("PN16"%string,
     {| pn_max_pressure_bar := 16;
        applications := "Agua, servicios generales" |});
    ("PN25"%string,
     {| pn_max_pressure_bar := 25;
        applications := "Media presión, industrial" |});
    ("PN40"%string,
     {| pn_max_pressure_bar := 40;
        applications := "Alta presión, procesos" |});
    ("PN63"%string,
     {| pn_max_pressure_bar := 63;
        applications := "Muy alta presión" |});
    ("PN100"%string,
     {| pn_max_pressure_bar := 100;
        applications := "Presión extrema" |}) ].

(** [SAFETY_FACTORS['Presion estatica']['ASME_B31.3']], the one entry of
    that table the classifier reads. *)
Definition SAFETY_FACTOR_ASME_B31_3 : R := 1.5.

(** A dict with string keys: [d[key]] (absent: [KeyError]) and
    [d.get(key, default)]. *)
Fixpoint lookup {V} (d : list (string * V)) (key : string) : option V :=
  match d with
  | [] => None
  | (k, v) :: rest => if String.eqb k key then Some v else lookup rest key
  end.

(** The four values of the [status] string of [check_velocity]: "OK",
    "ADVERTENCIA", "ACEPTABLE", "OPTIMO". *)
Inductive velocity_status : Type :=
| STATUS_OK
| ADVERTENCIA
| ACEPTABLE
| OPTIMO.

(** The four messages [check_velocity] appends; the two formatted ones carry
    the numbers they quote. *)
Inductive velocity_warning : Type :=
| VelocidadBaja (velocity limit : R)
| RiesgoSedimentacion
| VelocidadAlta (velocity limit : R)
| RiesgoErosion.

Record VelocityCheck : Type := {
  vc_status : velocity_status;
  vc_velocity : R;
  vc_limits : VelocityLimits;
  vc_warnings : list velocity_warning;
  vc_in_range : bool
}.

Definition check_velocity (velocity : R) (service_type : string)
    : Py VelocityCheck :=
  match lookup VELOCITY_LIMITS "Tubería general" with
  | None => raise KeyError
  | Some general =>
      let limits :=
        match lookup VELOCITY_LIMITS service_type with
        | Some l => l
        | None => general
        end in
      let status := STATUS_OK in
      let warnings_list := [] in
      let '(status, warnings_list) :=
        if Rltb velocity (lim_min limits)
        then (ADVERTENCIA,
              warnings_list
              ++ [VelocidadBaja velocity (lim_min limits);
                  RiesgoSedimentacion])
        else (status, warnings_list) in
      let '(status, warnings_list) :=
        if Rltb (lim_max limits) velocity
        then (ADVERTENCIA,
              warnings_list
              ++ [VelocidadAlta velocity (lim_max limits); RiesgoErosion])
        else (status, warnings_list) in
      let status :=
        if Rleb (lim_min limits) velocity && Rleb velocity (lim_max limits)
        then
          if Rltb 0.5 (Rabs (velocity - lim_recommended limits))
          then ACEPTABLE
          else OPTIMO
        else status in
      ret {| vc_status := status;
             vc_velocity := velocity;
             vc_limits := limits;
             vc_warnings := warnings_list;
             vc_in_range :=
               Rleb (lim_min limits) velocity
               && Rleb velocity (lim_max limits) |}
  end.

(** The default argument [service_type = 'Tuberia general']. *)
Definition default_service_type : string := "Tubería general".

(** The three values of [flow_type]: "LAMINAR", "TRANSICION",
    "TURBULENTO". *)
Inductive flow_type_tag : Type :=
| LAMINAR
| TRANSICION
| TURBULENTO.

Record ReynoldsCheck : Type := {
  rc_reynolds : R;
  rc_flow_type : flow_type_tag;
  rc_description : string;
  rc_concerns : list string
}.

Definition check_reynolds (reynolds : R) : ReynoldsCheck :=
  let '(flow_type, description, concerns) :=
    if Rltb reynolds 2300 then
      (LAMINAR, "Flujo ordenado en capas paralelas"%string,
       ["Velocidad muy baja"%string; "Posible sedimentación"%string])
    else if Rltb reynolds 4000 then
      (TRANSICION, "Flujo inestable entre laminar y turbulento"%string,
       ["Comportamiento impredecible"%string;
        "Evitar operar en esta zona"%string])
    else
      (TURBULENTO, "Flujo con mezcla completa, régimen normal"%string, [])
  in
  {| rc_reynolds := reynolds;
     rc_flow_type := flow_type;
     rc_description := description;
     rc_concerns := concerns |}.

(** The two shapes of the dict [select_pressure_class] returns. *)
Inductive PressureClassSelection : Type :=
| CLASS_ERROR (design_pressure : R)
| CLASS_OK (operating_pressure design_pressure : R)
    (recommended_class : string) (all_suitable_classes : list string)
    (standard : string).

Definition select_pressure_class (operating_pressure temperature : R)
    (standard : string) : PressureClassSelection :=
  let design_pressure := operating_pressure * SAFETY_FACTOR_ASME_B31_3 in
  let suitable_classes :=
    if String.eqb standard "ANSI" then
      map fst
        (filter (fun entry =>
                   Rleb design_pressure (ansi_max_pressure_bar (snd entry))
                   && Rleb temperature (max_temp_c (snd entry)))
           PRESSURE_CLASSES_ANSI)
    else
      map fst
        (filter (fun entry =>
                   Rleb design_pressure (pn_max_pressure_bar (snd entry)))
           PRESSURE_CLASSES_PN) in
  match suitable_classes with
  | [] => CLASS_ERROR design_pressure
  | recommended_class :: _ =>
      CLASS_OK operating_pressure design_pressure recommended_class
        suitable_classes standard
  end.

(** The four values of the [status] string of [erosion_velocity_check]:
    "SEGURO", "ACEPTABLE", "PRECAUCION", "PELIGRO". *)
Inductive erosion_status : Type :=
| EROSION_SEGURO
| EROSION_ACEPTABLE
| EROSION_PRECAUCION
| EROSION_PELIGRO.

Record ErosionCheck : Type := {
  ec_status : erosion_status;
  ec_velocity : R;
  ec_erosion_velocity : R;
  ec_ratio : R;
  ec_risk : string
}.

Definition erosion_velocity_check (velocity density : R) : ErosionCheck :=
  let c_factor := 100 in
  let v_erosion := c_factor / sqrt density in
  let ratio := velocity / v_erosion in
  let '(status, risk) :=
    if Rltb ratio 0.5 then
      (EROSION_SEGURO, "Riesgo de erosión muy bajo"%string)
    else if Rltb ratio 0.8 then
      (EROSION_ACEPTABLE, "Riesgo de erosión bajo"%string)
    else if Rltb ratio 1.0 then
      (EROSION_PRECAUCION, "Cerca del límite de erosión"%string)
    else
      (EROSION_PELIGRO, "VELOCIDAD EXCEDE LÍMITE DE EROSIÓN"%string) in
  {| ec_status := status;
     ec_velocity := velocity;
     ec_erosion_velocity := v_erosion;
     ec_ratio := ratio;
     ec_risk := risk |}.

End Standards.

(** * Vocabulary of the statements *)

(** The iterates of the Colebrook-White fixed-point iteration: iterate 0 is
    the seed, the explicit Swamee-Jain value; iterate [k + 1] is computed
    from iterate [k] by the body of the loop. *)
Definition colebrook_iterate (reynolds roughness diameter : R) (k : nat) : R :=
  Nat.iter k
    (HydraulicCalculator.colebrook_next reynolds (roughness / diameter))
    (HydraulicCalculator.friction_factor_swamee_jain reynolds roughness diameter).

(** Iteration [k] (counted from 0) meets the tolerance: the iterate it
    computes differs from the one before by less than the tolerance. *)
Definition meets_tolerance (reynolds roughness diameter tolerance : R)
    (k : nat) : Prop :=
  Rabs (colebrook_iterate reynolds roughness diameter (S k)
        - colebrook_iterate reynolds roughness diameter k) < tolerance.

(** An array whose samples never rise from one index to a later one. *)
Definition non_increasing (l : list R) : Prop :=
  forall i j x y, (i <= j)%nat ->
    nth_error l i = Some x -> nth_error l j = Some y -> y <= x.

(** An array none of whose samples is negative. *)
Definition floored_at_zero (l : list R) : Prop :=
  forall i x, nth_error l i = Some x -> 0 <= x.

(** An array whose samples are evenly spaced from [start] to [stop]. *)
Definition evenly_spaced (start stop : R) (l : list R) : Prop :=
  forall i q, nth_error l i = Some q ->
    q = start + INR i * ((stop - start) / INR (length l - 1)).

(** [idx] is the first index below [n] at which [d] is minimal: no index
    has a smaller value, and every earlier index has a larger one. *)
Definition first_minimizer (d : nat -> R) (n idx : nat) : Prop :=
  (idx < n)%nat
  /\ (forall j, (j < n)%nat -> d idx <= d j)
  /\ (forall j, (j < idx)%nat -> d idx < d j).

(** The distance between pump head and system head at sample [i]. *)
Definition head_difference (system : PumpCalculator.SystemCurveParams)
    (curve : PumpCalculator.CurveData) (i : nat) : R :=
  Rabs (PumpCalculator.item (PumpCalculator.head curve) i
        - (PumpCalculator.h_static system
           + PumpCalculator.k_coefficient system
             * PumpCalculator.item (PumpCalculator.flow curve) i ^ 2)).

(** A call of [generate_pump_curve] that leaves the object as it found it,
    the curve being the returned value only. *)
Definition retains_nothing (self : PumpCalculator.object)
    (call : PumpCalculator.CurveData * PumpCalculator.object) : Prop :=
  snd call = self.

(** The verdict as three tiers that are read off the margin independently
    of one another: safe from the safety margin up, marginal on [0, 1),
    unsafe below the safety margin. *)
Definition independent_tiers (npsh_a npsh_r safety_margin : R) : Prop :=
  let c := PumpCalculator.cavitation_check npsh_a npsh_r safety_margin in
  PumpCalculator.margin c = npsh_a - npsh_r
  /\ (PumpCalculator.safe c = true <-> safety_margin <= PumpCalculator.margin c)
  /\ (safety_margin <= PumpCalculator.margin c -> PumpCalculator.status c = PumpCalculator.SEGURO)
  /\ (0 <= PumpCalculator.margin c < 1 -> PumpCalculator.status c = PumpCalculator.ADVERTENCIA_MARGEN_BAJO)
  /\ (PumpCalculator.margin c < safety_margin -> PumpCalculator.status c = PumpCalculator.RIESGO_DE_CAVITACION).

(** The record [calculate_system] builds once the fluid properties, the
    Reynolds number, the regime tag and the friction factor are known. *)
Definition system_record (flow_rate diameter length roughness : R)
    (minor_losses_k : list R) (elevation_change nu rho re : R)
    (regime : HydraulicCalculator.flow_regime_tag) (f : R)
    : HydraulicCalculator.SystemResult :=
  let velocity := HydraulicCalculator.velocity_from_flow flow_rate diameter in
  let head_loss_friction :=
    HydraulicCalculator.head_loss_darcy_weisbach f length diameter velocity in
  let head_loss_minor :=
    HydraulicCalculator.sum
      (map (fun k => HydraulicCalculator.minor_loss k velocity)
         minor_losses_k) in
  let total_head_loss :=
    head_loss_friction + head_loss_minor + elevation_change in
  {| HydraulicCalculator.velocity := velocity;
     HydraulicCalculator.reynolds := re;
     HydraulicCalculator.flow_regime := regime;
     HydraulicCalculator.friction_factor := f;
     HydraulicCalculator.head_loss_friction := head_loss_friction;
     HydraulicCalculator.head_loss_minor := head_loss_minor;
     HydraulicCalculator.elevation_head := elevation_change;
     HydraulicCalculator.total_head_loss := total_head_loss;
     HydraulicCalculator.pressure_drop :=
       HydraulicCalculator.head_to_pressure total_head_loss rho / 1000;
     HydraulicCalculator.density := rho;
     HydraulicCalculator.viscosity := nu |}.

(** The regime tag of the solver and the flow type of the classifier that
    name the same regime. *)
Definition same_regime (tag : HydraulicCalculator.flow_regime_tag)
    (flow_type : Standards.flow_type_tag) : Prop :=
  match tag, flow_type with
  | HydraulicCalculator.Laminar, Standards.LAMINAR => True
  | HydraulicCalculator.Transitional, Standards.TRANSICION => True
  | HydraulicCalculator.Turbulent, Standards.TURBULENTO => True
  | _, _ => False
  end.

(** The limits [check_velocity] applies to a service type: those of the
    table, or those of 'Tuberia general' for a service type the table does
    not have. *)
Definition limits_of (service_type : string) : Standards.VelocityLimits :=
  match Standards.lookup Standards.VELOCITY_LIMITS service_type with
  | Some l => l
  | None =>
      {| Standards.lim_min := 1.0; Standards.lim_max := 3.0;
         Standards.lim_recommended := 2.0 |}
  end.

(** One ANSI class is rated at least as high as another, in pressure and in
    temperature; one PN class at least as high as another, in pressure. *)
Definition ansi_le (a b : string * Standards.AnsiClass) : Prop :=
  Standards.ansi_max_pressure_bar (snd a)
    <= Standards.ansi_max_pressure_bar (snd b)
  /\ Standards.max_temp_c (snd a) <= Standards.max_temp_c (snd b).

Definition pn_le (a b : string * Standards.PnClass) : Prop :=
  Standards.pn_max_pressure_bar (snd a)
    <= Standards.pn_max_pressure_bar (snd b).

(** Two entries of a property table, the second at a higher temperature. *)
Definition key_lt (a b : Z * R) : Prop := (fst a < fst b)%Z.

(** Two entries of a property table, the second at a higher temperature
    and with a value that is not higher. *)
Definition descending (a b : Z * R) : Prop :=
  (fst a < fst b)%Z /\ snd b <= snd a.

(** The linear interpolation between two entries of a property table. *)
Definition interpolate (e1 e2 : Z * R) (T : R) : R :=
  snd e1 + (snd e2 - snd e1) * (T - IZR (fst e1)) / (IZR (fst e2) - IZR (fst e1)).

(** * Properties *)

(** ** Deciding comparisons *)

Lemma Rltb_true x y : x < y -> Rltb x y = true.
Proof. intros H; unfold Rltb; destruct (Rlt_dec x y); [reflexivity | contradiction]. Qed.

Lemma Rltb_false x y : ~ x < y -> Rltb x y = false.
Proof. intros H; unfold Rltb; destruct (Rlt_dec x y); [contradiction | reflexivity]. Qed.

Lemma Rleb_true x y : x <= y -> Rleb x y = true.
Proof. intros H; unfold Rleb; destruct (Rle_dec x y); [reflexivity | contradiction]. Qed.

Lemma Rleb_false x y : ~ x <= y -> Rleb x y = false.
Proof. intros H; unfold Rleb; destruct (Rle_dec x y); [contradiction | reflexivity]. Qed.

Lemma Reqb_true x y : x = y -> Reqb x y = true.
Proof. intros H; unfold Reqb; destruct (Req_dec_T x y); [reflexivity | contradiction]. Qed.

Lemma Reqb_false x y : x <> y -> Reqb x y = false.
Proof. intros H; unfold Reqb; destruct (Req_dec_T x y); [contradiction | reflexivity]. Qed.

Lemma Rltb_spec x y : Rltb x y = true <-> x < y.
Proof. unfold Rltb; destruct (Rlt_dec x y); split; intros; try easy. Qed.

Lemma Rleb_spec x y : Rleb x y = true <-> x <= y.
Proof. unfold Rleb; destruct (Rle_dec x y); split; intros; try easy. Qed.

Lemma Rltb_spec_false x y : Rltb x y = false <-> y <= x.
Proof.
  unfold Rltb; destruct (Rlt_dec x y); split; intros; try easy; lra.
Qed.

Lemma Rleb_spec_false x y : Rleb x y = false <-> y < x.
Proof.
  unfold Rleb; destruct (Rle_dec x y); split; intros; try easy; lra.
Qed.

Arguments Rltb : simpl never.
Arguments Rleb : simpl never.
Arguments Reqb : simpl never.

(** Settles every comparison of the goal that linear arithmetic decides. *)
Ltac rdecide :=
  repeat match goal with
  | |- context [Rltb ?a ?b] =>
      first [ rewrite (Rltb_true a b) by lra | rewrite (Rltb_false a b) by lra ]
  | |- context [Rleb ?a ?b] =>
      first [ rewrite (Rleb_true a b) by lra | rewrite (Rleb_false a b) by lra ]
  | |- context [Reqb ?a ?b] =>
      first [ rewrite (Reqb_true a b) by lra | rewrite (Reqb_false a b) by lra ]
  end.

Lemma bind_ret {A B} (a : A) (k : A -> Py B) : bind (ret a) k = k a.
Proof. unfold bind, ret. destruct (k a); reflexivity. Qed.


(** ** Fluid property table *)

Section FluidProperties.

Import HydraulicCalculator.

(** [sorted] leaves the anchors as they are written: they are ascending. *)
Lemma sorted_viscosity_keys :
  sorted (keys viscosity_table)
  = [0; 5; 10; 15; 20; 25; 30; 40; 50; 60; 70; 80; 90; 100]%Z.
Proof. reflexivity. Qed.

Lemma sorted_density_keys :
  sorted (keys density_table)
  = [0; 5; 10; 15; 20; 25; 30; 40; 50; 60; 70; 80; 90; 100]%Z.
Proof. reflexivity. Qed.

(** Evaluates a property lookup once the comparisons with the anchors are
    decided by the hypotheses. *)
Ltac lookup_eval :=
  unfold get_kinematic_viscosity, get_water_density, lookup_table;
  rewrite ?sorted_viscosity_keys, ?sorted_density_keys;
  unfold viscosity_table, density_table;
  cbn [contains existsb bracket last getitem orb andb];
  rdecide;
  cbn [orb andb];
  rdecide;
  try reflexivity.

(** Above the table both lookups give the value of the last anchor, 100. *)
Lemma viscosity_above_range (T : R) :
  100 < T ->
  get_kinematic_viscosity T = ([TemperatureOutsideRange T], Return 0.294e-6).
Proof. intros H. lookup_eval. Qed.

Lemma density_above_range (T : R) :
  100 < T -> get_water_density T = ([], Return 958.4).
Proof. intros H. lookup_eval. Qed.

(** Below the table no pair of anchors encloses the temperature, the loop
    ends without a [return], and the statement after it reads [temps[-1]]:
    both lookups give the value of the last anchor there too. *)
Lemma viscosity_below_range (T : R) :
  T < 0 ->
  get_kinematic_viscosity T = ([TemperatureOutsideRange T], Return 0.294e-6).
Proof. intros H. lookup_eval. Qed.

Lemma density_below_range (T : R) :
  T < 0 -> get_water_density T = ([], Return 958.4).
Proof. intros H. lookup_eval. Qed.

(** The tabulated values at the two ends of the table. *)
Lemma viscosity_at_0 : get_kinematic_viscosity 0 = ([], Return 1.787e-6).
Proof. lookup_eval. Qed.

Lemma viscosity_at_100 : get_kinematic_viscosity 100 = ([], Return 0.294e-6).
Proof. lookup_eval. Qed.

Lemma viscosity_at_20 : get_kinematic_viscosity 20 = ([], Return 1.004e-6).
Proof. lookup_eval. Qed.

Lemma density_at_0 : get_water_density 0 = ([], Return 999.8).
Proof. lookup_eval. Qed.

Lemma density_at_100 : get_water_density 100 = ([], Return 958.4).
Proof. lookup_eval. Qed.

(** Inside the table, between two anchors, the lookup interpolates. *)
Lemma viscosity_between_20_25 (T : R) :
  20 < T < 25 ->
  get_kinematic_viscosity T
  = ([], Return (1.004e-6 + (0.893e-6 - 1.004e-6) * (T - 20) / (25 - 20))).
Proof. intros H. lookup_eval. Qed.

(** The lookups never raise and, the warning of the viscosity lookup
    apart, emit nothing: every key they read is a key of the table. *)
Lemma getitem_key (d : list (Z * R)) (t : Z) :
  In t (keys d) -> exists v, getitem d (IZR t) = ([], Return v).
Proof.
  induction d as [| [k v] rest IH]; intros Hin; [contradiction |].
  cbn [getitem]. destruct (Reqb (IZR k) (IZR t)) eqn:E.
  - eexists; reflexivity.
  - destruct Hin as [Hk | Hin]; [| auto].
    cbn in Hk; subst k. rewrite Reqb_true in E by reflexivity. discriminate.
Qed.

Lemma contains_key (l : list Z) (T : R) :
  contains l T = true -> exists t, In t l /\ IZR t = T.
Proof.
  unfold contains. rewrite existsb_exists. intros [t [Hin E]].
  exists t; split; [assumption |].
  unfold Reqb in E. destruct (Req_dec_T (IZR t) T); [assumption | discriminate].
Qed.

Lemma bracket_keys (temps : list Z) (T : R) (t1 t2 : Z) :
  bracket temps T = Some (t1, t2) -> In t1 temps /\ In t2 temps.
Proof.
  revert t1 t2.
  induction temps as [| a rest IH]; intros t1 t2; [discriminate |].
  destruct rest as [| b rest']; [discriminate |].
  cbn [bracket].
  destruct (Rleb (IZR a) T && Rleb T (IZR b)).
  - intros E; injection E as <- <-. split; [left | right; left]; reflexivity.
  - intros E. destruct (IH _ _ E). split; right; assumption.
Qed.

Lemma lookup_table_silent (table : list (Z * R)) (T : R) :
  sorted (keys table) = keys table ->
  keys table <> [] ->
  exists v, lookup_table table T = ([], Return v).
Proof.
  intros Hs Hne. unfold lookup_table. rewrite Hs.
  destruct (contains (keys table) T) eqn:Ec.
  - destruct (contains_key _ _ Ec) as [t [Hin <-]]. now apply getitem_key.
  - destruct (bracket (keys table) T) as [[t1 t2] |] eqn:Eb.
    + destruct (bracket_keys _ _ _ _ Eb) as [H1 H2].
      destruct (getitem_key _ _ H1) as [v1 ->].
      destruct (getitem_key _ _ H2) as [v2 ->].
      eexists; reflexivity.
    + apply getitem_key.
      destruct (exists_last Hne) as [l' [a E]].
      rewrite E, last_last. apply in_or_app; right; left; reflexivity.
Qed.

Lemma density_silent (T : R) :
  advisories (get_water_density T) = [] /\ proceeds (get_water_density T).
Proof.
  destruct (lookup_table_silent density_table T) as [v E].
  - reflexivity.
  - discriminate.
  - unfold get_water_density, proceeds. rewrite E.
    split; [reflexivity | exists v; reflexivity].
Qed.

Lemma viscosity_proceeds (T : R) : proceeds (get_kinematic_viscosity T).
Proof.
  destruct (lookup_table_silent viscosity_table T) as [v E];
    [reflexivity | discriminate |].
  unfold get_kinematic_viscosity, proceeds. rewrite E.
  destruct (Rltb T 0 || Rltb 100 T); exists v; reflexivity.
Qed.

(** C1 (the code at -5 degrees, beside the two ends of the table).  Five
    degrees below the table, [get_kinematic_viscosity] and
    [get_water_density] return the values tabulated for 100 degrees, not
    those for 0 degrees; the viscosity lookup emits its advisory, the
    density lookup emits none; neither raises. *)
Theorem lookup_below_range_takes_last_anchor :
  get_kinematic_viscosity (-5)
    = ([TemperatureOutsideRange (-5)], Return 0.294e-6)
  /\ get_kinematic_viscosity 0 = ([], Return 1.787e-6)
  /\ get_kinematic_viscosity 100 = ([], Return 0.294e-6)
  /\ get_water_density (-5) = ([], Return 958.4)
  /\ get_water_density 0 = ([], Return 999.8)
  /\ get_water_density 100 = ([], Return 958.4).
Proof.
  repeat split.
  - apply viscosity_below_range; lra.
  - exact viscosity_at_0.
  - exact viscosity_at_100.
  - apply density_below_range; lra.
  - exact density_at_0.
  - exact density_at_100.
Qed.

End FluidProperties.

(** ** Velocity and flow *)

Section VelocityAndFlow.

Import HydraulicCalculator.

(** C6.  For every flow rate and every positive diameter, converting the
    flow to a velocity and the velocity back to a flow gives the flow
    again. *)
Theorem flow_from_velocity_from_flow (Q D : R) :
  0 < D -> flow_from_velocity (velocity_from_flow Q D) D = Q.
Proof.
  intros HD. unfold flow_from_velocity, velocity_from_flow.
  assert (HPI := PI_RGT_0).
  field. split; lra.
Qed.

Lemma flow_from_velocity_from_flow_witness :
  0 < 0.1 /\ flow_from_velocity (velocity_from_flow 0.01 0.1) 0.1 = 0.01.
Proof.
  split; [lra | apply flow_from_velocity_from_flow; lra].
Defined.

(** The other direction holds as well: the two conversions are inverse to
    each other. *)
Lemma velocity_from_flow_from_velocity (v D : R) :
  0 < D -> velocity_from_flow (flow_from_velocity v D) D = v.
Proof.
  intros HD. unfold flow_from_velocity, velocity_from_flow.
  assert (HPI := PI_RGT_0).
  field. split; lra.
Qed.

End VelocityAndFlow.

(** ** Affinity laws *)

Section AffinityLaws.

Import PumpCalculator.

(** C7.  For positive speeds the three affinity laws scale flow, head and
    power by the first, second and third power of the speed ratio; as
    functions of their arguments alone they have no effect on any state. *)
Theorem affinity_laws_scaling (Q H P n1 n2 : R) :
  0 < n1 -> 0 < n2 ->
  affinity_laws_flow Q n1 n2 = Q * (n2 / n1)
  /\ affinity_laws_head H n1 n2 = H * (n2 / n1) ^ 2
  /\ affinity_laws_power P n1 n2 = P * (n2 / n1) ^ 3
  /\ (Q <> 0 -> affinity_laws_flow Q n1 n2 / Q = n2 / n1)
  /\ (H <> 0 -> affinity_laws_head H n1 n2 / H = (n2 / n1) ^ 2)
  /\ (P <> 0 -> affinity_laws_power P n1 n2 / P = (n2 / n1) ^ 3).
Proof.
  intros H1 H2.
  unfold affinity_laws_flow, affinity_laws_head, affinity_laws_power.
  repeat split; try reflexivity; intros Hne; field; split; lra.
Qed.

Lemma affinity_laws_scaling_witness :
  0 < 1750 /\ 0 < 3500
  /\ affinity_laws_flow 0.05 1750 3500 = 0.05 * (3500 / 1750)
  /\ affinity_laws_head 30 1750 3500 = 30 * (3500 / 1750) ^ 2
  /\ affinity_laws_power 20000 1750 3500 = 20000 * (3500 / 1750) ^ 3
  /\ (0.05 <> 0 -> affinity_laws_flow 0.05 1750 3500 / 0.05 = 3500 / 1750)
  /\ (30 <> 0 -> affinity_laws_head 30 1750 3500 / 30 = (3500 / 1750) ^ 2)
  /\ (20000 <> 0 ->
      affinity_laws_power 20000 1750 3500 / 20000 = (3500 / 1750) ^ 3).
Proof.
  split; [lra |]. split; [lra |].
  apply (affinity_laws_scaling 0.05 30 20000 1750 3500); lra.
Defined.

(** Scaling to another speed and back gives the value one started from. *)
Lemma affinity_laws_flow_back (Q n1 n2 : R) :
  0 < n1 -> 0 < n2 ->
  affinity_laws_flow (affinity_laws_flow Q n1 n2) n2 n1 = Q.
Proof.
  intros H1 H2. unfold affinity_laws_flow. field. split; lra.
Qed.

End AffinityLaws.

(** ** Cavitation verdict *)

Section Cavitation.

Import PumpCalculator.

Lemma cavitation_check_safe (a r sm : R) :
  safe (cavitation_check a r sm) = true <-> sm <= a - r.
Proof. cbn [cavitation_check safe]. apply Rleb_spec. Qed.

(** C3 does not hold with independent tiers.  With the default safety
    margin 0.5 a margin of 0.7 reaches the safety margin and yet is not
    SEGURO: the code reports the low-margin warning there. *)
Lemma cavitation_check_safe_but_warned :
  ~ independent_tiers 1.7 1 default_safety_margin.
Proof.
  unfold independent_tiers, default_safety_margin.
  intros (_ & _ & Hsafe & _).
  cbn [cavitation_check margin status] in Hsafe.
  assert (Hm : 0.5 <= 1.7 - 1) by lra.
  specialize (Hsafe Hm). revert Hsafe.
  rdecide. cbn. discriminate.
Qed.

(** C3, as the code has it.  The margin is available minus required, the
    safe flag holds exactly when the margin reaches the safety margin, and
    the status is decided in this order: risk of cavitation when the margin
    is below the safety margin; otherwise the low-margin warning when the
    margin is below 1.0; otherwise SEGURO. *)
Theorem cavitation_check_tiers (npsh_a npsh_r safety_margin : R) :
  let c := cavitation_check npsh_a npsh_r safety_margin in
  margin c = npsh_a - npsh_r
  /\ (safe c = true <-> safety_margin <= margin c)
  /\ (status c = RIESGO_DE_CAVITACION <-> margin c < safety_margin)
  /\ (status c = ADVERTENCIA_MARGEN_BAJO
      <-> safety_margin <= margin c /\ margin c < 1)
  /\ (status c = SEGURO <-> safety_margin <= margin c /\ 1 <= margin c).
Proof.
  cbn zeta. split; [reflexivity |]. split; [apply cavitation_check_safe |].
  cbn [cavitation_check margin status].
  destruct (Rleb safety_margin (npsh_a - npsh_r)) eqn:Es;
    [apply Rleb_spec in Es | apply Rleb_spec_false in Es]; cbn [negb fst].
  - destruct (Rltb (npsh_a - npsh_r) 1.0) eqn:El;
      [apply Rltb_spec in El | apply Rltb_spec_false in El]; cbn [fst];
      repeat split; intros; try discriminate; try lra.
  - repeat split; intros; try discriminate; try lra.
Qed.

End Cavitation.

(** ** The implicit friction-factor solve *)

Section Colebrook.

Import HydraulicCalculator.

Variables reynolds relative_roughness tolerance : R.

Let next := colebrook_next reynolds relative_roughness.

(** The loop, started at [f0] with [n] iterations left, either returns the
    first iterate that is closer than the tolerance to the one before it, or
    raises [RuntimeError] after [n] iterations none of which was. *)
Lemma colebrook_loop_outcome (n : nat) :
  forall f0 : R,
    (exists k, (k < n)%nat
       /\ colebrook_loop reynolds relative_roughness tolerance n f0
          = ([], Return (Nat.iter (S k) next f0))
       /\ Rabs (Nat.iter (S k) next f0 - Nat.iter k next f0) < tolerance
       /\ forall j, (j < k)%nat ->
            ~ Rabs (Nat.iter (S j) next f0 - Nat.iter j next f0) < tolerance)
    \/ (colebrook_loop reynolds relative_roughness tolerance n f0
          = ([], Raise RuntimeError)
        /\ forall j, (j < n)%nat ->
             ~ Rabs (Nat.iter (S j) next f0 - Nat.iter j next f0) < tolerance).
Proof.
  induction n as [| n IH]; intros f0.
  - right. split; [reflexivity | intros j Hj; lia].
  - cbn [colebrook_loop]. fold next.
    destruct (Rltb (Rabs (next f0 - f0)) tolerance) eqn:E.
    + apply Rltb_spec in E. left. exists 0%nat.
      repeat split; [lia | exact E | intros j Hj; lia].
    + assert (E' : ~ Rabs (next f0 - f0) < tolerance).
      { intros H. apply Rltb_spec in H. congruence. }
      destruct (IH (next f0)) as [(k & Hk & Hret & Hconv & Hbefore) | (Hraise & Hnone)].
      * left. exists (S k).
        rewrite (Nat.iter_succ_r (S k) _ next f0), (Nat.iter_succ_r k _ next f0).
        repeat split; [lia | exact Hret | exact Hconv |].
        intros [| j] Hj; [exact E' |].
        rewrite (Nat.iter_succ_r (S j) _ next f0), (Nat.iter_succ_r j _ next f0).
        apply Hbefore. lia.
      * right. split; [exact Hraise |].
        intros [| j] Hj; [exact E' |].
        rewrite (Nat.iter_succ_r (S j) _ next f0), (Nat.iter_succ_r j _ next f0).
        apply Hnone. lia.
Qed.

End Colebrook.

Section ColebrookCall.

Import HydraulicCalculator.

(** C5.  In the turbulent range, for a non-zero diameter (the divisor of
    the relative roughness), [friction_factor_colebrook] starts from the
    Swamee-Jain value and has exactly two outcomes.  Either some iteration
    [k] within the budget is the first to meet the tolerance, and the call
    returns the iterate computed by that iteration; or no iteration of the
    budget meets the tolerance, and the call raises [RuntimeError].  It
    returns no iterate that missed the tolerance and never returns the
    seed in place of a converged value. *)
Theorem friction_factor_colebrook_outcome
    (reynolds roughness diameter tolerance : R) (max_iter : nat) :
  4000 <= reynolds ->
  diameter <> 0 ->
  (exists k, (k < max_iter)%nat
     /\ friction_factor_colebrook reynolds roughness diameter tolerance max_iter
        = ([], Return (colebrook_iterate reynolds roughness diameter (S k)))
     /\ meets_tolerance reynolds roughness diameter tolerance k
     /\ forall j, (j < k)%nat ->
          ~ meets_tolerance reynolds roughness diameter tolerance j)
  \/ (friction_factor_colebrook reynolds roughness diameter tolerance max_iter
        = ([], Raise RuntimeError)
      /\ forall j, (j < max_iter)%nat ->
           ~ meets_tolerance reynolds roughness diameter tolerance j).
Proof.
  intros Hre _.
  unfold friction_factor_colebrook, meets_tolerance, colebrook_iterate.
  rewrite Rltb_false by lra.
  exact (colebrook_loop_outcome reynolds (roughness / diameter) tolerance
           max_iter (friction_factor_swamee_jain reynolds roughness diameter)).
Qed.

Lemma friction_factor_colebrook_outcome_witness :
  4000 <= 100000
  /\ 0.1 <> 0
  /\ ((exists k, (k < default_max_iter)%nat
        /\ friction_factor_colebrook 100000 0.00005 0.1
             default_tolerance default_max_iter
           = ([], Return (colebrook_iterate 100000 0.00005 0.1 (S k)))
        /\ meets_tolerance 100000 0.00005 0.1 default_tolerance k
        /\ forall j, (j < k)%nat ->
             ~ meets_tolerance 100000 0.00005 0.1 default_tolerance j)
      \/ (friction_factor_colebrook 100000 0.00005 0.1
            default_tolerance default_max_iter
          = ([], Raise RuntimeError)
          /\ forall j, (j < default_max_iter)%nat ->
               ~ meets_tolerance 100000 0.00005 0.1 default_tolerance j)).
Proof.
  split; [lra |]. split; [lra |].
  apply (friction_factor_colebrook_outcome 100000 0.00005 0.1
           default_tolerance default_max_iter); lra.
Defined.

(** Below the turbulent range the call is refused before any iteration. *)
Lemma friction_factor_colebrook_refused
    (reynolds roughness diameter tolerance : R) (max_iter : nat) :
  reynolds < 4000 ->
  friction_factor_colebrook reynolds roughness diameter tolerance max_iter
  = ([], Raise ValueError).
Proof.
  intros H. unfold friction_factor_colebrook. now rewrite Rltb_true.
Qed.

(** With no iteration allowed the call fails; it does not return its seed. *)
Lemma friction_factor_colebrook_no_budget
    (reynolds roughness diameter tolerance : R) :
  4000 <= reynolds ->
  diameter <> 0 ->
  friction_factor_colebrook reynolds roughness diameter tolerance 0
  = ([], Raise RuntimeError).
Proof.
  intros H _. unfold friction_factor_colebrook. now rewrite Rltb_false by lra.
Qed.

End ColebrookCall.

(** ** Regime selection in the system calculation *)

Section Regime.

Import HydraulicCalculator.

Lemma result_bind_Return {A B} (m : Py A) (a : A) (k : A -> Py B) :
  result m = Return a -> result (bind m k) = result (k a).
Proof.
  destruct m as [w o]. cbn [result snd]. intros ->.
  unfold bind. destruct (k a); reflexivity.
Qed.

Lemma result_bind_Raise {A B} (m : Py A) (e : exn) (k : A -> Py B) :
  result m = Raise e -> result (bind m k) = Raise e.
Proof.
  destruct m as [w o]. cbn [result snd]. intros ->. reflexivity.
Qed.

(** C4.  Once the Reynolds number [re] of the run is computed,
    [calculate_system] chooses the regime tag and the friction-factor method
    from [re] alone, at the fixed boundaries 2300 and 4000: below 2300
    laminar with the closed form 64/re; from 2300 (included) to 4000
    (excluded) transitional with the explicit Swamee-Jain value; from 4000
    (included) turbulent with the implicit Colebrook-White solve, whose
    value is the friction factor of the result and whose failure is the
    failure of the run. *)
Theorem calculate_system_regime
    (flow_rate diameter length roughness : R) (minor_losses_k : list R)
    (temperature elevation_change nu re : R) :
  result (get_kinematic_viscosity temperature) = Return nu ->
  result (reynolds_number (velocity_from_flow flow_rate diameter) diameter nu)
    = Return re ->
  let run :=
    result (calculate_system flow_rate diameter length roughness
              minor_losses_k temperature elevation_change) in
  (re < 2300 ->
     exists r, run = Return r /\ reynolds r = re
       /\ flow_regime r = Laminar /\ friction_factor r = 64 / re)
  /\ (2300 <= re < 4000 ->
     exists r, run = Return r /\ reynolds r = re
       /\ flow_regime r = Transitional
       /\ friction_factor r = friction_factor_swamee_jain re roughness diameter)
  /\ (4000 <= re ->
     (forall f,
        result (friction_factor_colebrook re roughness diameter
                  default_tolerance default_max_iter) = Return f ->
        exists r, run = Return r /\ reynolds r = re
          /\ flow_regime r = Turbulent /\ friction_factor r = f)
     /\ (forall e,
        result (friction_factor_colebrook re roughness diameter
                  default_tolerance default_max_iter) = Raise e ->
        run = Raise e))
  /\ (re = 2300 ->
     exists r, run = Return r /\ flow_regime r = Transitional
       /\ friction_factor r
          = friction_factor_swamee_jain 2300 roughness diameter)
  /\ (re = 4000 ->
     (forall f,
        result (friction_factor_colebrook 4000 roughness diameter
                  default_tolerance default_max_iter) = Return f ->
        exists r, run = Return r
          /\ flow_regime r = Turbulent /\ friction_factor r = f)
     /\ (forall e,
        result (friction_factor_colebrook 4000 roughness diameter
                  default_tolerance default_max_iter) = Raise e ->
        run = Raise e)).
Proof.
  intros Hnu Hre run.
  enough (Hmain :
    (re < 2300 ->
       exists r, run = Return r /\ reynolds r = re
         /\ flow_regime r = Laminar /\ friction_factor r = 64 / re)
    /\ (2300 <= re < 4000 ->
       exists r, run = Return r /\ reynolds r = re
         /\ flow_regime r = Transitional
         /\ friction_factor r
            = friction_factor_swamee_jain re roughness diameter)
    /\ (4000 <= re ->
       (forall f,
          result (friction_factor_colebrook re roughness diameter
                    default_tolerance default_max_iter) = Return f ->
          exists r, run = Return r /\ reynolds r = re
            /\ flow_regime r = Turbulent /\ friction_factor r = f)
       /\ (forall e,
          result (friction_factor_colebrook re roughness diameter
                    default_tolerance default_max_iter) = Raise e ->
          run = Raise e))).
  { destruct Hmain as (Hlam & Htra & Htur).
    split; [exact Hlam |]. split; [exact Htra |]. split; [exact Htur |].
    split.
    - intros ->. destruct Htra as (r & Hr & _ & Ht & Hf); [lra |].
      exists r. repeat split; assumption.
    - intros ->. destruct Htur as [Hok Hfail]; [lra |]. split.
      + intros f Hf. destruct (Hok f Hf) as (r & Hr & _ & Ht & Hff).
        exists r. repeat split; assumption.
      + exact Hfail. }
  subst run. unfold calculate_system.
  destruct (density_silent temperature) as [_ [rho Hrho]].
  rewrite (result_bind_Return _ _ _ Hnu).
  rewrite (result_bind_Return _ _ _ Hrho).
  rewrite (result_bind_Return _ _ _ Hre).
  split; [| split].
  - intros Hlt. rewrite Rltb_true by exact Hlt. rewrite bind_ret.
    eexists. split; [reflexivity |]. repeat split.
  - intros [Hge Hlt].
    rewrite Rltb_false by lra. rewrite Rltb_true by exact Hlt.
    rewrite bind_ret.
    eexists. split; [reflexivity |]. repeat split.
  - intros Hge. rewrite !Rltb_false by lra. split.
    + intros f Hf.
      assert (Hin :
        result (f' <- friction_factor_colebrook re roughness diameter
                        default_tolerance default_max_iter ;;
                ret (Turbulent, f')) = Return (Turbulent, f)).
      { rewrite (result_bind_Return _ _ _ Hf). reflexivity. }
      rewrite (result_bind_Return _ _ _ Hin).
      eexists. split; [reflexivity |]. repeat split.
    + intros e He.
      apply result_bind_Raise. apply result_bind_Raise. exact He.
Qed.

(** The run of the witness: water at 20 degrees in a pipe of diameter 1 at
    the flow that makes the Reynolds number exactly 2300. *)
Lemma reynolds_exactly_2300 :
  result (reynolds_number
            (velocity_from_flow (2300 * 1.004e-6 * (PI / 4)) 1) 1 1.004e-6)
  = Return 2300.
Proof.
  assert (HPI := PI_RGT_0).
  replace (velocity_from_flow (2300 * 1.004e-6 * (PI / 4)) 1)
    with (2300 * 1.004e-6)
    by (unfold velocity_from_flow; field; lra).
  unfold reynolds_number. rdecide. cbn [orb result snd ret].
  f_equal. lra.
Qed.

Lemma calculate_system_regime_witness :
  result (get_kinematic_viscosity 20) = Return 1.004e-6
  /\ result (reynolds_number (velocity_from_flow (2300 * 1.004e-6 * (PI / 4)) 1)
               1 1.004e-6)
     = Return 2300
  /\ (2300 < 2300 ->
       exists r,
         result (calculate_system (2300 * 1.004e-6 * (PI / 4)) 1 100 0.00005
                 [0.5; 0.9] 20 0) = Return r
         /\ reynolds r = 2300
         /\ flow_regime r = Laminar /\ friction_factor r = 64 / 2300)
  /\ (2300 <= 2300 < 4000 ->
       exists r,
         result (calculate_system (2300 * 1.004e-6 * (PI / 4)) 1 100 0.00005
                 [0.5; 0.9] 20 0) = Return r
         /\ reynolds r = 2300
         /\ flow_regime r = Transitional
         /\ friction_factor r = friction_factor_swamee_jain 2300 0.00005 1)
  /\ (4000 <= 2300 ->
       (forall f,
          result (friction_factor_colebrook 2300 0.00005 1
                    default_tolerance default_max_iter) = Return f ->
          exists r,
            result (calculate_system (2300 * 1.004e-6 * (PI / 4)) 1 100 0.00005
                 [0.5; 0.9] 20 0) = Return r
            /\ reynolds r = 2300
            /\ flow_regime r = Turbulent /\ friction_factor r = f)
       /\ (forall e,
          result (friction_factor_colebrook 2300 0.00005 1
                    default_tolerance default_max_iter) = Raise e ->
          result (calculate_system (2300 * 1.004e-6 * (PI / 4)) 1 100 0.00005
                 [0.5; 0.9] 20 0) = Raise e))
  /\ (2300 = 2300 ->
       exists r,
         result (calculate_system (2300 * 1.004e-6 * (PI / 4)) 1 100 0.00005
                 [0.5; 0.9] 20 0) = Return r
         /\ flow_regime r = Transitional
         /\ friction_factor r = friction_factor_swamee_jain 2300 0.00005 1)
  /\ (2300 = 4000 ->
       (forall f,
          result (friction_factor_colebrook 4000 0.00005 1
                    default_tolerance default_max_iter) = Return f ->
          exists r,
            result (calculate_system (2300 * 1.004e-6 * (PI / 4)) 1 100 0.00005
                 [0.5; 0.9] 20 0) = Return r
            /\ flow_regime r = Turbulent /\ friction_factor r = f)
       /\ (forall e,
          result (friction_factor_colebrook 4000 0.00005 1
                    default_tolerance default_max_iter) = Raise e ->
          result (calculate_system (2300 * 1.004e-6 * (PI / 4)) 1 100 0.00005
                 [0.5; 0.9] 20 0) = Raise e)).
Proof.
  assert (Hnu : result (get_kinematic_viscosity 20) = Return 1.004e-6)
    by (rewrite viscosity_at_20; reflexivity).
  split; [exact Hnu |]. split; [exact reynolds_exactly_2300 |].
  exact (calculate_system_regime (2300 * 1.004e-6 * (PI / 4)) 1 100 0.00005
           [0.5; 0.9] 20 0 1.004e-6 2300 Hnu reynolds_exactly_2300).
Defined.

End Regime.

(** ** Arrays *)

Lemma linspace_length (start stop : R) (num : nat) :
  length (linspace start stop num) = num.
Proof.
  destruct num as [| [| n]]; [reflexivity | reflexivity |].
  unfold linspace. now rewrite length_map, length_seq.
Qed.

Lemma linspace_nth_error (start stop : R) (num i : nat) (q : R) :
  nth_error (linspace start stop num) i = Some q ->
  (i < num)%nat /\ q = start + INR i * ((stop - start) / INR (num - 1)).
Proof.
  destruct num as [| [| n]].
  - destruct i; discriminate.
  - destruct i as [| i]; cbn [linspace nth_error].
    + intros E; injection E as <-. split; [lia |]. cbn [INR]. ring.
    + destruct i; discriminate.
  - unfold linspace. rewrite nth_error_map, nth_error_seq.
    destruct (i <? S (S n))%nat eqn:Ei; [| discriminate].
    apply Nat.ltb_lt in Ei. cbn [option_map Nat.add].
    intros E; injection E as <-. split; [assumption | reflexivity].
Qed.

Lemma nth_error_map_Some {A B} (f : A -> B) (l : list A) (i : nat) (y : B) :
  nth_error (map f l) i = Some y ->
  exists x, nth_error l i = Some x /\ y = f x.
Proof.
  rewrite nth_error_map. destruct (nth_error l i) as [x |]; [| discriminate].
  intros E; injection E as <-. exists x. split; reflexivity.
Qed.

Lemma Rdiv_nonneg (x y : R) : 0 <= x -> 0 <= y -> 0 <= x / y.
Proof.
  intros Hx Hy. destruct (Req_dec y 0) as [-> | Hne].
  - unfold Rdiv. rewrite Rinv_0. lra.
  - unfold Rdiv. apply Rmult_le_pos; [lra |].
    left. apply Rinv_0_lt_compat. lra.
Qed.

(** ** Pump curve *)

Section PumpCurve.

Import PumpCalculator.

(** C2 does not hold as a frame property.  The object after a call differs
    from the object before it: the call stores the curve. *)
Lemma generate_pump_curve_retains_curve :
  ~ retains_nothing __init__ (generate_pump_curve __init__ 0.05 30 20000 0.8 50).
Proof.
  unfold retains_nothing, generate_pump_curve, __init__. cbn [snd].
  intros H. apply (f_equal curve_data) in H. cbn [curve_data] in H.
  discriminate H.
Qed.

(** C2, as the code has it.  For a non-zero BEP flow (the divisor of the
    head coefficient), [generate_pump_curve] stores the curve it
    computes in the attribute [curve_data] of the object, in place of the
    one stored before, and returns that same curve; it leaves
    [efficiency_data] alone.  The returned curve is determined by the
    arguments and does not depend on what the object held before, and the
    same is true of [operating_point], which stores the curve through its
    call of [generate_pump_curve]: what one invocation retains does not reach
    the result of the next. *)
Theorem generate_pump_curve_stores_curve
    (self : object) (q_bep h_bep power_bep efficiency_bep : R)
    (num_points : nat) :
  q_bep <> 0 ->
  let call :=
    generate_pump_curve self q_bep h_bep power_bep efficiency_bep num_points in
  curve_data (snd call) = Some (fst call)
  /\ efficiency_data (snd call) = efficiency_data self
  /\ (forall other : object,
        fst (generate_pump_curve other q_bep h_bep power_bep efficiency_bep
               num_points) = fst call)
  /\ (forall system params,
        param_q_bep params <> 0 ->
        snd (operating_point self system params)
        = snd (generate_pump_curve self (param_q_bep params)
                 (param_h_bep params) (param_power_bep params)
                 (param_efficiency_bep params) (param_num_points params))
        /\ forall other : object,
             fst (operating_point other system params)
             = fst (operating_point self system params)).
Proof.
  intros _. cbn zeta. repeat split.
Qed.

Lemma generate_pump_curve_stores_curve_witness :
  0.05 <> 0
  /\ curve_data (snd (generate_pump_curve __init__ 0.05 30 20000 0.8 50))
     = Some (fst (generate_pump_curve __init__ 0.05 30 20000 0.8 50))
  /\ efficiency_data (snd (generate_pump_curve __init__ 0.05 30 20000 0.8 50))
     = efficiency_data __init__
  /\ (forall other : object,
        fst (generate_pump_curve other 0.05 30 20000 0.8 50)
        = fst (generate_pump_curve __init__ 0.05 30 20000 0.8 50))
  /\ (forall system params,
        param_q_bep params <> 0 ->
        snd (operating_point __init__ system params)
        = snd (generate_pump_curve __init__ (param_q_bep params)
                 (param_h_bep params) (param_power_bep params)
                 (param_efficiency_bep params) (param_num_points params))
        /\ forall other : object,
             fst (operating_point other system params)
             = fst (operating_point __init__ system params)).
Proof.
  assert (Hq : 0.05 <> 0) by lra.
  split; [exact Hq |].
  exact (generate_pump_curve_stores_curve __init__ 0.05 30 20000 0.8 50 Hq).
Defined.

Lemma head_at_shutoff (q_bep h_bep : R) :
  0 <= h_bep -> head_at q_bep h_bep 0 = 1.15 * h_bep.
Proof.
  intros Hh. unfold head_at, maximum.
  rewrite Rmax_left; [ring | ].
  replace (h_bep * 1.15 - (h_bep * 1.15 - h_bep) / q_bep ^ 2 * 0 ^ 2)
    with (h_bep * 1.15) by ring.
  lra.
Qed.

Lemma head_at_bep (q_bep h_bep : R) :
  q_bep <> 0 -> 0 <= h_bep -> head_at q_bep h_bep q_bep = h_bep.
Proof.
  intros Hq Hh. unfold head_at, maximum.
  replace (h_bep * 1.15 - (h_bep * 1.15 - h_bep) / q_bep ^ 2 * q_bep ^ 2)
    with h_bep by (field; exact Hq).
  now apply Rmax_left.
Qed.

Lemma head_at_nonneg (q_bep h_bep q : R) : 0 <= head_at q_bep h_bep q.
Proof. unfold head_at, maximum. apply Rmax_r. Qed.

Lemma head_at_decreasing (q_bep h_bep q1 q2 : R) :
  0 <= h_bep -> 0 <= q1 <= q2 ->
  head_at q_bep h_bep q2 <= head_at q_bep h_bep q1.
Proof.
  intros Hh [H1 H12]. unfold head_at, maximum.
  apply Rle_max_compat_r.
  assert (Ha : 0 <= (h_bep * 1.15 - h_bep) / q_bep ^ 2).
  { apply Rdiv_nonneg; [lra | apply pow2_ge_0]. }
  assert (Hsq : q1 ^ 2 <= q2 ^ 2) by nra.
  nra.
Qed.

(** The flow samples: evenly spaced from zero, none negative, rising. *)
Lemma flow_sample (q_bep : R) (num_points i : nat) (q : R) :
  0 <= q_bep ->
  nth_error (linspace 0 (1.5 * q_bep) num_points) i = Some q ->
  q = INR i * ((1.5 * q_bep - 0) / INR (num_points - 1))
  /\ 0 <= (1.5 * q_bep - 0) / INR (num_points - 1).
Proof.
  intros Hq E. apply linspace_nth_error in E as [_ ->].
  split; [ring |]. apply Rdiv_nonneg; [lra | apply pos_INR].
Qed.

(** C8.  For a positive BEP flow and a positive BEP head and any sample
    count, the flow samples of the generated curve are evenly spaced over
    [0, 1.5 q_bep]; the head samples never rise with the flow and none is
    negative; each head sample is the parabola from the shutoff head
    1.15 h_bep, floored at zero, so that a sample at zero flow has the head
    1.15 h_bep and a sample at the BEP flow has the BEP head exactly; the
    parabola itself takes the BEP head at the BEP flow; and the first
    sample, when there is one, is the one at zero flow. *)
Theorem generate_pump_curve_head
    (self : object) (q_bep h_bep power_bep efficiency_bep : R)
    (num_points : nat) :
  0 < q_bep -> 0 < h_bep ->
  let curve :=
    fst (generate_pump_curve self q_bep h_bep power_bep efficiency_bep
           num_points) in
  length (flow curve) = num_points
  /\ length (head curve) = num_points
  /\ evenly_spaced 0 (1.5 * q_bep) (flow curve)
  /\ non_increasing (head curve)
  /\ floored_at_zero (head curve)
  /\ (forall i q h,
        nth_error (flow curve) i = Some q ->
        nth_error (head curve) i = Some h ->
        h = Rmax (1.15 * h_bep - (1.15 * h_bep - h_bep) / q_bep ^ 2 * q ^ 2) 0
        /\ (q = 0 -> h = 1.15 * h_bep)
        /\ (q = q_bep -> h = h_bep))
  /\ 1.15 * h_bep - (1.15 * h_bep - h_bep) / q_bep ^ 2 * q_bep ^ 2 = h_bep
  /\ ((0 < num_points)%nat ->
        nth_error (flow curve) 0 = Some 0
        /\ nth_error (head curve) 0 = Some (1.15 * h_bep)).
Proof.
  intros Hq Hh curve. subst curve.
  unfold generate_pump_curve. cbn [fst flow head].
  set (q_range := linspace 0 (1.5 * q_bep) num_points).
  assert (Hlen : length q_range = num_points) by apply linspace_length.
  split; [exact Hlen |].
  split; [now rewrite length_map |].
  split; [| split; [| split; [| split; [| split]]]].
  - intros i q E. rewrite Hlen. now apply linspace_nth_error in E as [_ ->].
  - intros i j hi hj Hij Ei Ej.
    apply nth_error_map_Some in Ei as (qi & Ei & ->).
    apply nth_error_map_Some in Ej as (qj & Ej & ->).
    apply flow_sample in Ei as [-> Hstep]; [| lra].
    apply flow_sample in Ej as [-> _]; [| lra].
    apply head_at_decreasing; [lra |].
    assert (Hi : 0 <= INR i) by apply pos_INR.
    assert (Hle : INR i <= INR j) by now apply le_INR.
    split; [now apply Rmult_le_pos |].
    now apply Rmult_le_compat_r.
  - intros i h E. apply nth_error_map_Some in E as (q & _ & ->).
    apply head_at_nonneg.
  - intros i q h Eq Eh.
    apply nth_error_map_Some in Eh as (q' & Eq' & ->).
    rewrite Eq in Eq'. injection Eq' as <-.
    split; [| split].
    + unfold head_at, maximum. f_equal. lra.
    + intros ->. apply head_at_shutoff. lra.
    + intros ->. apply head_at_bep; lra.
  - field. lra.
  - intros Hn.
    assert (E0 : nth_error q_range 0 = Some 0).
    { subst q_range. destruct num_points as [| [| n]]; [lia | reflexivity |].
      unfold linspace. cbn [seq map nth_error]. f_equal. cbn [INR]. ring. }
    split; [exact E0 |].
    rewrite (map_nth_error _ _ _ E0). f_equal. apply head_at_shutoff. lra.
Qed.

Lemma generate_pump_curve_head_witness :
  0 < 0.05 /\ 0 < 30
  /\ length (flow (fst (generate_pump_curve __init__ 0.05 30 20000 0.8 50)))
     = 50%nat
  /\ length (head (fst (generate_pump_curve __init__ 0.05 30 20000 0.8 50)))
     = 50%nat
  /\ evenly_spaced 0 (1.5 * 0.05)
       (flow (fst (generate_pump_curve __init__ 0.05 30 20000 0.8 50)))
  /\ non_increasing
       (head (fst (generate_pump_curve __init__ 0.05 30 20000 0.8 50)))
  /\ floored_at_zero
       (head (fst (generate_pump_curve __init__ 0.05 30 20000 0.8 50)))
  /\ (forall i q h,
        nth_error
          (flow (fst (generate_pump_curve __init__ 0.05 30 20000 0.8 50))) i
        = Some q ->
        nth_error
          (head (fst (generate_pump_curve __init__ 0.05 30 20000 0.8 50))) i
        = Some h ->
        h = Rmax (1.15 * 30 - (1.15 * 30 - 30) / 0.05 ^ 2 * q ^ 2) 0
        /\ (q = 0 -> h = 1.15 * 30)
        /\ (q = 0.05 -> h = 30))
  /\ 1.15 * 30 - (1.15 * 30 - 30) / 0.05 ^ 2 * 0.05 ^ 2 = 30
  /\ ((0 < 50)%nat ->
        nth_error
          (flow (fst (generate_pump_curve __init__ 0.05 30 20000 0.8 50))) 0
        = Some 0
        /\ nth_error
             (head (fst (generate_pump_curve __init__ 0.05 30 20000 0.8 50))) 0
           = Some (1.15 * 30)).
Proof.
  split; [lra |]. split; [lra |].
  apply (generate_pump_curve_head __init__ 0.05 30 20000 0.8 50); lra.
Defined.

End PumpCurve.

(** ** Pipe-size selection *)

Section PipeSize.

Import Standards.

(** The standard sizes are listed in ascending order. *)
Lemma STANDARD_PIPE_SIZES_ascending : StronglySorted Z.le STANDARD_PIPE_SIZES.
Proof. unfold STANDARD_PIPE_SIZES. repeat constructor; lia. Qed.

(** The head of a filtered list is the first element that passes. *)
Lemma filter_first {A} (p : A -> bool) (l : list A) (x : A) (rest : list A) :
  filter p l = x :: rest ->
  exists before after,
    l = before ++ x :: after
    /\ (forall y, In y before -> p y = false)
    /\ p x = true.
Proof.
  induction l as [| a l IH]; [discriminate |].
  cbn [filter]. destruct (p a) eqn:Ea.
  - intros E; injection E as -> _. exists [], l.
    repeat split; [| assumption]. intros y [].
  - intros E. destruct (IH E) as (before & after & -> & Hb & Hx).
    exists (a :: before), after. repeat split; [| assumption].
    intros y [<- | Hy]; [assumption | now apply Hb].
Qed.

(** In an ascending list it is also the least element that passes. *)
Lemma filter_first_least (p : Z -> bool) (l : list Z) :
  StronglySorted Z.le l ->
  forall x rest, filter p l = x :: rest ->
  forall y, In y l -> p y = true -> (x <= y)%Z.
Proof.
  induction 1 as [| a l Hs IH Ha]; intros x rest E y Hy Hp; [contradiction |].
  cbn [filter] in E. destruct (p a) eqn:Ea.
  - injection E as -> _. destruct Hy as [<- | Hy]; [lia |].
    rewrite Forall_forall in Ha. now apply Ha.
  - destruct Hy as [<- | Hy]; [congruence |]. now apply (IH x rest).
Qed.

Lemma filter_none {A} (p : A -> bool) (l : list A) :
  filter p l = [] -> forall y, In y l -> p y = false.
Proof.
  intros E y Hy. destruct (p y) eqn:Ey; [| reflexivity].
  assert (Hin : In y (filter p l)) by (apply filter_In; now split).
  rewrite E in Hin. contradiction.
Qed.

(** The velocity in a pipe of the required diameter is the maximum
    velocity the diameter was computed from. *)
Lemma velocity_at_required_diameter (flow_rate max_velocity : R) :
  0 < flow_rate -> 0 < max_velocity ->
  flow_rate
  / (PI * (sqrt (4 * (flow_rate / max_velocity) / PI) * 1000 / 1000 / 2) ^ 2)
  = max_velocity.
Proof.
  intros HQ Hv. assert (HPI := PI_RGT_0).
  assert (HX : 0 < 4 * (flow_rate / max_velocity) / PI).
  { apply Rdiv_lt_0_compat; [| assumption].
    apply Rmult_lt_0_compat; [lra |]. now apply Rdiv_lt_0_compat. }
  replace (PI * (sqrt (4 * (flow_rate / max_velocity) / PI) * 1000 / 1000 / 2) ^ 2)
    with (PI * (sqrt (4 * (flow_rate / max_velocity) / PI) ^ 2 / 4))
    by field.
  rewrite pow2_sqrt by lra. field. repeat split; lra.
Qed.

(** A wider pipe carries the same flow more slowly. *)
Lemma velocity_in_wider_pipe (flow_rate d1 d2 : R) :
  0 < flow_rate -> 0 < d1 <= d2 ->
  flow_rate / (PI * (d2 / 2) ^ 2) <= flow_rate / (PI * (d1 / 2) ^ 2).
Proof.
  intros HQ [H1 H12]. assert (HPI := PI_RGT_0).
  assert (Hden1 : 0 < PI * (d1 / 2) ^ 2) by (apply Rmult_lt_0_compat; nra).
  assert (Hden : PI * (d1 / 2) ^ 2 <= PI * (d2 / 2) ^ 2).
  { apply Rmult_le_compat_l; [lra | nra]. }
  unfold Rdiv at 1 3. apply Rmult_le_compat_l; [lra |].
  now apply Rinv_le_contravar.
Qed.

(** C9.  For a positive flow rate and a positive maximum velocity,
    [select_pipe_size] computes the required diameter from Q = v_max A and
    has two outcomes.  Status OK: the recommended size is a standard size
    that is at least the required diameter, the first such size of the list
    and the smallest one, and the actual velocity, recomputed at that size,
    is at most the velocity at the required diameter, which is the maximum
    velocity.  Status ERROR, returned and not raised: every standard size
    is below the required diameter. *)
Theorem select_pipe_size_selection (flow_rate max_velocity : R) :
  0 < flow_rate -> 0 < max_velocity ->
  match select_pipe_size flow_rate max_velocity with
  | OK required_diameter_mm recommended_dn actual_velocity _ _ =>
      required_diameter_mm
        = sqrt (4 * (flow_rate / max_velocity) / PI) * 1000
      /\ In recommended_dn STANDARD_PIPE_SIZES
      /\ required_diameter_mm <= IZR recommended_dn
      /\ (exists before after,
            STANDARD_PIPE_SIZES = before ++ recommended_dn :: after
            /\ forall dn, In dn before -> IZR dn < required_diameter_mm)
      /\ (forall dn, In dn STANDARD_PIPE_SIZES ->
            required_diameter_mm <= IZR dn -> (recommended_dn <= dn)%Z)
      /\ actual_velocity
         = flow_rate / (PI * (IZR recommended_dn / 1000 / 2) ^ 2)
      /\ actual_velocity
         <= flow_rate / (PI * (required_diameter_mm / 1000 / 2) ^ 2)
      /\ flow_rate / (PI * (required_diameter_mm / 1000 / 2) ^ 2)
         = max_velocity
  | ERROR diameter_required =>
      diameter_required = sqrt (4 * (flow_rate / max_velocity) / PI) * 1000
      /\ forall dn, In dn STANDARD_PIPE_SIZES -> IZR dn < diameter_required
  end.
Proof.
  intros HQ Hv. unfold select_pipe_size.
  set (dreq := sqrt (4 * (flow_rate / max_velocity) / PI) * 1000).
  set (p := fun dn : Z => Rleb dreq (IZR dn)).
  destruct (filter p STANDARD_PIPE_SIZES) as [| dn rest] eqn:Ef.
  - split; [reflexivity |]. intros dn Hdn.
    apply (filter_none _ _ Ef) in Hdn. now apply Rleb_spec_false in Hdn.
  - destruct (filter_first _ _ _ _ Ef) as (before & after & Hl & Hb & Hp).
    apply Rleb_spec in Hp.
    assert (HPI := PI_RGT_0).
    assert (Hpos : 0 < dreq / 1000).
    { subst dreq. 
      replace (sqrt (4 * (flow_rate / max_velocity) / PI) * 1000 / 1000)
        with (sqrt (4 * (flow_rate / max_velocity) / PI)) by field.
      apply sqrt_lt_R0. apply Rdiv_lt_0_compat; [| assumption].
      apply Rmult_lt_0_compat; [lra |]. now apply Rdiv_lt_0_compat. }
    split; [reflexivity |].
    split; [rewrite Hl; apply in_or_app; right; left; reflexivity |].
    split; [exact Hp |].
    split.
    { exists before, after. split; [exact Hl |].
      intros s Hs. apply Hb in Hs. now apply Rleb_spec_false in Hs. }
    split.
    { intros s Hs Hge.
      apply (filter_first_least p _ STANDARD_PIPE_SIZES_ascending dn rest Ef);
        [assumption | now apply Rleb_spec]. }
    split; [reflexivity |].
    split.
    { apply velocity_in_wider_pipe; [assumption |]. split; lra. }
    now apply velocity_at_required_diameter.
Qed.

Lemma select_pipe_size_selection_witness :
  0 < 0.01 /\ 0 < 2
  /\ match select_pipe_size 0.01 2 with
     | OK required_diameter_mm recommended_dn actual_velocity _ _ =>
         required_diameter_mm = sqrt (4 * (0.01 / 2) / PI) * 1000
         /\ In recommended_dn STANDARD_PIPE_SIZES
         /\ required_diameter_mm <= IZR recommended_dn
         /\ (exists before after,
               STANDARD_PIPE_SIZES = before ++ recommended_dn :: after
               /\ forall dn, In dn before -> IZR dn < required_diameter_mm)
         /\ (forall dn, In dn STANDARD_PIPE_SIZES ->
               required_diameter_mm <= IZR dn -> (recommended_dn <= dn)%Z)
         /\ actual_velocity
            = 0.01 / (PI * (IZR recommended_dn / 1000 / 2) ^ 2)
         /\ actual_velocity
            <= 0.01 / (PI * (required_diameter_mm / 1000 / 2) ^ 2)
         /\ 0.01 / (PI * (required_diameter_mm / 1000 / 2) ^ 2) = 2
     | ERROR diameter_required =>
         diameter_required = sqrt (4 * (0.01 / 2) / PI) * 1000
         /\ forall dn, In dn STANDARD_PIPE_SIZES -> IZR dn < diameter_required
     end.
Proof.
  split; [lra |]. split; [lra |].
  apply (select_pipe_size_selection 0.01 2); lra.
Defined.

End PipeSize.

(** ** Operating point *)

Section OperatingPointSearch.

Import PumpCalculator.

Lemma map2_length {A B C} (f : A -> B -> C) (l1 : list A) (l2 : list B) :
  length l1 = length l2 -> length (map2 f l1 l2) = length l1.
Proof.
  revert l2. induction l1 as [| a l1 IH]; intros [| b l2] E;
    try reflexivity; try discriminate.
  cbn [map2 length]. f_equal. apply IH. now injection E.
Qed.

Lemma map2_nth {A B C} (f : A -> B -> C) (da : A) (db : B) (dc : C)
    (l1 : list A) (l2 : list B) (i : nat) :
  length l1 = length l2 -> (i < length l1)%nat ->
  nth i (map2 f l1 l2) dc = f (nth i l1 da) (nth i l2 db).
Proof.
  revert l2 i. induction l1 as [| a l1 IH]; intros [| b l2] i E Hi;
    try discriminate; cbn [length] in Hi; try lia.
  destruct i as [| i]; [reflexivity |].
  cbn [map2 nth]. apply IH; [now injection E | lia].
Qed.

Lemma item_map (f : R -> R) (l : list R) (i : nat) :
  (i < length l)%nat -> item (map f l) i = f (item l i).
Proof.
  intros Hi. unfold item.
  rewrite (nth_indep _ 0 (f 0)) by now rewrite length_map.
  apply map_nth.
Qed.

(** The scan of [np.argmin], started after the prefix [pre] with the best
    index so far, ends at the first minimizer of the whole array. *)
Lemma argmin_from_first (l : list R) :
  forall (pre : list R) (best_i i : nat) (best : R),
    i = length pre ->
    best = nth best_i pre 0 ->
    (best_i < length pre)%nat ->
    (forall j, (j < length pre)%nat -> best <= nth j pre 0) ->
    (forall j, (j < best_i)%nat -> best < nth j pre 0) ->
    first_minimizer (fun k => nth k (pre ++ l) 0) (length (pre ++ l))
      (argmin_from best_i best i l).
Proof.
  induction l as [| x t IH]; intros pre best_i i best Hi Hbest Hb Hmin Hfirst.
  - cbn [argmin_from]. rewrite app_nil_r. subst best.
    repeat split; assumption.
  - cbn [argmin_from].
    assert (Hlen : length (pre ++ [x]) = S (length pre))
      by (rewrite length_app; cbn [length]; lia).
    assert (Hx : nth (length pre) (pre ++ [x]) 0 = x) by apply nth_middle.
    assert (Hold : forall j, (j < length pre)%nat ->
                     nth j (pre ++ [x]) 0 = nth j pre 0)
      by (intros j Hj; now apply app_nth1).
    replace (pre ++ x :: t) with ((pre ++ [x]) ++ t)
      by (rewrite <- app_assoc; reflexivity).
    destruct (Rltb x best) eqn:E.
    + apply Rltb_spec in E.
      apply IH.
      * lia.
      * subst i. now rewrite Hx.
      * lia.
      * intros j Hj.
        destruct (Nat.eq_dec j (length pre)) as [-> | Hne];
          [rewrite Hx; lra |].
        rewrite Hold by lia. specialize (Hmin j ltac:(lia)). lra.
      * intros j Hj. rewrite Hold by lia.
        specialize (Hmin j ltac:(lia)). lra.
    + apply Rltb_spec_false in E.
      apply IH.
      * lia.
      * now rewrite Hold.
      * lia.
      * intros j Hj.
        destruct (Nat.eq_dec j (length pre)) as [-> | Hne];
          [rewrite Hx; lra |].
        rewrite Hold by lia. apply Hmin. lia.
      * intros j Hj. rewrite Hold by lia. now apply Hfirst.
Qed.

Lemma argmin_first (x : R) (t : list R) :
  first_minimizer (fun i => nth i (x :: t) 0) (length (x :: t))
    (argmin_from 0 x 1 t).
Proof.
  apply (argmin_from_first t [x] 0%nat).
  - reflexivity.
  - reflexivity.
  - cbn; lia.
  - intros j Hj. cbn [length] in Hj. replace j with 0%nat by lia. cbn; lra.
  - intros j Hj. lia.
Qed.

Lemma first_minimizer_ext (d d' : nat -> R) (n idx : nat) :
  (forall i, (i < n)%nat -> d i = d' i) ->
  first_minimizer d n idx -> first_minimizer d' n idx.
Proof.
  intros Hext (Hidx & Hmin & Hfirst). repeat split; [assumption | |].
  - intros j Hj. rewrite <- !Hext by assumption. now apply Hmin.
  - intros j Hj. rewrite <- !Hext by lia. now apply Hfirst.
Qed.

(** C10.  When the curve has at least one sample and the BEP flow is not
    zero (it is the divisor of the head coefficient), [operating_point]
    returns the sample at the first index at which the distance between
    pump head and system head is minimal: no sample is closer, and every
    sample before it is strictly farther, so that among tied minimizers the
    one with the smallest index is chosen, which for a positive BEP flow is
    the one with the smallest flow.  The flow, head, power and efficiency returned are
    read from the curve arrays at that one index. *)
Theorem operating_point_first_minimizer
    (self : object) (system : SystemCurveParams) (params : PumpCurveParams) :
  (0 < param_num_points params)%nat ->
  param_q_bep params <> 0 ->
  exists idx op,
    fst (operating_point self system params) = ([], Return op)
    /\ first_minimizer
         (head_difference system
            (fst (generate_pump_curve self (param_q_bep params)
                    (param_h_bep params) (param_power_bep params)
                    (param_efficiency_bep params) (param_num_points params))))
         (param_num_points params) idx
    /\ (0 < param_q_bep params ->
        forall j, (j < param_num_points params)%nat ->
          head_difference system
            (fst (generate_pump_curve self (param_q_bep params)
                    (param_h_bep params) (param_power_bep params)
                    (param_efficiency_bep params) (param_num_points params))) j
          = head_difference system
              (fst (generate_pump_curve self (param_q_bep params)
                      (param_h_bep params) (param_power_bep params)
                      (param_efficiency_bep params) (param_num_points params)))
              idx ->
          flow_operating op
          <= item (flow (fst (generate_pump_curve self (param_q_bep params)
                     (param_h_bep params) (param_power_bep params)
                     (param_efficiency_bep params) (param_num_points params))))
               j)
    /\ flow_operating op
       = item (flow (fst (generate_pump_curve self (param_q_bep params)
                  (param_h_bep params) (param_power_bep params)
                  (param_efficiency_bep params) (param_num_points params))))
           idx
    /\ head_operating op
       = item (head (fst (generate_pump_curve self (param_q_bep params)
                  (param_h_bep params) (param_power_bep params)
                  (param_efficiency_bep params) (param_num_points params))))
           idx
    /\ power_operating op
       = item (power (fst (generate_pump_curve self (param_q_bep params)
                  (param_h_bep params) (param_power_bep params)
                  (param_efficiency_bep params) (param_num_points params))))
           idx
    /\ efficiency_operating op
       = item (efficiency (fst (generate_pump_curve self (param_q_bep params)
                  (param_h_bep params) (param_power_bep params)
                  (param_efficiency_bep params) (param_num_points params))))
           idx.
Proof.
  destruct params as [q_bep h_bep power_bep efficiency_bep num_points].
  cbn [param_q_bep param_h_bep param_power_bep param_efficiency_bep
       param_num_points].
  intros HN _.
  unfold operating_point, generate_pump_curve, head_difference.
  cbn [fst flow head power efficiency
       param_q_bep param_h_bep param_power_bep param_efficiency_bep
       param_num_points].
  set (q_range := linspace 0 (1.5 * q_bep) num_points).
  set (h_pump := map (head_at q_bep h_bep) q_range).
  set (h_system :=
         map (fun q => h_static system + k_coefficient system * q ^ 2) q_range).
  set (diff := map2 (fun hp hs => Rabs (hp - hs)) h_pump h_system).
  assert (Hq : length q_range = num_points) by apply linspace_length.
  assert (Hp : length h_pump = num_points)
    by (subst h_pump; now rewrite length_map).
  assert (Hs : length h_system = num_points)
    by (subst h_system; now rewrite length_map).
  assert (Hd : length diff = num_points)
    by (subst diff; rewrite map2_length; congruence).
  assert (Hdiff : forall i, (i < num_points)%nat ->
            nth i diff 0
            = Rabs (item h_pump i
                    - (h_static system
                       + k_coefficient system * item q_range i ^ 2))).
  { intros i Hi. subst diff.
    rewrite (map2_nth _ 0 0 0) by (try congruence; lia).
    subst h_system. fold (item h_pump i).
    fold (item (map (fun q => h_static system + k_coefficient system * q ^ 2)
                  q_range) i).
    rewrite item_map by lia. reflexivity. }
  destruct diff as [| x t] eqn:Ediff; [cbn [length] in Hd; lia |].
  cbn [argmin]. rewrite bind_ret.
  assert (Hfirst := argmin_first x t). rewrite Hd in Hfirst.
  apply (first_minimizer_ext _ _ _ _ Hdiff) in Hfirst.
  exists (argmin_from 0 x 1 t). eexists.
  split; [reflexivity |]. split; [exact Hfirst |].
  cbn [flow_operating head_operating power_operating efficiency_operating].
  split; [| repeat split].
  intros Hpos j Hj Htie.
  destruct Hfirst as (Hidx & _ & Hbefore).
  set (idx := argmin_from 0 x 1 t) in *.
  assert (Hle : (idx <= j)%nat).
  { destruct (le_lt_dec idx j) as [H | H]; [assumption |].
    specialize (Hbefore j H). rewrite Htie in Hbefore. lra. }
  assert (Hitem : forall i, (i < num_points)%nat ->
            item q_range i
            = INR i * ((1.5 * q_bep - 0) / INR (num_points - 1))).
  { intros i Hi. unfold item.
    assert (E : nth_error q_range i = Some (nth i q_range 0))
      by (apply nth_error_nth'; lia).
    apply flow_sample in E as [E _]; [exact E | lra]. }
  rewrite (Hitem idx Hidx), (Hitem j Hj).
  apply Rmult_le_compat_r; [| now apply le_INR].
  apply Rdiv_nonneg; [lra | apply pos_INR].
Qed.

Lemma operating_point_first_minimizer_witness :
  (0 < 50)%nat
  /\ param_q_bep
       {| param_q_bep := 0.05; param_h_bep := 30;
          param_power_bep := 20000; param_efficiency_bep := 0.8;
          param_num_points := 50 |} <> 0
  /\ exists idx op,
       fst (operating_point __init__
              {| h_static := 20; k_coefficient := 4000 |}
              {| param_q_bep := 0.05; param_h_bep := 30;
                 param_power_bep := 20000; param_efficiency_bep := 0.8;
                 param_num_points := 50 |}) = ([], Return op)
       /\ first_minimizer
            (head_difference {| h_static := 20; k_coefficient := 4000 |}
               (fst (generate_pump_curve __init__ 0.05 30 20000 0.8 50)))
            50 idx
       /\ (0 < 0.05 ->
           forall j, (j < 50)%nat ->
             head_difference {| h_static := 20; k_coefficient := 4000 |}
               (fst (generate_pump_curve __init__ 0.05 30 20000 0.8 50)) j
             = head_difference {| h_static := 20; k_coefficient := 4000 |}
                 (fst (generate_pump_curve __init__ 0.05 30 20000 0.8 50)) idx ->
             flow_operating op
             <= item (flow (fst (generate_pump_curve __init__ 0.05 30 20000 0.8 50)))
                  j)
       /\ flow_operating op
          = item (flow (fst (generate_pump_curve __init__ 0.05 30 20000 0.8 50)))
              idx
       /\ head_operating op
          = item (head (fst (generate_pump_curve __init__ 0.05 30 20000 0.8 50)))
              idx
       /\ power_operating op
          = item (power (fst (generate_pump_curve __init__ 0.05 30 20000 0.8 50)))
              idx
       /\ efficiency_operating op
          = item (efficiency
                    (fst (generate_pump_curve __init__ 0.05 30 20000 0.8 50)))
              idx.
Proof.
  split; [lia |]. split; [cbn [param_q_bep]; lra |].
  apply (operating_point_first_minimizer __init__
           {| h_static := 20; k_coefficient := 4000 |}
           {| param_q_bep := 0.05; param_h_bep := 30;
              param_power_bep := 20000; param_efficiency_bep := 0.8;
              param_num_points := 50 |});
    [cbn [param_num_points]; lia | cbn [param_q_bep]; lra].
Defined.

End OperatingPointSearch.

(** * Further properties of the hydraulic solver *)

Section PressureAndHead.

Import HydraulicCalculator.

(** X1.  For a positive density, pressure to head and head to pressure are
    inverse to each other, in both directions. *)
Theorem pressure_head_round_trip (pressure head density : R) :
  0 < density ->
  head_to_pressure (pressure_to_head pressure density) density = pressure
  /\ pressure_to_head (head_to_pressure head density) density = head.
Proof.
  intros Hd. unfold head_to_pressure, pressure_to_head, GRAVITY.
  split; field; lra.
Qed.

Lemma pressure_head_round_trip_witness :
  0 < 1000
  /\ head_to_pressure (pressure_to_head 100000 1000) 1000 = 100000
  /\ pressure_to_head (head_to_pressure 10 1000) 1000 = 10.
Proof.
  split; [lra | apply (pressure_head_round_trip 100000 10 1000); lra].
Defined.

End PressureAndHead.

Section TableBounds.

Import HydraulicCalculator.

Lemma getitem_key_value (d : list (Z * R)) (t : Z) :
  In t (keys d) ->
  exists v, getitem d (IZR t) = ([], Return v) /\ In v (map snd d).
Proof.
  induction d as [| [k v] rest IH]; intros Hin; [contradiction |].
  cbn [getitem]. destruct (Reqb (IZR k) (IZR t)) eqn:E.
  - exists v. split; [reflexivity | left; reflexivity].
  - destruct Hin as [Hk | Hin].
    + cbn in Hk; subst k. rewrite Reqb_true in E by reflexivity. discriminate.
    + destruct (IH Hin) as (v' & Hv & Hin'). exists v'.
      split; [assumption | right; assumption].
Qed.

(** The pair of anchors the loop stops at encloses the temperature, and in
    an ascending list its first anchor is below its second. *)
Lemma bracket_encloses (temps : list Z) (T : R) (t1 t2 : Z) :
  StronglySorted Z.lt temps ->
  bracket temps T = Some (t1, t2) ->
  (t1 < t2)%Z /\ IZR t1 <= T <= IZR t2.
Proof.
  intros Hs. revert t1 t2.
  induction Hs as [| a rest Hs IH Ha]; intros t1 t2; [discriminate |].
  destruct rest as [| b rest']; [discriminate |].
  cbn [bracket].
  destruct (Rleb (IZR a) T) eqn:E1; cbn [andb].
  - destruct (Rleb T (IZR b)) eqn:E2.
    + intros E; injection E as <- <-.
      apply Rleb_spec in E1. apply Rleb_spec in E2.
      rewrite Forall_forall in Ha.
      split; [apply Ha; left; reflexivity | split; assumption].
    + apply IH.
  - apply IH.
Qed.

(** A value interpolated between two anchors lies between their values. *)
Lemma interpolation_between (lo hi v1 v2 t1 t2 T : R) :
  lo <= v1 <= hi -> lo <= v2 <= hi -> t1 < t2 -> t1 <= T <= t2 ->
  lo <= v1 + (v2 - v1) * (T - t1) / (t2 - t1) <= hi.
Proof.
  intros H1 H2 Ht HT.
  set (s := (T - t1) / (t2 - t1)).
  assert (Hs : 0 <= s <= 1).
  { subst s. split.
    - apply Rdiv_nonneg; lra.
    - apply Rmult_le_reg_r with (t2 - t1); [lra |].
      unfold Rdiv. rewrite Rmult_assoc, Rinv_l by lra. lra. }
  replace (v1 + (v2 - v1) * (T - t1) / (t2 - t1)) with (v1 + (v2 - v1) * s)
    by (subst s; unfold Rdiv; ring).
  split; nra.
Qed.

Lemma lookup_table_bounded (table : list (Z * R)) (lo hi T : R) :
  sorted (keys table) = keys table ->
  StronglySorted Z.lt (keys table) ->
  keys table <> [] ->
  Forall (fun v => lo <= v <= hi) (map snd table) ->
  exists v, lookup_table table T = ([], Return v) /\ lo <= v <= hi.
Proof.
  intros Hsorted Hs Hne Hall. rewrite Forall_forall in Hall.
  unfold lookup_table. rewrite Hsorted.
  destruct (contains (keys table) T) eqn:Ec.
  - destruct (contains_key _ _ Ec) as [t [Hin <-]].
    destruct (getitem_key_value _ _ Hin) as (v & Hv & Hval).
    exists v. split; [assumption | now apply Hall].
  - destruct (bracket (keys table) T) as [[t1 t2] |] eqn:Eb.
    + destruct (bracket_keys _ _ _ _ Eb) as [H1 H2].
      destruct (bracket_encloses _ _ _ _ Hs Eb) as [Hlt HT].
      destruct (getitem_key_value _ _ H1) as (v1 & -> & Hv1).
      destruct (getitem_key_value _ _ H2) as (v2 & -> & Hv2).
      eexists. split; [reflexivity |].
      apply interpolation_between;
        [now apply Hall | now apply Hall | now apply IZR_lt | assumption].
    + destruct (exists_last Hne) as [l' [a E]].
      assert (Hin : In (last (keys table) 0%Z) (keys table)).
      { rewrite E, last_last. apply in_or_app; right; left; reflexivity. }
      destruct (getitem_key_value _ _ Hin) as (v & Hv & Hval).
      exists v. split; [assumption | now apply Hall].
Qed.

Lemma anchors_ascending :
  StronglySorted Z.lt
    [0; 5; 10; 15; 20; 25; 30; 40; 50; 60; 70; 80; 90; 100]%Z.
Proof. repeat constructor; lia. Qed.

(** Both lookups return, and within the range of the tabulated values. *)
Lemma lookups_bounded (temperature : R) :
  exists nu rho,
    result (get_kinematic_viscosity temperature) = Return nu
    /\ 0.294e-6 <= nu <= 1.787e-6
    /\ get_water_density temperature = ([], Return rho)
    /\ 958.4 <= rho <= 1000.
Proof.
  destruct (lookup_table_bounded viscosity_table 0.294e-6 1.787e-6 temperature)
    as (nu & Hnu & Hb).
  { reflexivity. }
  { exact anchors_ascending. }
  { discriminate. }
  { unfold viscosity_table. cbn [map snd].
    repeat (apply Forall_cons; [lra |]). apply Forall_nil. }
  destruct (lookup_table_bounded density_table 958.4 1000 temperature)
    as (rho & Hrho & Hr).
  { reflexivity. }
  { exact anchors_ascending. }
  { discriminate. }
  { unfold density_table. cbn [map snd].
    repeat (apply Forall_cons; [lra |]). apply Forall_nil. }
  exists nu, rho. repeat split; try assumption; try apply Hb; try apply Hr.
  unfold get_kinematic_viscosity. rewrite Hnu.
  destruct (Rltb temperature 0 || Rltb 100 temperature); reflexivity.
Qed.

(** X2.  Whatever the temperature, inside the table or outside it, the two
    property lookups return without raising, and what they return lies
    between the smallest and the largest tabulated value: the viscosity in
    [0.294e-6, 1.787e-6], the density in [958.4, 1000]. *)
Theorem fluid_properties_bounded (temperature : R) :
  exists nu rho,
    result (get_kinematic_viscosity temperature) = Return nu
    /\ 0.294e-6 <= nu <= 1.787e-6
    /\ get_water_density temperature = ([], Return rho)
    /\ 958.4 <= rho <= 1000.
Proof. exact (lookups_bounded temperature). Qed.

Lemma getitem_tabulated (d : list (Z * R)) (t : Z) (v : R) :
  StronglySorted Z.lt (keys d) -> In (t, v) d ->
  getitem d (IZR t) = ([], Return v).
Proof.
  induction d as [| [k v0] rest IH]; intros Hs Hin; [contradiction |].
  cbn [keys map fst] in Hs. apply StronglySorted_inv in Hs as [Hs Hk].
  cbn [getitem]. destruct Hin as [E | Hin].
  - injection E as -> ->. now rewrite Reqb_true.
  - assert (Hlt : (k < t)%Z).
    { rewrite Forall_forall in Hk. apply Hk.
      change t with (fst (t, v)). now apply in_map. }
    rewrite Reqb_false by (intros E; apply eq_IZR in E; lia).
    now apply IH.
Qed.

Lemma lookup_table_tabulated (table : list (Z * R)) (t : Z) (v : R) :
  sorted (keys table) = keys table ->
  StronglySorted Z.lt (keys table) ->
  In (t, v) table ->
  lookup_table table (IZR t) = ([], Return v).
Proof.
  intros Hsorted Hs Hin. unfold lookup_table. rewrite Hsorted.
  assert (Hc : contains (keys table) (IZR t) = true).
  { unfold contains. apply existsb_exists. exists t. split.
    - change t with (fst (t, v)). now apply in_map.
    - now apply Reqb_true. }
  rewrite Hc. now apply getitem_tabulated.
Qed.

End TableBounds.

Section MinorLosses.

Import HydraulicCalculator.

Lemma fold_left_Rplus (l : list R) (a : R) :
  fold_left Rplus l a = a + fold_left Rplus l 0.
Proof.
  revert a. induction l as [| x l IH]; intros a; cbn [fold_left].
  - ring.
  - rewrite (IH (a + x)), (IH (0 + x)). ring.
Qed.

Lemma sum_cons (x : R) (l : list R) : sum (x :: l) = x + sum l.
Proof.
  unfold sum. cbn [fold_left]. rewrite fold_left_Rplus. ring.
Qed.

Lemma sum_permutation (l l' : list R) : Permutation l l' -> sum l = sum l'.
Proof.
  induction 1 as [| x l l' _ IH | x y l | l l' l'' _ IH1 _ IH2].
  - reflexivity.
  - rewrite !sum_cons, IH. reflexivity.
  - rewrite !sum_cons. ring.
  - congruence.
Qed.

Lemma sum_minor_losses (velocity : R) (ks : list R) :
  sum (map (fun k => minor_loss k velocity) ks) = minor_loss (sum ks) velocity.
Proof.
  induction ks as [| k ks IH].
  - unfold sum, minor_loss. cbn [map fold_left]. unfold Rdiv. ring.
  - cbn [map]. rewrite !sum_cons, IH. unfold minor_loss, Rdiv. ring.
Qed.

(** X3.  The minor losses of a list of fittings add up to the minor loss of
    one fitting whose K-factor is the sum of theirs, and the total does not
    depend on the order in which the fittings are listed. *)
Theorem minor_losses_additive (velocity : R) (ks : list R) :
  sum (map (fun k => minor_loss k velocity) ks)
    = minor_loss (sum ks) velocity
  /\ forall ks', Permutation ks ks' ->
       sum (map (fun k => minor_loss k velocity) ks')
       = sum (map (fun k => minor_loss k velocity) ks).
Proof.
  split.
  - apply sum_minor_losses.
  - intros ks' Hp. symmetry. apply sum_permutation. now apply Permutation_map.
Qed.

End MinorLosses.

Section SystemRun.

Import HydraulicCalculator.

Lemma advisories_bind {A B} (m : Py A) (k : A -> Py B) :
  advisories (bind m k)
  = advisories m
    ++ match result m with
       | Return a => advisories (k a)
       | Raise _ => []
       end.
Proof.
  destruct m as [w [a | e]]; unfold bind, advisories, result; cbn [fst snd].
  - destruct (k a); reflexivity.
  - now rewrite app_nil_r.
Qed.

Lemma friction_factor_colebrook_silent
    (re roughness diameter tolerance : R) (max_iter : nat) :
  diameter <> 0 ->
  advisories (friction_factor_colebrook re roughness diameter tolerance
                max_iter) = []
  /\ ((exists f,
         result (friction_factor_colebrook re roughness diameter tolerance
                   max_iter) = Return f)
      \/ (4000 <= re
          /\ result (friction_factor_colebrook re roughness diameter tolerance
                       max_iter) = Raise RuntimeError)
      \/ (re < 4000
          /\ result (friction_factor_colebrook re roughness diameter tolerance
                       max_iter) = Raise ValueError)).
Proof.
  intros _.
  unfold friction_factor_colebrook.
  destruct (Rltb re 4000) eqn:E.
  - apply Rltb_spec in E. split; [reflexivity |]. right. right.
    split; [assumption | reflexivity].
  - apply Rltb_spec_false in E.
    destruct (colebrook_loop_outcome re (roughness / diameter) tolerance
                max_iter
                (0.25 / log10 (roughness / diameter / 3.7
                               + 5.74 / Rpower re 0.9) ^ 2))
      as [(k & _ & -> & _) | (-> & _)].
    + split; [reflexivity |]. left. eexists; reflexivity.
    + split; [reflexivity |]. right. left. split; [assumption | reflexivity].
Qed.

(** The run, regime by regime, once the lookups and the Reynolds number have
    returned. *)
Lemma calculate_system_cases
    (flow_rate diameter length roughness : R) (minor_losses_k : list R)
    (temperature elevation_change nu rho re : R) :
  result (get_kinematic_viscosity temperature) = Return nu ->
  result (get_water_density temperature) = Return rho ->
  result (reynolds_number (velocity_from_flow flow_rate diameter) diameter nu)
    = Return re ->
  let run :=
    result (calculate_system flow_rate diameter length roughness
              minor_losses_k temperature elevation_change) in
  let record :=
    system_record flow_rate diameter length roughness minor_losses_k
      elevation_change nu rho re in
  (re < 2300 -> run = Return (record Laminar (64 / re)))
  /\ (2300 <= re < 4000 ->
      run = Return (record Transitional
                      (friction_factor_swamee_jain re roughness diameter)))
  /\ (4000 <= re ->
      forall f,
        result (friction_factor_colebrook re roughness diameter
                  default_tolerance default_max_iter) = Return f ->
        run = Return (record Turbulent f))
  /\ (4000 <= re ->
      forall e,
        result (friction_factor_colebrook re roughness diameter
                  default_tolerance default_max_iter) = Raise e ->
        run = Raise e).
Proof.
  intros Hnu Hrho Hre run record. subst run record.
  unfold calculate_system.
  rewrite (result_bind_Return _ _ _ Hnu).
  rewrite (result_bind_Return _ _ _ Hrho).
  rewrite (result_bind_Return _ _ _ Hre).
  split; [| split; [| split]].
  - intros Hlt. rewrite Rltb_true by exact Hlt. rewrite bind_ret. reflexivity.
  - intros [Hge Hlt].
    rewrite Rltb_false by lra. rewrite Rltb_true by exact Hlt.
    rewrite bind_ret. reflexivity.
  - intros Hge f Hf. rewrite !Rltb_false by lra.
    assert (Hin :
      result (f' <- friction_factor_colebrook re roughness diameter
                      default_tolerance default_max_iter ;;
              ret (Turbulent, f')) = Return (Turbulent, f)).
    { rewrite (result_bind_Return _ _ _ Hf). reflexivity. }
    rewrite (result_bind_Return _ _ _ Hin). reflexivity.
  - intros Hge e He. rewrite !Rltb_false by lra.
    apply result_bind_Raise. apply result_bind_Raise. exact He.
Qed.

Lemma velocity_from_flow_pos (flow_rate diameter : R) :
  0 < flow_rate -> diameter <> 0 -> 0 < velocity_from_flow flow_rate diameter.
Proof.
  intros HQ HD. unfold velocity_from_flow. assert (HPI := PI_RGT_0).
  apply Rdiv_lt_0_compat; [assumption |].
  assert (0 < diameter * diameter) by nra. nra.
Qed.

(** X4.  For a positive flow rate and a positive diameter, at any
    temperature, [calculate_system] does not raise [ValueError]: the
    Reynolds number is computed and is positive; below 4000 the run
    returns; from 4000 on it returns or ends with the [RuntimeError] of the
    Colebrook-White iteration, and with nothing else. *)
Theorem calculate_system_outcome
    (flow_rate diameter length roughness : R) (minor_losses_k : list R)
    (temperature elevation_change : R) :
  0 < flow_rate -> 0 < diameter ->
  exists nu re,
    result (get_kinematic_viscosity temperature) = Return nu
    /\ result (reynolds_number (velocity_from_flow flow_rate diameter)
                 diameter nu) = Return re
    /\ 0 < re
    /\ (re < 4000 ->
        exists r,
          result (calculate_system flow_rate diameter length roughness
                    minor_losses_k temperature elevation_change) = Return r
          /\ reynolds r = re)
    /\ ((exists r,
           result (calculate_system flow_rate diameter length roughness
                     minor_losses_k temperature elevation_change) = Return r
           /\ reynolds r = re)
        \/ (4000 <= re
            /\ result (calculate_system flow_rate diameter length roughness
                         minor_losses_k temperature elevation_change)
               = Raise RuntimeError)).
Proof.
  intros HQ HD.
  destruct (lookups_bounded temperature)
    as (nu & rho & Hnu & Hnub & Hrho & _).
  assert (Hrho' : result (get_water_density temperature) = Return rho)
    by (rewrite Hrho; reflexivity).
  assert (Hv := velocity_from_flow_pos flow_rate diameter HQ ltac:(lra)).
  set (v := velocity_from_flow flow_rate diameter) in *.
  assert (Hre : result (reynolds_number v diameter nu)
                = Return (v * diameter / nu)).
  { unfold reynolds_number. rdecide. reflexivity. }
  assert (Hpos : 0 < v * diameter / nu).
  { apply Rdiv_lt_0_compat; [| lra]. now apply Rmult_lt_0_compat. }
  exists nu, (v * diameter / nu).
  destruct (calculate_system_cases flow_rate diameter length roughness
              minor_losses_k temperature elevation_change nu rho
              (v * diameter / nu) Hnu Hrho' Hre)
    as (Hlam & Htra & Htur & Hfail).
  split; [exact Hnu |]. split; [exact Hre |]. split; [exact Hpos |].
  assert (Hlow : v * diameter / nu < 4000 ->
            exists r,
              result (calculate_system flow_rate diameter length roughness
                        minor_losses_k temperature elevation_change) = Return r
              /\ reynolds r = v * diameter / nu).
  { intros Hlt. destruct (Rlt_dec (v * diameter / nu) 2300) as [H | H].
    - eexists. split; [apply Hlam; exact H | reflexivity].
    - eexists. split; [apply Htra; lra | reflexivity]. }
  split; [exact Hlow |].
  destruct (Rlt_dec (v * diameter / nu) 4000) as [H | H].
  - left. now apply Hlow.
  - assert (Hge : 4000 <= v * diameter / nu) by lra.
    destruct (friction_factor_colebrook_silent (v * diameter / nu) roughness
                diameter default_tolerance default_max_iter ltac:(lra))
      as [_ [[f Hf] | [[_ Hr] | [Hlt _]]]].
    + left. eexists. split; [apply (Htur Hge f Hf) | reflexivity].
    + right. split; [exact Hge | now apply Hfail].
    + lra.
Qed.

Lemma calculate_system_outcome_witness :
  0 < 0.01 /\ 0 < 0.1
  /\ exists nu re,
       result (get_kinematic_viscosity 20) = Return nu
       /\ result (reynolds_number (velocity_from_flow 0.01 0.1) 0.1 nu)
          = Return re
       /\ 0 < re
       /\ (re < 4000 ->
           exists r,
             result (calculate_system 0.01 0.1 100 0.00005
                       [0.5; 0.9; 0.9; 1.0] 20 0) = Return r
             /\ reynolds r = re)
       /\ ((exists r,
              result (calculate_system 0.01 0.1 100 0.00005
                        [0.5; 0.9; 0.9; 1.0] 20 0) = Return r
              /\ reynolds r = re)
           \/ (4000 <= re
               /\ result (calculate_system 0.01 0.1 100 0.00005
                            [0.5; 0.9; 0.9; 1.0] 20 0)
                  = Raise RuntimeError)).
Proof.
  split; [lra |]. split; [lra |].
  apply (calculate_system_outcome 0.01 0.1 100 0.00005
           [0.5; 0.9; 0.9; 1.0] 20 0); lra.
Defined.

End SystemRun.

Section SystemResultInvariants.

Import HydraulicCalculator.

(** A run that returns went through both lookups, the Reynolds number and
    one of the three regimes. *)
Lemma calculate_system_inversion
    (flow_rate diameter length roughness : R) (minor_losses_k : list R)
    (temperature elevation_change : R) (r : SystemResult) :
  result (calculate_system flow_rate diameter length roughness
            minor_losses_k temperature elevation_change) = Return r ->
  exists nu rho re regime f,
    result (get_kinematic_viscosity temperature) = Return nu
    /\ result (get_water_density temperature) = Return rho
    /\ result (reynolds_number (velocity_from_flow flow_rate diameter)
                 diameter nu) = Return re
    /\ r = system_record flow_rate diameter length roughness minor_losses_k
             elevation_change nu rho re regime f
    /\ ((re < 2300 /\ regime = Laminar /\ f = 64 / re)
        \/ (2300 <= re < 4000 /\ regime = Transitional
            /\ f = friction_factor_swamee_jain re roughness diameter)
        \/ (4000 <= re /\ regime = Turbulent
            /\ result (friction_factor_colebrook re roughness diameter
                         default_tolerance default_max_iter) = Return f)).
Proof.
  intros Hrun.
  destruct (lookups_bounded temperature)
    as (nu & rho & Hnu & _ & Hrho & _).
  assert (Hrho' : result (get_water_density temperature) = Return rho)
    by (rewrite Hrho; reflexivity).
  destruct (result (reynolds_number (velocity_from_flow flow_rate diameter)
                      diameter nu)) as [re | e] eqn:Hre.
  - destruct (calculate_system_cases flow_rate diameter length roughness
                minor_losses_k temperature elevation_change nu rho re
                Hnu Hrho' Hre) as (Hlam & Htra & Htur & Hfail).
    exists nu, rho, re.
    destruct (Rlt_dec re 2300) as [H1 | H1].
    { exists Laminar, (64 / re). rewrite (Hlam H1) in Hrun.
      injection Hrun as <-. repeat split; try assumption. left. tauto. }
    destruct (Rlt_dec re 4000) as [H2 | H2].
    { exists Transitional, (friction_factor_swamee_jain re roughness diameter).
      rewrite Htra in Hrun by lra. injection Hrun as <-.
      repeat split; try assumption. right. left. repeat split; lra. }
    assert (Hge : 4000 <= re) by lra.
    destruct (result (friction_factor_colebrook re roughness diameter
                        default_tolerance default_max_iter))
      as [f | e] eqn:Hf.
    + exists Turbulent, f. rewrite (Htur Hge f eq_refl) in Hrun.
      injection Hrun as <-. repeat split; try assumption.
      right. right. repeat split; assumption.
    + rewrite (Hfail Hge e eq_refl) in Hrun. discriminate.
  - exfalso. unfold calculate_system in Hrun.
    rewrite (result_bind_Return _ _ _ Hnu) in Hrun.
    rewrite (result_bind_Return _ _ _ Hrho') in Hrun.
    rewrite (result_bind_Raise _ _ _ Hre) in Hrun. discriminate.
Qed.

Lemma reynolds_number_returns (v d nu re : R) :
  result (reynolds_number v d nu) = Return re ->
  0 < v /\ 0 < d /\ 0 < nu /\ re = v * d / nu.
Proof.
  unfold reynolds_number.
  destruct (Rleb v 0) eqn:Ev; [discriminate |].
  destruct (Rleb d 0) eqn:Ed; [discriminate |].
  destruct (Rleb nu 0) eqn:En; [discriminate |].
  apply Rleb_spec_false in Ev, Ed, En. cbn [orb result snd ret].
  intros E; injection E as <-. repeat split; assumption.
Qed.

(** The flow of the runs used as witnesses: water at 20 degrees in a pipe
    of diameter 1 at a chosen Reynolds number. *)
Lemma reynolds_of_sample_flow (re : R) :
  0 < re ->
  result (reynolds_number
            (velocity_from_flow (re * 1.004e-6 * (PI / 4)) 1) 1 1.004e-6)
  = Return re.
Proof.
  intros Hre. assert (HPI := PI_RGT_0).
  replace (velocity_from_flow (re * 1.004e-6 * (PI / 4)) 1)
    with (re * 1.004e-6)
    by (unfold velocity_from_flow; field; lra).
  unfold reynolds_number. rdecide. cbn [orb result snd ret].
  f_equal. field; lra.
Qed.

Lemma density_at_20 : get_water_density 20 = ([], Return 998.2).
Proof.
  apply (lookup_table_tabulated density_table 20 998.2);
    [reflexivity | exact anchors_ascending |].
  unfold density_table. cbn [In]. tauto.
Qed.

Lemma sample_run_returns (re : R) :
  0 < re < 2300 ->
  result (calculate_system (re * 1.004e-6 * (PI / 4)) 1 100 0.00005
            [0.5; 0.9] 20 0)
  = Return (system_record (re * 1.004e-6 * (PI / 4)) 1 100 0.00005
              [0.5; 0.9] 0 1.004e-6 998.2 re Laminar (64 / re)).
Proof.
  intros [Hpos Hlt].
  assert (Hnu : result (get_kinematic_viscosity 20) = Return 1.004e-6)
    by (rewrite viscosity_at_20; reflexivity).
  assert (Hrho : result (get_water_density 20) = Return 998.2)
    by (rewrite density_at_20; reflexivity).
  apply (calculate_system_cases (re * 1.004e-6 * (PI / 4)) 1 100 0.00005
           [0.5; 0.9] 20 0 1.004e-6 998.2 re Hnu Hrho
           (reynolds_of_sample_flow re Hpos)).
  exact Hlt.
Qed.

(** X5.  Every result [calculate_system] returns is consistent with itself:
    the velocity is that of the flow in the pipe, the Reynolds number is
    positive and equals velocity times diameter over the viscosity reported,
    the friction loss is the Darcy-Weisbach loss at the friction factor
    reported, the minor loss is that of the summed K-factors, the total is
    friction plus minor plus elevation (and so at least friction plus minor
    when the elevation change is not negative), and the pressure drop in kPa
    is density times g times the total head loss, over 1000. *)
Theorem calculate_system_consistent
    (flow_rate diameter length roughness : R) (minor_losses_k : list R)
    (temperature elevation_change : R) (r : SystemResult) :
  result (calculate_system flow_rate diameter length roughness
            minor_losses_k temperature elevation_change) = Return r ->
  velocity r = velocity_from_flow flow_rate diameter
  /\ 0 < reynolds r
  /\ reynolds r = velocity r * diameter / viscosity r
  /\ result (get_kinematic_viscosity temperature) = Return (viscosity r)
  /\ result (get_water_density temperature) = Return (density r)
  /\ head_loss_friction r
     = head_loss_darcy_weisbach (friction_factor r) length diameter
         (velocity r)
  /\ head_loss_minor r = minor_loss (sum minor_losses_k) (velocity r)
  /\ elevation_head r = elevation_change
  /\ total_head_loss r
     = head_loss_friction r + head_loss_minor r + elevation_head r
  /\ (0 <= elevation_change ->
      head_loss_friction r + head_loss_minor r <= total_head_loss r)
  /\ pressure_drop r * 1000 = density r * GRAVITY * total_head_loss r.
Proof.
  intros Hrun.
  destruct (calculate_system_inversion _ _ _ _ _ _ _ _ Hrun)
    as (nu & rho & re & regime & f & Hnu & Hrho & Hre & -> & _).
  apply reynolds_number_returns in Hre as (Hv & Hd & Hn & Hreq).
  unfold system_record.
  cbn [velocity reynolds viscosity density head_loss_friction head_loss_minor
       elevation_head total_head_loss pressure_drop friction_factor].
  assert (Hre0 : 0 < re).
  { rewrite Hreq. apply Rdiv_lt_0_compat; [| assumption].
    now apply Rmult_lt_0_compat. }
  repeat split; try assumption; try reflexivity.
  - apply sum_minor_losses.
  - intros Hdz. lra.
  - unfold head_to_pressure. field.
Qed.

Lemma calculate_system_consistent_witness :
  result (calculate_system (1000 * 1.004e-6 * (PI / 4)) 1 100 0.00005
            [0.5; 0.9] 20 0)
  = Return
      (system_record (1000 * 1.004e-6 * (PI / 4)) 1 100 0.00005
            [0.5; 0.9] 0 1.004e-6 998.2 1000 Laminar (64 / 1000))
  /\ velocity
       (system_record (1000 * 1.004e-6 * (PI / 4)) 1 100 0.00005
            [0.5; 0.9] 0 1.004e-6 998.2 1000 Laminar (64 / 1000))
     = velocity_from_flow (1000 * 1.004e-6 * (PI / 4)) 1
  /\ 0 < reynolds
           (system_record (1000 * 1.004e-6 * (PI / 4)) 1 100 0.00005
            [0.5; 0.9] 0 1.004e-6 998.2 1000 Laminar (64 / 1000))
  /\ reynolds
       (system_record (1000 * 1.004e-6 * (PI / 4)) 1 100 0.00005
            [0.5; 0.9] 0 1.004e-6 998.2 1000 Laminar (64 / 1000))
     = velocity
         (system_record (1000 * 1.004e-6 * (PI / 4)) 1 100 0.00005
            [0.5; 0.9] 0 1.004e-6 998.2 1000 Laminar (64 / 1000))
       * 1
       / viscosity
           (system_record (1000 * 1.004e-6 * (PI / 4)) 1 100 0.00005
            [0.5; 0.9] 0 1.004e-6 998.2 1000 Laminar (64 / 1000))
  /\ result (get_kinematic_viscosity 20)
     = Return (viscosity
                 (system_record (1000 * 1.004e-6 * (PI / 4)) 1 100 0.00005
            [0.5; 0.9] 0 1.004e-6 998.2 1000 Laminar (64 / 1000)))
  /\ result (get_water_density 20)
     = Return (density
                 (system_record (1000 * 1.004e-6 * (PI / 4)) 1 100 0.00005
            [0.5; 0.9] 0 1.004e-6 998.2 1000 Laminar (64 / 1000)))
  /\ head_loss_friction
       (system_record (1000 * 1.004e-6 * (PI / 4)) 1 100 0.00005
            [0.5; 0.9] 0 1.004e-6 998.2 1000 Laminar (64 / 1000))
     = head_loss_darcy_weisbach
         (friction_factor
            (system_record (1000 * 1.004e-6 * (PI / 4)) 1 100 0.00005
            [0.5; 0.9] 0 1.004e-6 998.2 1000 Laminar (64 / 1000)))
         100 1
         (velocity
            (system_record (1000 * 1.004e-6 * (PI / 4)) 1 100 0.00005
            [0.5; 0.9] 0 1.004e-6 998.2 1000 Laminar (64 / 1000)))
  /\ head_loss_minor
       (system_record (1000 * 1.004e-6 * (PI / 4)) 1 100 0.00005
            [0.5; 0.9] 0 1.004e-6 998.2 1000 Laminar (64 / 1000))
     = minor_loss (sum [0.5; 0.9])
         (velocity
            (system_record (1000 * 1.004e-6 * (PI / 4)) 1 100 0.00005
            [0.5; 0.9] 0 1.004e-6 998.2 1000 Laminar (64 / 1000)))
  /\ elevation_head
       (system_record (1000 * 1.004e-6 * (PI / 4)) 1 100 0.00005
            [0.5; 0.9] 0 1.004e-6 998.2 1000 Laminar (64 / 1000))
     = 0
  /\ total_head_loss
       (system_record (1000 * 1.004e-6 * (PI / 4)) 1 100 0.00005
            [0.5; 0.9] 0 1.004e-6 998.2 1000 Laminar (64 / 1000))
     = head_loss_friction
         (system_record (1000 * 1.004e-6 * (PI / 4)) 1 100 0.00005
            [0.5; 0.9] 0 1.004e-6 998.2 1000 Laminar (64 / 1000))
       + head_loss_minor
           (system_record (1000 * 1.004e-6 * (PI / 4)) 1 100 0.00005
            [0.5; 0.9] 0 1.004e-6 998.2 1000 Laminar (64 / 1000))
       + elevation_head
           (system_record (1000 * 1.004e-6 * (PI / 4)) 1 100 0.00005
            [0.5; 0.9] 0 1.004e-6 998.2 1000 Laminar (64 / 1000))
  /\ (0 <= 0 ->
      head_loss_friction
        (system_record (1000 * 1.004e-6 * (PI / 4)) 1 100 0.00005
            [0.5; 0.9] 0 1.004e-6 998.2 1000 Laminar (64 / 1000))
      + head_loss_minor
          (system_record (1000 * 1.004e-6 * (PI / 4)) 1 100 0.00005
            [0.5; 0.9] 0 1.004e-6 998.2 1000 Laminar (64 / 1000))
      <= total_head_loss
           (system_record (1000 * 1.004e-6 * (PI / 4)) 1 100 0.00005
            [0.5; 0.9] 0 1.004e-6 998.2 1000 Laminar (64 / 1000)))
  /\ pressure_drop
       (system_record (1000 * 1.004e-6 * (PI / 4)) 1 100 0.00005
            [0.5; 0.9] 0 1.004e-6 998.2 1000 Laminar (64 / 1000))
     * 1000
     = density
         (system_record (1000 * 1.004e-6 * (PI / 4)) 1 100 0.00005
            [0.5; 0.9] 0 1.004e-6 998.2 1000 Laminar (64 / 1000))
       * GRAVITY
       * total_head_loss
           (system_record (1000 * 1.004e-6 * (PI / 4)) 1 100 0.00005
            [0.5; 0.9] 0 1.004e-6 998.2 1000 Laminar (64 / 1000)).
Proof.
  assert (Hrun := sample_run_returns 1000 ltac:(lra)).
  split; [exact Hrun |].
  exact (calculate_system_consistent _ _ _ _ _ _ _ _ Hrun).
Defined.

End SystemResultInvariants.

Section SystemRunEffects.

Import HydraulicCalculator.

(** X6.  The regime tag of a returned system result and the flow type that
    the standards classifier [check_reynolds] gives for the Reynolds number
    of that result name the same regime: the two modules use the same
    boundaries, 2300 and 4000, with the same sides. *)
Theorem regime_agrees_with_check_reynolds
    (flow_rate diameter length roughness : R) (minor_losses_k : list R)
    (temperature elevation_change : R) (r : SystemResult) :
  result (calculate_system flow_rate diameter length roughness
            minor_losses_k temperature elevation_change) = Return r ->
  same_regime (flow_regime r)
    (Standards.rc_flow_type (Standards.check_reynolds (reynolds r))).
Proof.
  intros Hrun.
  destruct (calculate_system_inversion _ _ _ _ _ _ _ _ Hrun)
    as (nu & rho & re & regime & f & _ & _ & _ & -> & Hcase).
  unfold system_record, Standards.check_reynolds.
  cbn [flow_regime reynolds].
  destruct Hcase as [(H & -> & _) | [(H & -> & _) | (H & -> & _)]].
  - rewrite Rltb_true by lra. exact I.
  - rewrite Rltb_false by lra. rewrite Rltb_true by lra. exact I.
  - rewrite !Rltb_false by lra. exact I.
Qed.

Lemma regime_agrees_with_check_reynolds_witness :
  result (calculate_system (1000 * 1.004e-6 * (PI / 4)) 1 100 0.00005
            [0.5; 0.9] 20 0)
  = Return (system_record (1000 * 1.004e-6 * (PI / 4)) 1 100 0.00005
              [0.5; 0.9] 0 1.004e-6 998.2 1000 Laminar (64 / 1000))
  /\ same_regime
       (flow_regime
          (system_record (1000 * 1.004e-6 * (PI / 4)) 1 100 0.00005
             [0.5; 0.9] 0 1.004e-6 998.2 1000 Laminar (64 / 1000)))
       (Standards.rc_flow_type
          (Standards.check_reynolds
             (reynolds
                (system_record (1000 * 1.004e-6 * (PI / 4)) 1 100 0.00005
                   [0.5; 0.9] 0 1.004e-6 998.2 1000 Laminar (64 / 1000))))).
Proof.
  assert (Hrun := sample_run_returns 1000 ltac:(lra)).
  split; [exact Hrun |].
  exact (regime_agrees_with_check_reynolds _ _ _ _ _ _ _ _ Hrun).
Defined.

Lemma reynolds_number_silent (v d nu : R) :
  advisories (reynolds_number v d nu) = [].
Proof.
  unfold reynolds_number.
  destruct (Rleb v 0 || Rleb d 0 || Rleb nu 0); reflexivity.
Qed.

(** X7.  For a non-zero diameter, whether it returns or raises,
    [calculate_system] emits through [warnings.warn] exactly the advisory
    of the viscosity lookup: one advisory naming the temperature when the
    temperature is below 0 or above 100, and none otherwise. *)
Theorem calculate_system_advisories
    (flow_rate diameter length roughness : R) (minor_losses_k : list R)
    (temperature elevation_change : R) :
  diameter <> 0 ->
  advisories (calculate_system flow_rate diameter length roughness
                minor_losses_k temperature elevation_change)
  = if Rltb temperature 0 || Rltb 100 temperature
    then [TemperatureOutsideRange temperature]
    else [].
Proof.
  intros Hd0.
  destruct (lookup_table_silent viscosity_table temperature) as [nu Hnu];
    [reflexivity | discriminate |].
  destruct (lookup_table_silent density_table temperature) as [rho Hrho];
    [reflexivity | discriminate |].
  unfold calculate_system.
  rewrite advisories_bind.
  assert (Hres : result (get_kinematic_viscosity temperature) = Return nu).
  { unfold get_kinematic_viscosity. rewrite Hnu.
    destruct (Rltb temperature 0 || Rltb 100 temperature); reflexivity. }
  assert (Hadv : advisories (get_kinematic_viscosity temperature)
                 = if Rltb temperature 0 || Rltb 100 temperature
                   then [TemperatureOutsideRange temperature]
                   else []).
  { unfold get_kinematic_viscosity. rewrite Hnu.
    destruct (Rltb temperature 0 || Rltb 100 temperature); reflexivity. }
  rewrite Hres, Hadv.
  rewrite advisories_bind.
  unfold get_water_density at 1 2. rewrite Hrho.
  cbn [advisories result fst snd app].
  rewrite advisories_bind, reynolds_number_silent. cbn [app].
  destruct (result (reynolds_number (velocity_from_flow flow_rate diameter)
                      diameter nu)) as [re | e];
    [| now rewrite app_nil_r].
  rewrite advisories_bind.
  assert (Hchoice :
    advisories
      (if Rltb re 2300 then ret (Laminar, 64 / re)
       else if Rltb re 4000
       then ret (Transitional,
                 friction_factor_swamee_jain re roughness diameter)
       else f <- friction_factor_colebrook re roughness diameter
                   default_tolerance default_max_iter ;;
            ret (Turbulent, f)) = []).
  { destruct (Rltb re 2300); [reflexivity |].
    destruct (Rltb re 4000); [reflexivity |].
    rewrite advisories_bind.
    destruct (friction_factor_colebrook_silent re roughness diameter
                default_tolerance default_max_iter Hd0) as [-> _].
    destruct (result (friction_factor_colebrook re roughness diameter
                        default_tolerance default_max_iter));
      reflexivity. }
  rewrite Hchoice. cbn [app].
  match goal with
  | |- _ ++ match ?o with _ => _ end = _ => destruct o
  end; cbn [advisories ret fst]; now rewrite app_nil_r.
Qed.

Lemma calculate_system_advisories_witness :
  0.1 <> 0
  /\ advisories (calculate_system 0.01 0.1 100 0.00005 [0.5; 0.9] 105 0)
     = if Rltb 105 0 || Rltb 100 105
       then [TemperatureOutsideRange 105]
       else [].
Proof.
  assert (H : 0.1 <> 0) by lra.
  split; [exact H |].
  exact (calculate_system_advisories 0.01 0.1 100 0.00005 [0.5; 0.9] 105 0 H).
Defined.

(** X8.  In the laminar regime the friction loss that [calculate_system]
    reports is the Hagen-Poiseuille loss, linear in the velocity:
    32 nu L v / (g D^2). *)
Theorem laminar_friction_loss
    (flow_rate diameter length roughness : R) (minor_losses_k : list R)
    (temperature elevation_change nu re : R) :
  result (get_kinematic_viscosity temperature) = Return nu ->
  result (reynolds_number (velocity_from_flow flow_rate diameter) diameter nu)
    = Return re ->
  re < 2300 ->
  exists r,
    result (calculate_system flow_rate diameter length roughness
              minor_losses_k temperature elevation_change) = Return r
    /\ flow_regime r = Laminar
    /\ head_loss_friction r
       = 32 * nu * length * velocity r / (GRAVITY * diameter ^ 2).
Proof.
  intros Hnu Hre Hlt.
  destruct (lookups_bounded temperature) as (nu' & rho & _ & _ & Hrho & _).
  assert (Hrho' : result (get_water_density temperature) = Return rho)
    by (rewrite Hrho; reflexivity).
  destruct (calculate_system_cases flow_rate diameter length roughness
              minor_losses_k temperature elevation_change nu rho re
              Hnu Hrho' Hre) as (Hlam & _).
  eexists. split; [apply Hlam; exact Hlt |].
  apply reynolds_number_returns in Hre as (Hv & Hd & Hn & ->).
  unfold system_record, head_loss_darcy_weisbach, GRAVITY.
  cbn [flow_regime head_loss_friction velocity].
  split; [reflexivity |]. field. repeat split; lra.
Qed.

Lemma laminar_friction_loss_witness :
  result (get_kinematic_viscosity 20) = Return 1.004e-6
  /\ result (reynolds_number
               (velocity_from_flow (1000 * 1.004e-6 * (PI / 4)) 1)
               1 1.004e-6) = Return 1000
  /\ 1000 < 2300
  /\ exists r,
       result (calculate_system (1000 * 1.004e-6 * (PI / 4)) 1 100 0.00005
                 [0.5; 0.9] 20 0) = Return r
       /\ flow_regime r = Laminar
       /\ head_loss_friction r
          = 32 * 1.004e-6 * 100 * velocity r / (GRAVITY * 1 ^ 2).
Proof.
  assert (Hnu : result (get_kinematic_viscosity 20) = Return 1.004e-6)
    by (rewrite viscosity_at_20; reflexivity).
  assert (Hre := reynolds_of_sample_flow 1000 ltac:(lra)).
  split; [exact Hnu |]. split; [exact Hre |]. split; [lra |].
  apply (laminar_friction_loss _ 1 100 0.00005 [0.5; 0.9] 20 0
           1.004e-6 1000 Hnu Hre).
  lra.
Defined.

(** X9.  With a positive diameter and a flow rate that is zero or
    negative, or with a negative diameter, [calculate_system] raises
    [ValueError]: the Reynolds number refuses the velocity or the
    diameter. *)
Theorem calculate_system_rejects
    (flow_rate diameter length roughness : R) (minor_losses_k : list R)
    (temperature elevation_change : R) :
  (0 < diameter /\ flow_rate <= 0) \/ diameter < 0 ->
  result (calculate_system flow_rate diameter length roughness
            minor_losses_k temperature elevation_change) = Raise ValueError.
Proof.
  intros Hbad.
  destruct (lookups_bounded temperature) as (nu & rho & Hnu & _ & Hrho & _).
  assert (Hrho' : result (get_water_density temperature) = Return rho)
    by (rewrite Hrho; reflexivity).
  unfold calculate_system.
  rewrite (result_bind_Return _ _ _ Hnu).
  rewrite (result_bind_Return _ _ _ Hrho').
  apply result_bind_Raise.
  unfold reynolds_number.
  destruct Hbad as [[HD HQ] | HD].
  - assert (Hv : velocity_from_flow flow_rate diameter <= 0).
    { unfold velocity_from_flow. assert (HPI := PI_RGT_0).
      assert (Hsq : 0 < diameter * diameter) by nra.
      assert (Harea : 0 < PI * diameter ^ 2 / 4)
        by (replace (diameter ^ 2) with (diameter * diameter) by ring; nra).
      unfold Rdiv at 1.
      apply Rinv_0_lt_compat in Harea. nra. }
    rewrite (Rleb_true _ 0 Hv). reflexivity.
  - rewrite (Rleb_true diameter 0) by lra.
    now rewrite orb_true_r.
Qed.

Lemma calculate_system_rejects_witness :
  ((0 < 0.1 /\ 0 <= 0) \/ 0.1 < 0)
  /\ result (calculate_system 0 0.1 100 0.00005 [0.5; 0.9] 20 0)
     = Raise ValueError.
Proof.
  assert (H : (0 < 0.1 /\ 0 <= 0) \/ 0.1 < 0) by (left; split; lra).
  split; [exact H |].
  exact (calculate_system_rejects 0 0.1 100 0.00005 [0.5; 0.9] 20 0 H).
Defined.

End SystemRunEffects.

Section HazenWilliams.

Import HydraulicCalculator.

Lemma Rpower_pos (x y : R) : 0 < Rpower x y.
Proof. unfold Rpower. apply exp_pos. Qed.

(** X10.  For positive flow rates, diameters and coefficient, the
    Hazen-Williams head loss is never negative, is proportional to the
    length, and does not fall when the flow rate rises or the diameter
    shrinks. *)
Theorem head_loss_hazen_williams_monotone
    (flow1 flow2 diameter1 diameter2 length c_factor scale : R) :
  0 < flow1 <= flow2 -> 0 < diameter1 <= diameter2 ->
  0 <= length -> 0 < c_factor ->
  0 <= head_loss_hazen_williams flow1 diameter2 length c_factor
  /\ head_loss_hazen_williams flow1 diameter2 length c_factor
     <= head_loss_hazen_williams flow2 diameter1 length c_factor
  /\ head_loss_hazen_williams flow1 diameter1 (scale * length) c_factor
     = scale * head_loss_hazen_williams flow1 diameter1 length c_factor.
Proof.
  intros HQ HD HL HC. unfold head_loss_hazen_williams.
  assert (HA1 := Rpower_pos flow1 1.852).
  assert (HA : Rpower flow1 1.852 <= Rpower flow2 1.852)
    by (apply Rle_Rpower_l; lra).
  assert (HB := Rpower_pos c_factor 1.852).
  assert (HC1 := Rpower_pos diameter1 4.87).
  assert (HCle : Rpower diameter1 4.87 <= Rpower diameter2 4.87)
    by (apply Rle_Rpower_l; lra).
  set (A1 := Rpower flow1 1.852) in *. set (A2 := Rpower flow2 1.852) in *.
  set (B := Rpower c_factor 1.852) in *.
  set (C1 := Rpower diameter1 4.87) in *.
  set (C2 := Rpower diameter2 4.87) in *.
  assert (Hden1 : 0 < B * C1) by now apply Rmult_lt_0_compat.
  assert (Hden2 : 0 < B * C2) by (apply Rmult_lt_0_compat; lra).
  assert (Hinv : / (B * C2) <= / (B * C1)).
  { apply Rinv_le_contravar; [assumption |].
    apply Rmult_le_compat_l; lra. }
  assert (Hinv2 : 0 < / (B * C2)) by now apply Rinv_0_lt_compat.
  assert (Hnum1 : 0 <= 10.67 * length * A1)
    by (apply Rmult_le_pos; [lra | lra]).
  assert (Hnum : 10.67 * length * A1 <= 10.67 * length * A2)
    by (apply Rmult_le_compat_l; lra).
  split; [| split].
  - unfold Rdiv. apply Rmult_le_pos; lra.
  - unfold Rdiv. apply Rmult_le_compat; lra.
  - unfold Rdiv. ring.
Qed.

Lemma head_loss_hazen_williams_monotone_witness :
  0 < 0.01 <= 0.02 /\ 0 < 0.1 <= 0.15 /\ 0 <= 100 /\ 0 < 120
  /\ 0 <= head_loss_hazen_williams 0.01 0.15 100 120
  /\ head_loss_hazen_williams 0.01 0.15 100 120
     <= head_loss_hazen_williams 0.02 0.1 100 120
  /\ head_loss_hazen_williams 0.01 0.1 (2 * 100) 120
     = 2 * head_loss_hazen_williams 0.01 0.1 100 120.
Proof.
  split; [lra |]. split; [lra |]. split; [lra |]. split; [lra |].
  apply (head_loss_hazen_williams_monotone 0.01 0.02 0.1 0.15 100 120 2); lra.
Defined.

End HazenWilliams.

(** * Further properties of the pump model *)

Section PumpPower.

Import PumpCalculator.

Lemma bind_nil {A B} (a : A) (k : A -> Py B) :
  bind ([], Return a) k = k a.
Proof. exact (bind_ret a k). Qed.

Lemma power_chain_cases (hydraulic efficiency : R) :
  (0 < efficiency <= 1 ->
     shaft_power hydraulic efficiency = ([], Return (hydraulic / efficiency)))
  /\ (efficiency <= 0 \/ 1 < efficiency ->
     shaft_power hydraulic efficiency = ([], Raise ValueError)).
Proof.
  unfold shaft_power. split.
  - intros [H0 H1]. now rewrite Rleb_false, Rltb_false by lra.
  - intros [H | H].
    + now rewrite Rleb_true.
    + rewrite Rltb_true by assumption. now rewrite orb_true_r.
Qed.

(** X11.  [shaft_power] accepts an efficiency in (0, 1] and raises
    [ValueError] for any other.  When it accepts, the shaft power times the
    efficiency gives the hydraulic power back, and for a hydraulic power
    that is not negative the three powers are ordered: hydraulic, then
    shaft, then the motor power at the default motor efficiency and safety
    factor. *)
Theorem power_chain (hydraulic efficiency : R) :
  (0 < efficiency <= 1 ->
     shaft_power hydraulic efficiency = ([], Return (hydraulic / efficiency))
     /\ hydraulic / efficiency * efficiency = hydraulic
     /\ (0 <= hydraulic ->
         hydraulic <= hydraulic / efficiency
         /\ hydraulic / efficiency
            <= motor_power (hydraulic / efficiency)
                 default_motor_efficiency default_motor_safety_factor))
  /\ (efficiency <= 0 \/ 1 < efficiency ->
     shaft_power hydraulic efficiency = ([], Raise ValueError)).
Proof.
  unfold shaft_power. split.
  - intros [H0 H1]. rewrite Rleb_false, Rltb_false by lra. cbn [orb].
    split; [reflexivity |]. split; [field; lra |].
    intros Hh.
    assert (Hinv : 1 <= / efficiency).
    { rewrite <- Rinv_1. apply Rinv_le_contravar; lra. }
    assert (Hs : hydraulic <= hydraulic / efficiency)
      by (unfold Rdiv; nra).
    split; [exact Hs |].
    unfold motor_power, default_motor_efficiency, default_motor_safety_factor.
    assert (Hk : hydraulic / efficiency / 0.95 * 1.15
                 = hydraulic / efficiency * (1.15 / 0.95)) by (field; lra).
    rewrite Hk. assert (1 <= 1.15 / 0.95) by lra. nra.
  - intros [H | H].
    + now rewrite Rleb_true.
    + rewrite Rltb_true by assumption. now rewrite orb_true_r.
Qed.

(** X12.  The NPSH available is the head of the pressure above the vapour
    pressure, plus the velocity head, plus the elevation; raising the
    liquid level by some height raises it by the same height, so a suction
    that passes [cavitation_check] still passes it at any higher liquid
    level. *)
Theorem npsh_available_elevation
    (pressure_suction vapor_pressure velocity_suction elevation rise
     density required safety_margin : R) :
  0 < density -> 0 <= rise ->
  npsh_a pressure_suction vapor_pressure velocity_suction elevation
    density GRAVITY
  = HydraulicCalculator.pressure_to_head (pressure_suction - vapor_pressure)
      density
    + velocity_suction ^ 2 / (2 * GRAVITY) + elevation
  /\ npsh_a pressure_suction vapor_pressure velocity_suction
       (elevation + rise) density GRAVITY
     = npsh_a pressure_suction vapor_pressure velocity_suction elevation
         density GRAVITY + rise
  /\ (safe (cavitation_check
              (npsh_a pressure_suction vapor_pressure velocity_suction
                 elevation density GRAVITY) required safety_margin) = true ->
      safe (cavitation_check
              (npsh_a pressure_suction vapor_pressure velocity_suction
                 (elevation + rise) density GRAVITY) required safety_margin)
      = true).
Proof.
  intros Hd Hr.
  assert (Hshift :
    npsh_a pressure_suction vapor_pressure velocity_suction
      (elevation + rise) density GRAVITY
    = npsh_a pressure_suction vapor_pressure velocity_suction elevation
        density GRAVITY + rise)
    by (unfold npsh_a; ring).
  split; [| split].
  - unfold npsh_a, HydraulicCalculator.pressure_to_head,
      HydraulicCalculator.GRAVITY, GRAVITY. field. lra.
  - exact Hshift.
  - rewrite Hshift. cbn [cavitation_check safe].
    rewrite !Rleb_spec. lra.
Qed.

Lemma npsh_available_elevation_witness :
  0 < 1000 /\ 0 <= 1
  /\ npsh_a 101300 2300 1 2 1000 GRAVITY
     = HydraulicCalculator.pressure_to_head (101300 - 2300) 1000
       + 1 ^ 2 / (2 * GRAVITY) + 2
  /\ npsh_a 101300 2300 1 (2 + 1) 1000 GRAVITY
     = npsh_a 101300 2300 1 2 1000 GRAVITY + 1
  /\ (safe (cavitation_check (npsh_a 101300 2300 1 2 1000 GRAVITY) 3 0.5)
      = true ->
      safe (cavitation_check (npsh_a 101300 2300 1 (2 + 1) 1000 GRAVITY)
              3 0.5)
      = true).
Proof.
  split; [lra |]. split; [lra |].
  apply (npsh_available_elevation 101300 2300 1 2 1 1000 3 0.5); lra.
Defined.

(** X13.  [classify_pump_type] cuts the specific speeds into six bands that
    do not overlap and leave no gap, with breakpoints 20, 40, 80, 150 and
    300; each breakpoint belongs to the band above it. *)
Theorem classify_pump_type_bands (ns : R) :
  (classify_pump_type ns = RadialBajaVelocidadEspecifica <-> ns < 20)
  /\ (classify_pump_type ns = Radial <-> 20 <= ns < 40)
  /\ (classify_pump_type ns = RadialMixta <-> 40 <= ns < 80)
  /\ (classify_pump_type ns = FlujoMixto <-> 80 <= ns < 150)
  /\ (classify_pump_type ns = FlujoAxial <-> 150 <= ns < 300)
  /\ (classify_pump_type ns = AxialHelice <-> 300 <= ns).
Proof.
  unfold classify_pump_type.
  destruct (Rltb ns 20) eqn:E1;
    [apply Rltb_spec in E1 | apply Rltb_spec_false in E1].
  { repeat split; intros; try discriminate; try lra. }
  destruct (Rltb ns 40) eqn:E2;
    [apply Rltb_spec in E2 | apply Rltb_spec_false in E2].
  { repeat split; intros; try discriminate; try lra. }
  destruct (Rltb ns 80) eqn:E3;
    [apply Rltb_spec in E3 | apply Rltb_spec_false in E3].
  { repeat split; intros; try discriminate; try lra. }
  destruct (Rltb ns 150) eqn:E4;
    [apply Rltb_spec in E4 | apply Rltb_spec_false in E4].
  { repeat split; intros; try discriminate; try lra. }
  destruct (Rltb ns 300) eqn:E5;
    [apply Rltb_spec in E5 | apply Rltb_spec_false in E5].
  { repeat split; intros; try discriminate; try lra. }
  repeat split; intros; try discriminate; try lra.
Qed.

End PumpPower.

Section PumpEstimates.

Import PumpCalculator.

Lemma power_chain_witness :
  0 < 0.75 <= 1
  /\ shaft_power 3000 0.75 = ([], Return (3000 / 0.75))
  /\ 3000 / 0.75 * 0.75 = 3000
  /\ (0 <= 3000 ->
      3000 <= 3000 / 0.75
      /\ 3000 / 0.75
         <= motor_power (3000 / 0.75)
              default_motor_efficiency default_motor_safety_factor).
Proof.
  assert (H : 0 < 0.75 <= 1) by lra.
  split; [exact H |].
  exact (proj1 (power_chain 3000 0.75) H).
Defined.

Lemma sqrt_scaled_pos (x k : R) : 0 < x -> 0 < k -> 0 < sqrt (x * k).
Proof. intros Hx Hk. apply sqrt_lt_R0. now apply Rmult_lt_0_compat. Qed.

(** X14.  For positive flows and speeds the estimated NPSH required is
    positive and does not fall when the flow or the speed rises. *)
Theorem npsh_required_estimate_monotone (flow1 flow2 speed1 speed2 : R) :
  0 < flow1 <= flow2 -> 0 < speed1 <= speed2 ->
  0 < npsh_required_estimate flow1 speed1 default_suction_specific_speed
  /\ npsh_required_estimate flow1 speed1 default_suction_specific_speed
     <= npsh_required_estimate flow2 speed2 default_suction_specific_speed.
Proof.
  intros HQ HN.
  unfold npsh_required_estimate, default_suction_specific_speed.
  assert (Hs1 := sqrt_scaled_pos flow1 15850.32 ltac:(lra) ltac:(lra)).
  assert (Hs : sqrt (flow1 * 15850.32) <= sqrt (flow2 * 15850.32))
    by (apply sqrt_le_1_alt; lra).
  assert (Hbase1 : 0 < speed1 * sqrt (flow1 * 15850.32) / 11000).
  { apply Rdiv_lt_0_compat; [| lra]. apply Rmult_lt_0_compat; lra. }
  assert (Hbase : speed1 * sqrt (flow1 * 15850.32) / 11000
                  <= speed2 * sqrt (flow2 * 15850.32) / 11000).
  { unfold Rdiv. apply Rmult_le_compat_r; [lra |].
    apply Rmult_le_compat; lra. }
  assert (Hp := Rpower_pos (speed1 * sqrt (flow1 * 15850.32) / 11000) (4 / 3)).
  assert (Hle :
    Rpower (speed1 * sqrt (flow1 * 15850.32) / 11000) (4 / 3)
    <= Rpower (speed2 * sqrt (flow2 * 15850.32) / 11000) (4 / 3))
    by (apply Rle_Rpower_l; lra).
  split; lra.
Qed.

Lemma npsh_required_estimate_monotone_witness :
  0 < 0.01 <= 0.02 /\ 0 < 1450 <= 1750
  /\ 0 < npsh_required_estimate 0.01 1450 default_suction_specific_speed
  /\ npsh_required_estimate 0.01 1450 default_suction_specific_speed
     <= npsh_required_estimate 0.02 1750 default_suction_specific_speed.
Proof.
  split; [lra |]. split; [lra |].
  apply (npsh_required_estimate_monotone 0.01 0.02 1450 1750); lra.
Defined.

(** X15.  For positive flows, heads and speeds the specific speed is
    positive, is proportional to the rotational speed, and does not fall
    when the flow rises or the head drops. *)
Theorem specific_speed_monotone (flow1 flow2 head1 head2 speed scale : R) :
  0 < flow1 <= flow2 -> 0 < head1 <= head2 -> 0 < speed -> 0 < scale ->
  0 < specific_speed flow1 head2 speed
  /\ specific_speed flow1 head2 speed <= specific_speed flow2 head1 speed
  /\ specific_speed flow1 head1 (scale * speed)
     = scale * specific_speed flow1 head1 speed.
Proof.
  intros HQ HH HN Hk. unfold specific_speed.
  assert (Hs1 := sqrt_scaled_pos flow1 3600 ltac:(lra) ltac:(lra)).
  assert (Hs : sqrt (flow1 * 3600) <= sqrt (flow2 * 3600))
    by (apply sqrt_le_1_alt; lra).
  assert (Hp1 := Rpower_pos head1 0.75).
  assert (Hp : Rpower head1 0.75 <= Rpower head2 0.75)
    by (apply Rle_Rpower_l; lra).
  assert (Hinv : / Rpower head2 0.75 <= / Rpower head1 0.75)
    by (apply Rinv_le_contravar; lra).
  assert (Hinv2 : 0 < / Rpower head2 0.75)
    by (apply Rinv_0_lt_compat; lra).
  assert (Hnum1 : 0 < speed * sqrt (flow1 * 3600))
    by now apply Rmult_lt_0_compat.
  assert (Hnum : speed * sqrt (flow1 * 3600) <= speed * sqrt (flow2 * 3600))
    by (apply Rmult_le_compat_l; lra).
  split; [| split].
  - unfold Rdiv. now apply Rmult_lt_0_compat.
  - unfold Rdiv. apply Rmult_le_compat; lra.
  - unfold Rdiv. ring.
Qed.

Lemma specific_speed_monotone_witness :
  0 < 0.01 <= 0.02 /\ 0 < 20 <= 30 /\ 0 < 1750 /\ 0 < 2
  /\ 0 < specific_speed 0.01 30 1750
  /\ specific_speed 0.01 30 1750 <= specific_speed 0.02 20 1750
  /\ specific_speed 0.01 20 (2 * 1750) = 2 * specific_speed 0.01 20 1750.
Proof.
  split; [lra |]. split; [lra |]. split; [lra |]. split; [lra |].
  apply (specific_speed_monotone 0.01 0.02 20 30 1750 2); lra.
Defined.

(** X16.  [complete_pump_analysis] reads the efficiency of the pump
    specification, 0.75 when none is given.  With an efficiency in (0, 1],
    and a positive flow, head, density and speed, it returns, and the
    record it returns is consistent: shaft power times
    efficiency is the hydraulic power, which is density times g times flow
    times head; the motor power in hp and in kW are the same power; the
    cavitation check is the one of the NPSH values reported, at the default
    margin 0.5; the pump type is the class of the specific speed reported;
    and the flow lies within the operating range.  With any other
    efficiency it raises [ValueError], whatever the other arguments. *)
Theorem complete_pump_analysis_outcome
    (flow_rate total_head : R) (suction : SuctionConditions)
    (specs : PumpSpecs) (density : R) :
  let efficiency := get_default (spec_efficiency specs) 0.75 in
  (0 < flow_rate -> 0 < total_head -> 0 < density ->
   0 < get_default (spec_speed specs) 1750 ->
   0 < efficiency <= 1 ->
     exists a,
       complete_pump_analysis flow_rate total_head suction specs density
       = ([], Return a)
       /\ pa_efficiency a = efficiency
       /\ pa_hydraulic_power_kw a * 1000
          = density * GRAVITY * flow_rate * total_head
       /\ pa_shaft_power_kw a * efficiency = pa_hydraulic_power_kw a
       /\ pa_motor_power_hp a * 745.7 = pa_motor_power_kw a * 1000
       /\ pa_cavitation_check a
          = cavitation_check (pa_npsh_available a) (pa_npsh_required a) 0.5
       /\ margin (pa_cavitation_check a)
          = pa_npsh_available a - pa_npsh_required a
       /\ pa_pump_type a = classify_pump_type (pa_specific_speed a)
       /\ pa_minimum_flow a <= flow_rate <= pa_maximum_flow a)
  /\ (efficiency <= 0 \/ 1 < efficiency ->
     complete_pump_analysis flow_rate total_head suction specs density
     = ([], Raise ValueError)).
Proof.
  intros efficiency. unfold complete_pump_analysis. fold efficiency.
  destruct (power_chain_cases
              (hydraulic_power flow_rate total_head density GRAVITY)
              efficiency) as [Hok Hbad].
  split.
  - intros HQ HH Hrho HN He. rewrite (Hok He), bind_nil.
    eexists. split; [reflexivity |].
    cbn [pa_efficiency pa_hydraulic_power_kw pa_shaft_power_kw
         pa_motor_power_kw pa_motor_power_hp pa_cavitation_check
         pa_npsh_available pa_npsh_required pa_pump_type pa_specific_speed
         pa_minimum_flow pa_maximum_flow].
    unfold hydraulic_power, minimum_flow, maximum_flow,
      default_minimum_factor, default_maximum_factor, default_safety_margin.
    repeat split; try reflexivity; try (field; lra); try lra.
  - intros He. rewrite (Hbad He). reflexivity.
Qed.

Lemma complete_pump_analysis_outcome_witness :
  0 < 0.05 /\ 0 < 30 /\ 0 < default_density
  /\ 0 < get_default (spec_speed {| spec_efficiency := None; spec_speed := None |}) 1750
  /\ 0 < get_default (spec_efficiency {| spec_efficiency := None; spec_speed := None |}) 0.75 <= 1
  /\ exists a,
       complete_pump_analysis 0.05 30
         {| pressure_suction := 101300; vapor_pressure := 2300;
            velocity_suction := 1; elevation := 2 |}
         {| spec_efficiency := None; spec_speed := None |} default_density
       = ([], Return a)
       /\ pa_efficiency a
          = get_default (spec_efficiency {| spec_efficiency := None; spec_speed := None |}) 0.75
       /\ pa_hydraulic_power_kw a * 1000
          = default_density * GRAVITY * 0.05 * 30
       /\ pa_shaft_power_kw a
          * get_default (spec_efficiency {| spec_efficiency := None; spec_speed := None |}) 0.75
          = pa_hydraulic_power_kw a
       /\ pa_motor_power_hp a * 745.7 = pa_motor_power_kw a * 1000
       /\ pa_cavitation_check a
          = cavitation_check (pa_npsh_available a) (pa_npsh_required a) 0.5
       /\ margin (pa_cavitation_check a)
          = pa_npsh_available a - pa_npsh_required a
       /\ pa_pump_type a = classify_pump_type (pa_specific_speed a)
       /\ pa_minimum_flow a <= 0.05 <= pa_maximum_flow a.
Proof.
  assert (HQ : 0 < 0.05) by lra.
  assert (HH : 0 < 30) by lra.
  assert (Hrho : 0 < default_density) by (unfold default_density; lra).
  assert (HN : 0 < get_default (spec_speed {| spec_efficiency := None; spec_speed := None |}) 1750)
    by (cbn [spec_speed get_default]; lra).
  assert (He : 0 < get_default (spec_efficiency {| spec_efficiency := None; spec_speed := None |}) 0.75 <= 1)
    by (cbn [spec_efficiency get_default]; lra).
  split; [exact HQ |]. split; [exact HH |]. split; [exact Hrho |].
  split; [exact HN |]. split; [exact He |].
  exact (proj1 (complete_pump_analysis_outcome 0.05 30
                  {| pressure_suction := 101300; vapor_pressure := 2300;
                     velocity_suction := 1; elevation := 2 |}
                  {| spec_efficiency := None; spec_speed := None |}
                  default_density) HQ HH Hrho HN He).
Defined.

End PumpEstimates.

(** * Further properties of the pump curve and the operating point *)

Section CurveArrays.

Import PumpCalculator.

Lemma clip_bounds (x lo hi : R) : lo <= hi -> lo <= clip x lo hi <= hi.
Proof.
  intros H. unfold clip. split.
  - apply Rmin_glb; [apply Rmax_r | assumption].
  - apply Rmin_r.
Qed.

Lemma clip_monotone (x y lo hi : R) :
  x <= y -> clip x lo hi <= clip y lo hi.
Proof.
  intros H. unfold clip. apply Rle_min_compat_r. now apply Rle_max_compat_r.
Qed.

Lemma exp_nonpos (x : R) : x <= 0 -> exp x <= 1.
Proof.
  intros [H | ->]; [| rewrite exp_0; lra].
  rewrite <- exp_0. left. now apply exp_increasing.
Qed.

Lemma efficiency_at_bounds (q_bep efficiency_bep q : R) :
  0.01 <= efficiency_at q_bep efficiency_bep q <= 1.
Proof.
  unfold efficiency_at.
  destruct (clip_bounds
              (efficiency_bep * exp (-0.5 * ((q / q_bep - 1) / 0.4) ^ 2))
              0.01 1.0) as [H1 H2]; lra.
Qed.

Lemma efficiency_at_peak (q_bep efficiency_bep q : R) :
  efficiency_at q_bep efficiency_bep q <= clip efficiency_bep 0.01 1.0.
Proof.
  unfold efficiency_at.
  set (x := -0.5 * ((q / q_bep - 1) / 0.4) ^ 2).
  assert (Hx : x <= 0).
  { subst x. assert (H := pow2_ge_0 ((q / q_bep - 1) / 0.4)). lra. }
  assert (He := exp_nonpos x Hx). assert (Hp := exp_pos x).
  destruct (Rle_dec 0 efficiency_bep) as [Hpos | Hneg].
  - apply clip_monotone. nra.
  - assert (Hlow : efficiency_bep * exp x <= 0.01) by nra.
    unfold clip. rewrite (Rmax_right _ 0.01) by lra.
    rewrite (Rmax_right efficiency_bep 0.01) by lra. lra.
Qed.

Lemma efficiency_at_bep (q_bep efficiency_bep : R) :
  q_bep <> 0 ->
  efficiency_at q_bep efficiency_bep q_bep = clip efficiency_bep 0.01 1.0.
Proof.
  intros Hq. unfold efficiency_at. f_equal.
  replace (-0.5 * ((q_bep / q_bep - 1) / 0.4) ^ 2) with 0 by (field; lra).
  rewrite exp_0. ring.
Qed.

(** X17.  The efficiency curve has one sample per flow sample; every
    sample lies in [0.01, 1]; none exceeds the BEP efficiency clipped to
    that range, and for a non-zero BEP flow a sample taken at the BEP flow
    attains it. *)
Theorem generate_pump_curve_efficiency
    (self : object) (q_bep h_bep power_bep efficiency_bep : R)
    (num_points : nat) :
  q_bep <> 0 ->
  let curve :=
    fst (generate_pump_curve self q_bep h_bep power_bep efficiency_bep
           num_points) in
  length (efficiency curve) = num_points
  /\ (forall i q x,
        nth_error (flow curve) i = Some q ->
        nth_error (efficiency curve) i = Some x ->
        0.01 <= x <= 1
        /\ x <= clip efficiency_bep 0.01 1.0
        /\ (q = q_bep -> x = clip efficiency_bep 0.01 1.0)).
Proof.
  intros Hq curve. subst curve. unfold generate_pump_curve.
  cbn [fst flow efficiency].
  split; [now rewrite length_map, linspace_length |].
  intros i q x Eq Ex.
  apply nth_error_map_Some in Ex as (q' & Eq' & ->).
  rewrite Eq in Eq'. injection Eq' as <-.
  split; [apply efficiency_at_bounds |].
  split; [apply efficiency_at_peak |].
  intros ->. now apply efficiency_at_bep.
Qed.

Lemma generate_pump_curve_efficiency_witness :
  0.05 <> 0
  /\ length (efficiency
               (fst (generate_pump_curve __init__ 0.05 30 20000 0.8 50)))
     = 50%nat
  /\ (forall i q x,
        nth_error
          (flow (fst (generate_pump_curve __init__ 0.05 30 20000 0.8 50))) i
        = Some q ->
        nth_error
          (efficiency
             (fst (generate_pump_curve __init__ 0.05 30 20000 0.8 50))) i
        = Some x ->
        0.01 <= x <= 1
        /\ x <= clip 0.8 0.01 1.0
        /\ (q = 0.05 -> x = clip 0.8 0.01 1.0)).
Proof.
  split; [lra |].
  apply (generate_pump_curve_efficiency __init__ 0.05 30 20000 0.8 50); lra.
Defined.

Lemma nth_error_map2_Some {A B C} (f : A -> B -> C)
    (l1 : list A) (l2 : list B) (i : nat) (z : C) :
  nth_error (map2 f l1 l2) i = Some z ->
  exists a b,
    nth_error l1 i = Some a /\ nth_error l2 i = Some b /\ z = f a b.
Proof.
  revert l2 i. induction l1 as [| a l1 IH]; intros [| b l2] i;
    try (destruct i; discriminate).
  destruct i as [| i]; cbn [map2 nth_error].
  - intros E; injection E as <-. exists a, b. repeat split.
  - apply IH.
Qed.

(** X18.  The power curve is derived from the other three: it has one
    sample per flow sample, and each power sample times the efficiency
    sample of the same index is the hydraulic power of the flow and head
    samples of that index, at the density 998.2.  For a positive BEP flow
    and head no power sample is negative. *)
Theorem generate_pump_curve_power
    (self : object) (q_bep h_bep power_bep efficiency_bep : R)
    (num_points : nat) :
  0 < q_bep -> 0 < h_bep ->
  let curve :=
    fst (generate_pump_curve self q_bep h_bep power_bep efficiency_bep
           num_points) in
  length (power curve) = num_points
  /\ (forall i p,
        nth_error (power curve) i = Some p ->
        0 <= p
        /\ exists q h x,
             nth_error (flow curve) i = Some q
             /\ nth_error (head curve) i = Some h
             /\ nth_error (efficiency curve) i = Some x
             /\ p * x = hydraulic_power q h 998.2 GRAVITY).
Proof.
  intros Hq Hh curve. subst curve. unfold generate_pump_curve.
  cbn [fst flow head power efficiency].
  set (q_range := linspace 0 (1.5 * q_bep) num_points).
  assert (Hlen : length q_range = num_points) by apply linspace_length.
  split.
  - rewrite map2_length; rewrite map2_length;
      rewrite ?length_map; congruence.
  - intros i p Ep.
    apply nth_error_map2_Some in Ep as (hp & x & Ehp & Ex & ->).
    apply nth_error_map2_Some in Ehp as (q & h & Eq & Eh & ->).
    assert (Ex' := Ex).
    apply nth_error_map_Some in Ex' as (q' & Eq' & ->).
    rewrite Eq in Eq'. injection Eq' as <-.
    assert (Eh' := Eh).
    apply nth_error_map_Some in Eh' as (q' & Eq' & ->).
    rewrite Eq in Eq'. injection Eq' as <-.
    destruct (efficiency_at_bounds q_bep efficiency_bep q) as [Hx _].
    assert (Hhead := head_at_nonneg q_bep h_bep q).
    apply flow_sample in Eq as Hflow; [| lra].
    destruct Hflow as [Hqv Hstep].
    assert (Hq0 : 0 <= q).
    { rewrite Hqv. apply Rmult_le_pos; [apply pos_INR | assumption]. }
    split.
    + apply Rdiv_nonneg; [| lra]. unfold GRAVITY.
      apply Rmult_le_pos; [| assumption].
      apply Rmult_le_pos; [lra | assumption].
    + exists q, (head_at q_bep h_bep q), (efficiency_at q_bep efficiency_bep q).
      repeat split; try assumption.
      unfold hydraulic_power. field. lra.
Qed.

Lemma generate_pump_curve_power_witness :
  0 < 0.05 /\ 0 < 30
  /\ length (power (fst (generate_pump_curve __init__ 0.05 30 20000 0.8 50)))
     = 50%nat
  /\ (forall i p,
        nth_error
          (power (fst (generate_pump_curve __init__ 0.05 30 20000 0.8 50))) i
        = Some p ->
        0 <= p
        /\ exists q h x,
             nth_error
               (flow (fst (generate_pump_curve __init__ 0.05 30 20000 0.8 50)))
               i = Some q
             /\ nth_error
                  (head
                     (fst (generate_pump_curve __init__ 0.05 30 20000 0.8 50)))
                  i = Some h
             /\ nth_error
                  (efficiency
                     (fst (generate_pump_curve __init__ 0.05 30 20000 0.8 50)))
                  i = Some x
             /\ p * x = hydraulic_power q h 998.2 GRAVITY).
Proof.
  split; [lra |]. split; [lra |].
  apply (generate_pump_curve_power __init__ 0.05 30 20000 0.8 50); lra.
Defined.

End CurveArrays.

Section OperatingPointResult.

Import PumpCalculator.

(** The record [operating_point] returns for a curve with at least one
    sample, in terms of the first minimizer. *)
Lemma operating_point_at_first_minimizer
    (self : object) (system : SystemCurveParams)
    (q_bep h_bep power_bep efficiency_bep : R) (num_points : nat) :
  (0 < num_points)%nat ->
  q_bep <> 0 ->
  exists idx,
    first_minimizer
      (head_difference system
         (fst (generate_pump_curve self q_bep h_bep power_bep efficiency_bep
                 num_points)))
      num_points idx
    /\ fst (operating_point self system
              {| param_q_bep := q_bep; param_h_bep := h_bep;
                 param_power_bep := power_bep;
                 param_efficiency_bep := efficiency_bep;
                 param_num_points := num_points |})
       = ([], Return
            {| flow_operating :=
                 item (linspace 0 (1.5 * q_bep) num_points) idx;
               head_operating :=
                 item (map (head_at q_bep h_bep)
                         (linspace 0 (1.5 * q_bep) num_points)) idx;
               power_operating :=
                 item (power
                         (fst (generate_pump_curve self q_bep h_bep power_bep
                                 efficiency_bep num_points))) idx;
               efficiency_operating :=
                 item (map (efficiency_at q_bep efficiency_bep)
                         (linspace 0 (1.5 * q_bep) num_points)) idx;
               system_curve :=
                 map (fun q => h_static system + k_coefficient system * q ^ 2)
                   (linspace 0 (1.5 * q_bep) num_points);
               pump_curve :=
                 map (head_at q_bep h_bep)
                   (linspace 0 (1.5 * q_bep) num_points);
               flow_range := linspace 0 (1.5 * q_bep) num_points |}).
Proof.
  intros HN _.
  unfold operating_point, generate_pump_curve, head_difference.
  cbn [fst flow head power efficiency
       param_q_bep param_h_bep param_power_bep param_efficiency_bep
       param_num_points].
  set (q_range := linspace 0 (1.5 * q_bep) num_points).
  set (h_pump := map (head_at q_bep h_bep) q_range).
  set (h_system :=
         map (fun q => h_static system + k_coefficient system * q ^ 2) q_range).
  set (diff := map2 (fun hp hs => Rabs (hp - hs)) h_pump h_system).
  assert (Hq : length q_range = num_points) by apply linspace_length.
  assert (Hp : length h_pump = num_points)
    by (subst h_pump; now rewrite length_map).
  assert (Hs : length h_system = num_points)
    by (subst h_system; now rewrite length_map).
  assert (Hd : length diff = num_points)
    by (subst diff; rewrite map2_length; congruence).
  assert (Hdiff : forall i, (i < num_points)%nat ->
            nth i diff 0
            = Rabs (item h_pump i
                    - (h_static system
                       + k_coefficient system * item q_range i ^ 2))).
  { intros i Hi. subst diff.
    rewrite (map2_nth _ 0 0 0) by (try congruence; lia).
    subst h_system. fold (item h_pump i).
    fold (item (map (fun q => h_static system + k_coefficient system * q ^ 2)
                  q_range) i).
    rewrite item_map by lia. reflexivity. }
  destruct diff as [| x t] eqn:Ediff; [cbn [length] in Hd; lia |].
  cbn [argmin]. rewrite bind_ret.
  assert (Hfirst := argmin_first x t). rewrite Hd in Hfirst.
  apply (first_minimizer_ext _ _ _ _ Hdiff) in Hfirst.
  exists (argmin_from 0 x 1 t). split; [exact Hfirst | reflexivity].
Qed.

Lemma item_linspace (q_bep : R) (num_points idx : nat) :
  0 <= q_bep -> (idx < num_points)%nat ->
  0 <= item (linspace 0 (1.5 * q_bep) num_points) idx <= 1.5 * q_bep.
Proof.
  intros Hq Hidx. unfold item.
  assert (E : nth_error (linspace 0 (1.5 * q_bep) num_points) idx
              = Some (nth idx (linspace 0 (1.5 * q_bep) num_points) 0))
    by (apply nth_error_nth'; rewrite linspace_length; lia).
  apply flow_sample in E as [-> Hstep]; [| assumption].
  split; [apply Rmult_le_pos; [apply pos_INR | assumption] |].
  destruct num_points as [| [| n]]; [lia | |].
  - replace idx with 0%nat by lia. cbn [INR]. lra.
  - assert (Hn : 0 < INR (S (S n) - 1))
      by (apply lt_0_INR; lia).
    assert (Hle : INR idx <= INR (S (S n) - 1)) by (apply le_INR; lia).
    replace (1.5 * q_bep)
      with (INR (S (S n) - 1) * ((1.5 * q_bep - 0) / INR (S (S n) - 1))) at 2
      by (field; lra).
    now apply Rmult_le_compat_r.
Qed.

(** X19.  With at least one sample and a positive BEP flow and head,
    [operating_point] returns a point of the pump curve: its flow lies in
    [0, 1.5 q_bep], its head is the head of the curve at that flow and lies
    in [0, 1.15 h_bep], its efficiency lies in [0.01, 1], and the three
    arrays returned with it have one entry per sample. *)
Theorem operating_point_on_curve
    (self : object) (system : SystemCurveParams)
    (q_bep h_bep power_bep efficiency_bep : R) (num_points : nat) :
  (0 < num_points)%nat -> 0 < q_bep -> 0 < h_bep ->
  exists op,
    fst (operating_point self system
           {| param_q_bep := q_bep; param_h_bep := h_bep;
              param_power_bep := power_bep;
              param_efficiency_bep := efficiency_bep;
              param_num_points := num_points |}) = ([], Return op)
    /\ 0 <= flow_operating op <= 1.5 * q_bep
    /\ head_operating op = head_at q_bep h_bep (flow_operating op)
    /\ 0 <= head_operating op <= 1.15 * h_bep
    /\ efficiency_operating op
       = efficiency_at q_bep efficiency_bep (flow_operating op)
    /\ 0.01 <= efficiency_operating op <= 1
    /\ length (system_curve op) = num_points
    /\ length (pump_curve op) = num_points
    /\ length (flow_range op) = num_points.
Proof.
  intros HN Hq Hh.
  destruct (operating_point_at_first_minimizer self system q_bep h_bep
              power_bep efficiency_bep num_points HN ltac:(lra))
    as (idx & (Hidx & _) & ->).
  eexists. split; [reflexivity |].
  cbn [flow_operating head_operating efficiency_operating system_curve
       pump_curve flow_range].
  assert (Hlen := linspace_length 0 (1.5 * q_bep) num_points).
  rewrite !item_map by lia. rewrite !length_map.
  destruct (item_linspace q_bep num_points idx ltac:(lra) Hidx) as [H0 H1].
  split; [split; assumption |].
  split; [reflexivity |].
  split.
  { split; [apply head_at_nonneg |].
    rewrite <- (head_at_shutoff q_bep h_bep) by lra.
    apply head_at_decreasing; lra. }
  split; [reflexivity |].
  split; [apply efficiency_at_bounds |].
  repeat split; assumption.
Qed.

Lemma operating_point_on_curve_witness :
  (0 < 50)%nat /\ 0 < 0.05 /\ 0 < 30
  /\ exists op,
       fst (operating_point __init__
              {| h_static := 20; k_coefficient := 4000 |}
              {| param_q_bep := 0.05; param_h_bep := 30;
                 param_power_bep := 20000; param_efficiency_bep := 0.8;
                 param_num_points := 50 |}) = ([], Return op)
       /\ 0 <= flow_operating op <= 1.5 * 0.05
       /\ head_operating op = head_at 0.05 30 (flow_operating op)
       /\ 0 <= head_operating op <= 1.15 * 30
       /\ efficiency_operating op = efficiency_at 0.05 0.8 (flow_operating op)
       /\ 0.01 <= efficiency_operating op <= 1
       /\ length (system_curve op) = 50%nat
       /\ length (pump_curve op) = 50%nat
       /\ length (flow_range op) = 50%nat.
Proof.
  split; [lia |]. split; [lra |]. split; [lra |].
  apply (operating_point_on_curve __init__
           {| h_static := 20; k_coefficient := 4000 |} 0.05 30 20000 0.8 50);
    [lia | lra | lra].
Defined.

(** X20.  For a non-zero BEP flow, when the pump head equals the system
    head at some sample, the search finds an exact intersection: the head returned satisfies the
    system curve at the flow returned. *)
Theorem operating_point_exact_intersection
    (self : object) (system : SystemCurveParams)
    (q_bep h_bep power_bep efficiency_bep : R) (num_points j : nat) :
  q_bep <> 0 ->
  (j < num_points)%nat ->
  head_difference system
    (fst (generate_pump_curve self q_bep h_bep power_bep efficiency_bep
            num_points)) j = 0 ->
  exists op,
    fst (operating_point self system
           {| param_q_bep := q_bep; param_h_bep := h_bep;
              param_power_bep := power_bep;
              param_efficiency_bep := efficiency_bep;
              param_num_points := num_points |}) = ([], Return op)
    /\ head_operating op
       = h_static system + k_coefficient system * flow_operating op ^ 2.
Proof.
  intros Hq0 Hj Hzero.
  destruct (operating_point_at_first_minimizer self system q_bep h_bep
              power_bep efficiency_bep num_points ltac:(lia) Hq0)
    as (idx & (Hidx & Hmin & _) & ->).
  eexists. split; [reflexivity |].
  cbn [flow_operating head_operating].
  specialize (Hmin j Hj). rewrite Hzero in Hmin.
  unfold head_difference, generate_pump_curve in Hmin.
  cbn [fst flow head] in Hmin.
  match type of Hmin with
  | Rabs ?d <= 0 =>
      assert (Hd : d = 0)
        by (destruct (Req_dec d 0) as [E | E]; [exact E |];
            apply Rabs_pos_lt in E; lra)
  end.
  lra.
Qed.

Lemma operating_point_exact_intersection_witness :
  0.05 <> 0
  /\ (0 < 50)%nat
  /\ head_difference {| h_static := 1.15 * 30; k_coefficient := 0 |}
       (fst (generate_pump_curve __init__ 0.05 30 20000 0.8 50)) 0 = 0
  /\ exists op,
       fst (operating_point __init__
              {| h_static := 1.15 * 30; k_coefficient := 0 |}
              {| param_q_bep := 0.05; param_h_bep := 30;
                 param_power_bep := 20000; param_efficiency_bep := 0.8;
                 param_num_points := 50 |}) = ([], Return op)
       /\ head_operating op
          = h_static {| h_static := 1.15 * 30; k_coefficient := 0 |}
            + k_coefficient {| h_static := 1.15 * 30; k_coefficient := 0 |}
              * flow_operating op ^ 2.
Proof.
  assert (Hz : head_difference {| h_static := 1.15 * 30; k_coefficient := 0 |}
                 (fst (generate_pump_curve __init__ 0.05 30 20000 0.8 50)) 0
               = 0).
  { unfold head_difference, generate_pump_curve.
    cbn [fst flow head h_static k_coefficient].
    rewrite item_map by (rewrite linspace_length; lia).
    replace (item (linspace 0 (1.5 * 0.05) 50) 0) with 0
      by (unfold item, linspace; cbn [seq map nth INR]; ring).
    rewrite head_at_shutoff by lra.
    replace (1.15 * 30 - (1.15 * 30 + 0 * 0 ^ 2)) with 0 by ring.
    apply Rabs_R0. }
  assert (Hq : 0.05 <> 0) by lra.
  split; [exact Hq |]. split; [lia |]. split; [exact Hz |].
  exact (operating_point_exact_intersection __init__
           {| h_static := 1.15 * 30; k_coefficient := 0 |}
           0.05 30 20000 0.8 50 0 Hq ltac:(lia) Hz).
Defined.

(** X21.  Asked for a curve of zero samples at a non-zero BEP flow,
    [operating_point] raises [ValueError]: there is no sample to choose.  The empty curve has been
    stored in the object by then. *)
Theorem operating_point_no_samples
    (self : object) (system : SystemCurveParams) (params : PumpCurveParams) :
  param_q_bep params <> 0 ->
  param_num_points params = 0%nat ->
  fst (operating_point self system params) = ([], Raise ValueError)
  /\ curve_data (snd (operating_point self system params))
     = Some {| flow := []; head := []; power := []; efficiency := [];
               q_bep := param_q_bep params; h_bep := param_h_bep params |}.
Proof.
  destruct params as [q h p e n]. cbn [param_num_points param_q_bep].
  intros _ ->. split; reflexivity.
Qed.

Lemma operating_point_no_samples_witness :
  param_q_bep
    {| param_q_bep := 0.05; param_h_bep := 30; param_power_bep := 20000;
       param_efficiency_bep := 0.8; param_num_points := 0 |} <> 0
  /\ param_num_points
       {| param_q_bep := 0.05; param_h_bep := 30; param_power_bep := 20000;
       param_efficiency_bep := 0.8; param_num_points := 0 |} = 0%nat
  /\ fst (operating_point __init__
            {| h_static := 20; k_coefficient := 4000 |}
            {| param_q_bep := 0.05; param_h_bep := 30;
               param_power_bep := 20000; param_efficiency_bep := 0.8;
               param_num_points := 0 |}) = ([], Raise ValueError)
  /\ curve_data
       (snd (operating_point __init__
               {| h_static := 20; k_coefficient := 4000 |}
               {| param_q_bep := 0.05; param_h_bep := 30;
                  param_power_bep := 20000; param_efficiency_bep := 0.8;
                  param_num_points := 0 |}))
     = Some {| flow := []; head := []; power := []; efficiency := [];
               q_bep :=
                 param_q_bep
                   {| param_q_bep := 0.05; param_h_bep := 30;
                      param_power_bep := 20000; param_efficiency_bep := 0.8;
                      param_num_points := 0 |};
               h_bep :=
                 param_h_bep
                   {| param_q_bep := 0.05; param_h_bep := 30;
                      param_power_bep := 20000; param_efficiency_bep := 0.8;
                      param_num_points := 0 |} |}.
Proof.
  split; [cbn [param_q_bep]; lra |]. split; [reflexivity |].
  apply (operating_point_no_samples __init__
           {| h_static := 20; k_coefficient := 4000 |}
           {| param_q_bep := 0.05; param_h_bep := 30;
              param_power_bep := 20000; param_efficiency_bep := 0.8;
              param_num_points := 0 |});
    [cbn [param_q_bep]; lra | reflexivity].
Defined.

End OperatingPointResult.

(** * Further properties of the standards classifier *)

Section VelocityCheck.

Import Standards.

Lemma lookup_In {V} (d : list (string * V)) (key : string) (v : V) :
  lookup d key = Some v -> In v (map snd d).
Proof.
  induction d as [| [k v0] rest IH]; [discriminate |].
  cbn [lookup]. destruct (String.eqb k key).
  - intros E; injection E as ->. left; reflexivity.
  - intros E. right. now apply IH.
Qed.

Lemma general_limits :
  lookup VELOCITY_LIMITS "Tubería general"
  = Some {| lim_min := 1.0; lim_max := 3.0; lim_recommended := 2.0 |}.
Proof. reflexivity. Qed.

Lemma limits_ordered (limits : VelocityLimits) :
  In limits (map snd VELOCITY_LIMITS) -> lim_min limits <= lim_max limits.
Proof.
  unfold VELOCITY_LIMITS. cbn [map snd In].
  intros H.
  repeat (destruct H as [<- | H]; [cbn [lim_min lim_max]; lra |]).
  contradiction.
Qed.

Lemma limits_of_ordered (service_type : string) :
  lim_min (limits_of service_type) <= lim_max (limits_of service_type).
Proof.
  unfold limits_of.
  destruct (lookup VELOCITY_LIMITS service_type) as [l |] eqn:E.
  - apply limits_ordered. now apply lookup_In in E.
  - cbn [lim_min lim_max]. lra.
Qed.

(** X22.  [check_velocity] never raises, whatever the service type.  It
    reports [in_range] exactly when the velocity lies within the limits of
    the service; the status is ADVERTENCIA exactly when it does not, and
    then the warnings name the limit that is violated; within the limits
    there are no warnings and the status is OPTIMO when the velocity is
    within 0.5 m/s of the recommended one and ACEPTABLE otherwise.  The
    initial status "OK" is never the one returned. *)
Theorem check_velocity_verdict (velocity : R) (service_type : string) :
  exists c,
    check_velocity velocity service_type = ([], Return c)
    /\ vc_velocity c = velocity
    /\ vc_limits c = limits_of service_type
    /\ (vc_in_range c = true
        <-> lim_min (vc_limits c) <= velocity <= lim_max (vc_limits c))
    /\ (vc_status c = ADVERTENCIA <-> vc_in_range c = false)
    /\ (vc_status c = OPTIMO
        <-> vc_in_range c = true
            /\ Rabs (velocity - lim_recommended (vc_limits c)) <= 0.5)
    /\ (vc_status c = ACEPTABLE
        <-> vc_in_range c = true
            /\ 0.5 < Rabs (velocity - lim_recommended (vc_limits c)))
    /\ vc_status c <> STATUS_OK
    /\ (vc_in_range c = true -> vc_warnings c = [])
    /\ (velocity < lim_min (vc_limits c) ->
        vc_warnings c
        = [VelocidadBaja velocity (lim_min (vc_limits c));
           RiesgoSedimentacion])
    /\ (lim_max (vc_limits c) < velocity ->
        vc_warnings c
        = [VelocidadAlta velocity (lim_max (vc_limits c)); RiesgoErosion]).
Proof.
  unfold check_velocity. rewrite general_limits.
  fold (limits_of service_type).
  assert (Hord := limits_of_ordered service_type).
  set (limits := limits_of service_type) in *.
  destruct (Rltb velocity (lim_min limits)) eqn:Elo;
    [apply Rltb_spec in Elo | apply Rltb_spec_false in Elo].
  - rewrite (Rltb_false (lim_max limits) velocity) by lra.
    rewrite (Rleb_false (lim_min limits) velocity) by lra.
    cbn [andb app].
    eexists. split; [reflexivity |].
    cbn [vc_velocity vc_limits vc_in_range vc_status vc_warnings].
    repeat split; intros; try discriminate; try lra; try congruence;
      try (destruct H; discriminate).
  - rewrite (Rleb_true (lim_min limits) velocity) by lra.
    destruct (Rltb (lim_max limits) velocity) eqn:Ehi;
      [apply Rltb_spec in Ehi | apply Rltb_spec_false in Ehi].
    + rewrite (Rleb_false velocity (lim_max limits)) by lra.
      cbn [andb app].
      eexists. split; [reflexivity |].
      cbn [vc_velocity vc_limits vc_in_range vc_status vc_warnings].
      repeat split; intros; try discriminate; try lra; try congruence;
        try (destruct H; discriminate).
    + rewrite (Rleb_true velocity (lim_max limits)) by lra.
      cbn [andb app].
      destruct (Rltb 0.5 (Rabs (velocity - lim_recommended limits))) eqn:Er;
        [apply Rltb_spec in Er | apply Rltb_spec_false in Er];
        (eexists; split; [reflexivity |]);
        cbn [vc_velocity vc_limits vc_in_range vc_status vc_warnings];
        repeat split; intros; try discriminate; try lra; try congruence;
          try (destruct H; lra).
Qed.

(** X23.  A service type that is not in the table is judged by the limits
    of 'Tuberia general': the result is the one of the default service. *)
Theorem check_velocity_unknown_service (velocity : R) (service_type : string) :
  lookup VELOCITY_LIMITS service_type = None ->
  check_velocity velocity service_type
  = check_velocity velocity default_service_type.
Proof.
  intros Hnone. unfold check_velocity, default_service_type.
  rewrite general_limits, Hnone. reflexivity.
Qed.

Lemma check_velocity_unknown_service_witness :
  lookup VELOCITY_LIMITS "Aceite" = None
  /\ check_velocity 2 "Aceite" = check_velocity 2 default_service_type.
Proof.
  split; [reflexivity |].
  apply (check_velocity_unknown_service 2 "Aceite"). reflexivity.
Defined.

End VelocityCheck.

Section PressureClass.

Import Standards.

(** In a list sorted by a relation along which the test can only turn
    true, the elements that pass are a suffix of the list. *)
Lemma filter_all {A} (p : A -> bool) (l : list A) :
  Forall (fun x => p x = true) l -> filter p l = l.
Proof.
  induction 1 as [| x l Hx _ IH]; [reflexivity |].
  cbn [filter]. now rewrite Hx, IH.
Qed.

Lemma filter_suffix {A} (le : A -> A -> Prop) (p : A -> bool) (l : list A) :
  (forall a b, le a b -> p a = true -> p b = true) ->
  StronglySorted le l ->
  exists before,
    l = before ++ filter p l /\ forall y, In y before -> p y = false.
Proof.
  intros Hmono. induction 1 as [| a l Hs IH Ha].
  - exists []. split; [reflexivity | intros y []].
  - cbn [filter]. destruct (p a) eqn:Ea.
    + exists []. split; [| intros y []].
      cbn [app]. f_equal. symmetry. apply filter_all.
      eapply Forall_impl; [| exact Ha].
      intros b Hab. now apply (Hmono a b).
    + destruct IH as (before & Hl & Hb).
      exists (a :: before). split.
      * cbn [app]. now f_equal.
      * intros y [<- | Hy]; [assumption | now apply Hb].
Qed.

Lemma ANSI_ascending : StronglySorted ansi_le PRESSURE_CLASSES_ANSI.
Proof.
  unfold PRESSURE_CLASSES_ANSI.
  repeat (apply SSorted_cons;
          [| repeat (apply Forall_cons;
                     [unfold ansi_le;
                      cbn [snd ansi_max_pressure_bar max_temp_c]; lra |]);
             apply Forall_nil]).
  apply SSorted_nil.
Qed.

Lemma PN_ascending : StronglySorted pn_le PRESSURE_CLASSES_PN.
Proof.
  unfold PRESSURE_CLASSES_PN.
  repeat (apply SSorted_cons;
          [| repeat (apply Forall_cons;
                     [unfold pn_le; cbn [snd pn_max_pressure_bar]; lra |]);
             apply Forall_nil]).
  apply SSorted_nil.
Qed.

Lemma ANSI_highest (entry : string * AnsiClass) :
  In entry PRESSURE_CLASSES_ANSI ->
  ansi_max_pressure_bar (snd entry) <= 425 /\ max_temp_c (snd entry) <= 482.
Proof.
  unfold PRESSURE_CLASSES_ANSI. cbn [In]. intros H.
  repeat (destruct H as [<- | H];
          [cbn [snd ansi_max_pressure_bar max_temp_c]; lra |]).
  contradiction.
Qed.

Lemma PN_highest (entry : string * PnClass) :
  In entry PRESSURE_CLASSES_PN -> pn_max_pressure_bar (snd entry) <= 100.
Proof.
  unfold PRESSURE_CLASSES_PN. cbn [In]. intros H.
  repeat (destruct H as [<- | H]; [cbn [snd pn_max_pressure_bar]; lra |]).
  contradiction.
Qed.

(** X24.  For the ANSI family the design pressure is 1.5 times the
    operating pressure.  Status OK: the recommended class is rated for the
    design pressure and for the temperature; every class listed before it
    in the table fails one of the two; and the suitable classes returned
    are the recommended class and all classes after it.  Status ERROR,
    returned and not raised: exactly when the design pressure exceeds 425
    bar or the temperature exceeds 482 degrees, the ratings of the highest
    class. *)
Theorem select_pressure_class_ansi (operating_pressure temperature : R) :
  match select_pressure_class operating_pressure temperature "ANSI" with
  | CLASS_OK reported design_pressure recommended all_suitable standard =>
      reported = operating_pressure
      /\ design_pressure = operating_pressure * 1.5
      /\ standard = "ANSI"%string
      /\ (exists specs before after,
            PRESSURE_CLASSES_ANSI = before ++ (recommended, specs) :: after
            /\ design_pressure <= ansi_max_pressure_bar specs
            /\ temperature <= max_temp_c specs
            /\ (forall entry, In entry before ->
                  ansi_max_pressure_bar (snd entry) < design_pressure
                  \/ max_temp_c (snd entry) < temperature)
            /\ all_suitable = recommended :: map fst after)
      /\ design_pressure <= 425 /\ temperature <= 482
  | CLASS_ERROR design_pressure =>
      design_pressure = operating_pressure * 1.5
      /\ (425 < design_pressure \/ 482 < temperature)
  end.
Proof.
  unfold select_pressure_class, SAFETY_FACTOR_ASME_B31_3.
  cbn [String.eqb Ascii.eqb Bool.eqb andb].
  set (dp := operating_pressure * 1.5).
  set (p := fun entry : string * AnsiClass =>
              Rleb dp (ansi_max_pressure_bar (snd entry))
              && Rleb temperature (max_temp_c (snd entry))).
  assert (Hp : forall e, p e = true
                 <-> dp <= ansi_max_pressure_bar (snd e)
                     /\ temperature <= max_temp_c (snd e)).
  { intros e. subst p. cbn beta.
    rewrite andb_true_iff, !Rleb_spec. reflexivity. }
  assert (Hmono : forall a b, ansi_le a b -> p a = true -> p b = true).
  { intros a b [H1 H2]. rewrite !Hp. lra. }
  destruct (filter_suffix ansi_le p PRESSURE_CLASSES_ANSI Hmono ANSI_ascending)
    as (before & Hl & Hb).
  destruct (filter p PRESSURE_CLASSES_ANSI) as [| [name specs] after] eqn:Ef.
  - cbn [map]. split; [reflexivity |].
    rewrite app_nil_r in Hl.
    assert (Hlast : p ("2500"%string,
                       {| ansi_max_pressure_bar := 425.0;
                          max_temp_c := 482 |}) = false).
    { apply Hb. rewrite <- Hl. unfold PRESSURE_CLASSES_ANSI. cbn [In]. tauto. }
    destruct (Rle_dec dp 425) as [H1 | H1]; [| left; lra].
    destruct (Rle_dec temperature 482) as [H2 | H2]; [| right; lra].
    exfalso.
    assert (Ht : p ("2500"%string,
                    {| ansi_max_pressure_bar := 425.0;
                       max_temp_c := 482 |}) = true).
    { apply Hp. cbn [snd ansi_max_pressure_bar max_temp_c]. lra. }
    congruence.
  - cbn [map fst].
    assert (Hin : In (name, specs) (filter p PRESSURE_CLASSES_ANSI))
      by (rewrite Ef; left; reflexivity).
    apply filter_In in Hin as [Hin Hx]. apply Hp in Hx. cbn [snd] in Hx.
    destruct (ANSI_highest _ Hin) as [H1 H2]. cbn [snd] in H1, H2.
    repeat split; try lra.
    exists specs, before, after.
    repeat split; try tauto.
    intros entry He. apply Hb in He.
    destruct (Rle_dec dp (ansi_max_pressure_bar (snd entry))) as [Ha | Ha];
      [| left; lra].
    destruct (Rle_dec temperature (max_temp_c (snd entry))) as [Hc | Hc];
      [| right; lra].
    assert (p entry = true) by (apply Hp; split; assumption). congruence.
Qed.

(** X25.  A standard other than 'ANSI' selects from the PN family, by
    pressure alone.  Status OK: the recommended class is rated for the
    design pressure, every class before it in the table is not, and the
    suitable classes returned are the recommended class and all classes
    after it.  Status ERROR: exactly when the design pressure exceeds 100
    bar. *)
Theorem select_pressure_class_pn
    (operating_pressure temperature : R) (standard : string) :
  standard <> "ANSI"%string ->
  match select_pressure_class operating_pressure temperature standard with
  | CLASS_OK reported design_pressure recommended all_suitable reported_std =>
      reported = operating_pressure
      /\ design_pressure = operating_pressure * 1.5
      /\ reported_std = standard
      /\ (exists specs before after,
            PRESSURE_CLASSES_PN = before ++ (recommended, specs) :: after
            /\ design_pressure <= pn_max_pressure_bar specs
            /\ (forall entry, In entry before ->
                  pn_max_pressure_bar (snd entry) < design_pressure)
            /\ all_suitable = recommended :: map fst after)
      /\ design_pressure <= 100
  | CLASS_ERROR design_pressure =>
      design_pressure = operating_pressure * 1.5 /\ 100 < design_pressure
  end.
Proof.
  intros Hstd. unfold select_pressure_class, SAFETY_FACTOR_ASME_B31_3.
  apply String.eqb_neq in Hstd. rewrite Hstd.
  set (dp := operating_pressure * 1.5).
  set (p := fun entry : string * PnClass =>
              Rleb dp (pn_max_pressure_bar (snd entry))).
  assert (Hp : forall e, p e = true <-> dp <= pn_max_pressure_bar (snd e)).
  { intros e. subst p. cbn beta. apply Rleb_spec. }
  assert (Hmono : forall a b, pn_le a b -> p a = true -> p b = true).
  { intros a b H. unfold pn_le in H. rewrite !Hp. lra. }
  destruct (filter_suffix pn_le p PRESSURE_CLASSES_PN Hmono PN_ascending)
    as (before & Hl & Hb).
  destruct (filter p PRESSURE_CLASSES_PN) as [| [name specs] after] eqn:Ef.
  - cbn [map]. split; [reflexivity |].
    rewrite app_nil_r in Hl.
    assert (Hlast : p ("PN100"%string,
                       {| pn_max_pressure_bar := 100;
                          applications := "Presión extrema" |}) = false).
    { apply Hb. rewrite <- Hl. unfold PRESSURE_CLASSES_PN. cbn [In]. tauto. }
    destruct (Rle_dec dp 100) as [H1 | H1]; [| lra].
    exfalso.
    assert (Ht : p ("PN100"%string,
                    {| pn_max_pressure_bar := 100;
                       applications := "Presión extrema" |}) = true).
    { apply Hp. cbn [snd pn_max_pressure_bar]. lra. }
    congruence.
  - cbn [map fst].
    assert (Hin : In (name, specs) (filter p PRESSURE_CLASSES_PN))
      by (rewrite Ef; left; reflexivity).
    apply filter_In in Hin as [Hin Hx]. apply Hp in Hx. cbn [snd] in Hx.
    assert (H1 := PN_highest _ Hin). cbn [snd] in H1.
    repeat split; try lra.
    exists specs, before, after.
    repeat split; try tauto.
    intros entry He. apply Hb in He.
    destruct (Rle_dec dp (pn_max_pressure_bar (snd entry))) as [Ha | Ha];
      [| lra].
    assert (p entry = true) by now apply Hp. congruence.
Qed.

Lemma select_pressure_class_pn_witness :
  "PN"%string <> "ANSI"%string
  /\ match select_pressure_class 10 50 "PN" with
     | CLASS_OK reported design_pressure recommended all_suitable
         reported_std =>
         reported = 10
         /\ design_pressure = 10 * 1.5
         /\ reported_std = "PN"%string
         /\ (exists specs before after,
               PRESSURE_CLASSES_PN = before ++ (recommended, specs) :: after
               /\ design_pressure <= pn_max_pressure_bar specs
               /\ (forall entry, In entry before ->
                     pn_max_pressure_bar (snd entry) < design_pressure)
               /\ all_suitable = recommended :: map fst after)
         /\ design_pressure <= 100
     | CLASS_ERROR design_pressure =>
         design_pressure = 10 * 1.5 /\ 100 < design_pressure
     end.
Proof.
  assert (H : "PN"%string <> "ANSI"%string) by discriminate.
  split; [exact H |].
  exact (select_pressure_class_pn 10 50 "PN" H).
Defined.

End PressureClass.

Section Erosion.

Import Standards.

(** X26.  For a positive density the erosion velocity is 100 over the
    square root of the density, and is positive; the ratio reported times
    the erosion velocity is the velocity; and the four verdicts cut the
    velocities at 0.5, 0.8 and 1.0 times the erosion velocity, each
    threshold belonging to the verdict above it. *)
Theorem erosion_velocity_check_tiers (velocity density : R) :
  0 < density ->
  let c := erosion_velocity_check velocity density in
  let v_e := 100 / sqrt density in
  ec_erosion_velocity c = v_e
  /\ 0 < v_e
  /\ ec_ratio c * v_e = velocity
  /\ (ec_status c = EROSION_SEGURO <-> velocity < 0.5 * v_e)
  /\ (ec_status c = EROSION_ACEPTABLE
      <-> 0.5 * v_e <= velocity < 0.8 * v_e)
  /\ (ec_status c = EROSION_PRECAUCION
      <-> 0.8 * v_e <= velocity < v_e)
  /\ (ec_status c = EROSION_PELIGRO <-> v_e <= velocity).
Proof.
  intros Hd c v_e. subst c. unfold erosion_velocity_check.
  assert (Hs : 0 < sqrt density) by now apply sqrt_lt_R0.
  assert (Hv : 0 < v_e) by (subst v_e; apply Rdiv_lt_0_compat; lra).
  fold v_e.
  assert (Hratio : velocity / v_e * v_e = velocity) by (field; lra).
  set (ratio := velocity / v_e) in *.
  assert (Hlt : forall k, ratio < k <-> velocity < k * v_e).
  { intros k. split; intros H.
    - rewrite <- Hratio. nra.
    - rewrite <- Hratio in H. nra. }
  destruct (Rltb ratio 0.5) eqn:E1;
    [apply Rltb_spec in E1 | apply Rltb_spec_false in E1].
  { cbn [ec_erosion_velocity ec_ratio ec_status].
    apply Hlt in E1.
    repeat split; intros; try discriminate; try lra. }
  destruct (Rltb ratio 0.8) eqn:E2;
    [apply Rltb_spec in E2 | apply Rltb_spec_false in E2].
  { cbn [ec_erosion_velocity ec_ratio ec_status].
    apply Hlt in E2. assert (~ velocity < 0.5 * v_e) by (rewrite <- Hlt; lra).
    repeat split; intros; try discriminate; try lra. }
  destruct (Rltb ratio 1.0) eqn:E3;
    [apply Rltb_spec in E3 | apply Rltb_spec_false in E3].
  { cbn [ec_erosion_velocity ec_ratio ec_status].
    apply Hlt in E3. assert (~ velocity < 0.8 * v_e) by (rewrite <- Hlt; lra).
    repeat split; intros; try discriminate; try lra. }
  cbn [ec_erosion_velocity ec_ratio ec_status].
  assert (~ velocity < 1.0 * v_e) by (rewrite <- Hlt; lra).
  repeat split; intros; try discriminate; try lra.
Qed.

Lemma erosion_velocity_check_tiers_witness :
  0 < 1000
  /\ ec_erosion_velocity (erosion_velocity_check 2 1000) = 100 / sqrt 1000
  /\ 0 < 100 / sqrt 1000
  /\ ec_ratio (erosion_velocity_check 2 1000) * (100 / sqrt 1000) = 2
  /\ (ec_status (erosion_velocity_check 2 1000) = EROSION_SEGURO
      <-> 2 < 0.5 * (100 / sqrt 1000))
  /\ (ec_status (erosion_velocity_check 2 1000) = EROSION_ACEPTABLE
      <-> 0.5 * (100 / sqrt 1000) <= 2 < 0.8 * (100 / sqrt 1000))
  /\ (ec_status (erosion_velocity_check 2 1000) = EROSION_PRECAUCION
      <-> 0.8 * (100 / sqrt 1000) <= 2 < 100 / sqrt 1000)
  /\ (ec_status (erosion_velocity_check 2 1000) = EROSION_PELIGRO
      <-> 100 / sqrt 1000 <= 2).
Proof.
  split; [lra |].
  apply (erosion_velocity_check_tiers 2 1000). lra.
Defined.

End Erosion.

Section PipeSizeFurther.

Import Standards.

Lemma in_firstn {A} (n : nat) (l : list A) (x : A) :
  In x (firstn n l) -> In x l.
Proof.
  revert l. induction n as [| n IH]; intros [| a l]; cbn [firstn];
    try contradiction.
  intros [<- | H]; [left; reflexivity | right; now apply IH].
Qed.

Lemma firstn_sorted (l : list Z) (n : nat) :
  StronglySorted Z.le l -> StronglySorted Z.le (firstn n l).
Proof.
  intros Hs. revert n. induction Hs as [| a l Hs IH Ha]; intros [| n];
    cbn [firstn]; try apply SSorted_nil.
  apply SSorted_cons; [apply IH |].
  rewrite Forall_forall in *. intros x Hx. apply Ha.
  now apply (in_firstn n l).
Qed.

Lemma filter_sorted (p : Z -> bool) (l : list Z) :
  StronglySorted Z.le l -> StronglySorted Z.le (filter p l).
Proof.
  induction 1 as [| a l Hs IH Ha]; cbn [filter]; [apply SSorted_nil |].
  destruct (p a); [| assumption].
  apply SSorted_cons; [assumption |].
  rewrite Forall_forall in *. intros x Hx. apply Ha.
  now apply filter_In in Hx as [Hx _].
Qed.

(** X27.  With status OK, [select_pipe_size] also reports the flow in cubic
    metres per hour and the next sizes: at most three standard sizes, in
    ascending order, the first of them the recommended size, each at least
    the required diameter. *)
Theorem select_pipe_size_next_sizes (flow_rate max_velocity : R) :
  0 < flow_rate -> 0 < max_velocity ->
  match select_pipe_size flow_rate max_velocity with
  | OK required_diameter_mm recommended_dn _ flow_rate_m3h next_sizes =>
      flow_rate_m3h = flow_rate * 3600
      /\ (length next_sizes <= 3)%nat
      /\ (exists rest, next_sizes = recommended_dn :: rest)
      /\ StronglySorted Z.le next_sizes
      /\ forall dn, In dn next_sizes ->
           In dn STANDARD_PIPE_SIZES /\ required_diameter_mm <= IZR dn
  | ERROR _ => True
  end.
Proof.
  intros HQ Hv. unfold select_pipe_size.
  set (dreq := sqrt (4 * (flow_rate / max_velocity) / PI) * 1000).
  set (p := fun dn : Z => Rleb dreq (IZR dn)).
  destruct (filter p STANDARD_PIPE_SIZES) as [| dn rest] eqn:Ef; [exact I |].
  assert (Hsorted : StronglySorted Z.le (dn :: rest)).
  { rewrite <- Ef. apply filter_sorted. exact STANDARD_PIPE_SIZES_ascending. }
  assert (Hall : forall s, In s (dn :: rest) ->
                   In s STANDARD_PIPE_SIZES /\ dreq <= IZR s).
  { intros s Hs. rewrite <- Ef in Hs. apply filter_In in Hs as [Hin Hp].
    split; [assumption | now apply Rleb_spec in Hp]. }
  split; [reflexivity |].
  destruct (1 <? length (dn :: rest))%nat eqn:El.
  - split; [apply firstn_le_length |].
    split; [exists (firstn 2 rest); reflexivity |].
    split; [now apply firstn_sorted |].
    intros s Hs. apply Hall. now apply (in_firstn 3).
  - apply Nat.ltb_ge in El. cbn [length] in El.
    destruct rest as [| b rest']; [| cbn [length] in El; lia].
    split; [cbn; lia |]. split; [exists []; reflexivity |].
    split; [assumption | exact Hall].
Qed.

Lemma select_pipe_size_next_sizes_witness :
  0 < 0.01 /\ 0 < 2
  /\ match select_pipe_size 0.01 2 with
     | OK required_diameter_mm recommended_dn _ flow_rate_m3h next_sizes =>
         flow_rate_m3h = 0.01 * 3600
         /\ (length next_sizes <= 3)%nat
         /\ (exists rest, next_sizes = recommended_dn :: rest)
         /\ StronglySorted Z.le next_sizes
         /\ forall dn, In dn next_sizes ->
              In dn STANDARD_PIPE_SIZES /\ required_diameter_mm <= IZR dn
     | ERROR _ => True
     end.
Proof.
  split; [lra |]. split; [lra |].
  apply (select_pipe_size_next_sizes 0.01 2); lra.
Defined.

Lemma required_diameter_monotone (flow1 flow2 v1 v2 : R) :
  0 < flow1 <= flow2 -> 0 < v1 <= v2 ->
  sqrt (4 * (flow1 / v2) / PI) * 1000 <= sqrt (4 * (flow2 / v1) / PI) * 1000.
Proof.
  intros HQ Hv. assert (HPI := PI_RGT_0).
  apply Rmult_le_compat_r; [lra |]. apply sqrt_le_1_alt.
  unfold Rdiv. apply Rmult_le_compat_r;
    [left; now apply Rinv_0_lt_compat |].
  apply Rmult_le_compat_l; [lra |].
  assert (Hinv : / v2 <= / v1) by (apply Rinv_le_contravar; lra).
  assert (Hinv2 : 0 < / v2) by (apply Rinv_0_lt_compat; lra).
  apply Rmult_le_compat; lra.
Qed.

(** X28.  Selection is monotone: when a standard size exists for a flow at
    some maximum velocity, one exists for any smaller flow at any higher
    maximum velocity, and the size recommended there is not larger. *)
Theorem select_pipe_size_monotone (flow1 flow2 v1 v2 : R) :
  0 < flow1 <= flow2 -> 0 < v1 <= v2 ->
  match select_pipe_size flow2 v1 with
  | OK _ dn _ _ _ =>
      match select_pipe_size flow1 v2 with
      | OK _ dn' _ _ _ => (dn' <= dn)%Z
      | ERROR _ => False
      end
  | ERROR _ => True
  end.
Proof.
  intros HQ Hv.
  assert (Hreq := required_diameter_monotone flow1 flow2 v1 v2 HQ Hv).
  unfold select_pipe_size.
  set (d2 := sqrt (4 * (flow2 / v1) / PI) * 1000) in *.
  set (d1 := sqrt (4 * (flow1 / v2) / PI) * 1000) in *.
  set (p2 := fun dn : Z => Rleb d2 (IZR dn)).
  set (p1 := fun dn : Z => Rleb d1 (IZR dn)).
  destruct (filter p2 STANDARD_PIPE_SIZES) as [| dn rest] eqn:E2; [exact I |].
  assert (Hdn : In dn (filter p2 STANDARD_PIPE_SIZES))
    by (rewrite E2; left; reflexivity).
  apply filter_In in Hdn as [Hin Hp2]. apply Rleb_spec in Hp2.
  assert (Hp1 : p1 dn = true) by (apply Rleb_spec; lra).
  destruct (filter p1 STANDARD_PIPE_SIZES) as [| dn' rest'] eqn:E1.
  - assert (H : In dn (filter p1 STANDARD_PIPE_SIZES))
      by (apply filter_In; split; assumption).
    rewrite E1 in H. contradiction.
  - apply (filter_first_least p1 _ STANDARD_PIPE_SIZES_ascending dn' rest' E1);
      assumption.
Qed.

Lemma select_pipe_size_monotone_witness :
  0 < 0.01 <= 0.02 /\ 0 < 2 <= 2.5
  /\ match select_pipe_size 0.02 2 with
     | OK _ dn _ _ _ =>
         match select_pipe_size 0.01 2.5 with
         | OK _ dn' _ _ _ => (dn' <= dn)%Z
         | ERROR _ => False
         end
     | ERROR _ => True
     end.
Proof.
  split; [lra |]. split; [lra |].
  apply (select_pipe_size_monotone 0.01 0.02 2 2.5); lra.
Defined.

End PipeSizeFurther.

(** * Interpolation in the fluid property table *)

Section Interpolation.

Import HydraulicCalculator.

Lemma StronglySorted_app_cross {A} (rel : A -> A -> Prop) (l1 l2 : list A) :
  StronglySorted rel (l1 ++ l2) ->
  forall x y, In x l1 -> In y l2 -> rel x y.
Proof.
  induction l1 as [| a l1 IH]; intros Hs x y Hx Hy; [contradiction |].
  cbn [app] in Hs. apply StronglySorted_inv in Hs as [Hs Ha].
  destruct Hx as [<- | Hx].
  - rewrite Forall_forall in Ha. apply Ha. apply in_or_app. now right.
  - now apply IH.
Qed.

Lemma StronglySorted_app_r {A} (rel : A -> A -> Prop) (l1 l2 : list A) :
  StronglySorted rel (l1 ++ l2) -> StronglySorted rel l2.
Proof.
  induction l1 as [| a l1 IH]; intros Hs; [assumption |].
  cbn [app] in Hs. apply StronglySorted_inv in Hs as [Hs _]. now apply IH.
Qed.

(** The pair of anchors the loop stops at are neighbours in the list. *)
Lemma bracket_neighbours (temps : list Z) (T : R) (t1 t2 : Z) :
  bracket temps T = Some (t1, t2) ->
  exists pre post,
    temps = pre ++ t1 :: t2 :: post /\ IZR t1 <= T <= IZR t2.
Proof.
  revert t1 t2. induction temps as [| a rest IH]; intros t1 t2; [discriminate |].
  destruct rest as [| b rest']; [discriminate |].
  cbn [bracket].
  destruct (Rleb (IZR a) T && Rleb T (IZR b)) eqn:E.
  - intros H; injection H as <- <-.
    apply andb_true_iff in E as [E1 E2].
    apply Rleb_spec in E1. apply Rleb_spec in E2.
    exists [], rest'. split; [reflexivity | split; assumption].
  - intros H. destruct (IH _ _ H) as (pre & post & Hl & HT).
    exists (a :: pre), post. split; [| assumption].
    cbn [app]. now f_equal.
Qed.

(** Between the first and the last anchor the loop always stops. *)
Lemma bracket_found (temps : list Z) (a b : Z) (T : R) :
  IZR a <= T <= IZR (last (b :: temps) 0%Z) ->
  exists t1 t2, bracket (a :: b :: temps) T = Some (t1, t2).
Proof.
  revert a b. induction temps as [| c rest IH]; intros a b [Ha Hl].
  - cbn [last] in Hl. cbn [bracket].
    rewrite Rleb_true, Rleb_true by assumption. eexists; eexists; reflexivity.
  - cbn [bracket].
    destruct (Rleb (IZR a) T && Rleb T (IZR b)) eqn:E.
    + eexists; eexists; reflexivity.
    + apply andb_false_iff in E as [E | E];
        [apply Rleb_spec_false in E; lra |].
      apply Rleb_spec_false in E.
      apply (IH b c). split; [lra |].
      exact Hl.
Qed.

Lemma key_lt_keys_ascending (l : list (Z * R)) :
  StronglySorted key_lt l -> StronglySorted Z.lt (keys l).
Proof.
  unfold keys. induction 1 as [| a l Hs IH Ha];
    cbn [map]; [apply SSorted_nil |].
  apply SSorted_cons; [exact IH |].
  rewrite Forall_forall in *. intros k Hk.
  apply in_map_iff in Hk as (e & <- & He). now apply Ha.
Qed.

Lemma key_lt_entry_unique (l : list (Z * R)) :
  StronglySorted key_lt l ->
  forall a b, In a l -> In b l -> fst a = fst b -> a = b.
Proof.
  induction 1 as [| h l Hs IH Hh]; intros a b Ha Hb E; [contradiction |].
  rewrite Forall_forall in Hh.
  destruct Ha as [<- | Ha], Hb as [<- | Hb].
  - reflexivity.
  - assert (H := Hh _ Hb). unfold key_lt in H. lia.
  - assert (H := Hh _ Ha). unfold key_lt in H. lia.
  - now apply IH.
Qed.

Lemma descending_ascending (l : list (Z * R)) :
  StronglySorted descending l -> StronglySorted key_lt l.
Proof.
  induction 1 as [| a l Hs IH Ha]; [apply SSorted_nil |].
  apply SSorted_cons; [exact IH |].
  eapply Forall_impl; [| exact Ha]. intros b [H _]. exact H.
Qed.

Lemma descending_values (l : list (Z * R)) :
  StronglySorted descending l ->
  forall a b, In a l -> In b l -> (fst a <= fst b)%Z -> snd b <= snd a.
Proof.
  induction 1 as [| h l Hs IH Hh]; intros a b Ha Hb Hle; [contradiction |].
  rewrite Forall_forall in Hh.
  destruct Ha as [<- | Ha], Hb as [<- | Hb].
  - lra.
  - now apply Hh.
  - destruct (Hh _ Ha) as [Hlt _]. lia.
  - now apply IH.
Qed.

Section SortedTable.

Variable table : list (Z * R).
Hypothesis table_ascending : StronglySorted key_lt table.

Lemma table_keys_ascending : StronglySorted Z.lt (keys table).
Proof. exact (key_lt_keys_ascending table table_ascending). Qed.

(** No entry lies strictly between two neighbouring entries. *)
Lemma table_neighbours_apart (pre post : list (Z * R)) (e1 e2 e : Z * R) :
  table = pre ++ e1 :: e2 :: post -> In e table ->
  (fst e <= fst e1)%Z \/ (fst e2 <= fst e)%Z.
Proof.
  intros Hl He. assert (Hs := table_ascending). rewrite Hl in Hs, He.
  apply in_app_or in He as [He | [<- | [<- | He]]].
  - left.
    assert (H := StronglySorted_app_cross _ _ _ Hs e e1 He ltac:(now left)).
    unfold key_lt in H. lia.
  - left; lia.
  - right; lia.
  - right. apply StronglySorted_app_r in Hs.
    apply StronglySorted_inv in Hs as [Hs _].
    apply StronglySorted_inv in Hs as [_ H2].
    rewrite Forall_forall in H2. assert (H := H2 _ He).
    unfold key_lt in H. lia.
Qed.

Lemma table_neighbours_ordered (pre post : list (Z * R)) (e1 e2 : Z * R) :
  table = pre ++ e1 :: e2 :: post -> (fst e1 < fst e2)%Z.
Proof.
  intros Hl. assert (Hs := table_ascending). rewrite Hl in Hs.
  apply StronglySorted_app_r in Hs.
  apply StronglySorted_inv in Hs as [_ H1].
  rewrite Forall_forall in H1. apply H1. now left.
Qed.

(** An entry is determined by its temperature. *)
Lemma table_entry_unique (a b : Z * R) :
  In a table -> In b table -> fst a = fst b -> a = b.
Proof. exact (key_lt_entry_unique table table_ascending a b). Qed.

Lemma getitem_entry (e : Z * R) :
  In e table -> getitem table (IZR (fst e)) = ([], Return (snd e)).
Proof.
  intros He. apply getitem_tabulated; [exact table_keys_ascending |].
  now destruct e.
Qed.

(** From the first anchor to the last, what the lookup returns is the
    interpolation on a pair of neighbouring entries that enclose the
    temperature, ends included. *)
Lemma lookup_table_on_segment (T : R) (first second : Z * R)
    (rest : list (Z * R)) :
  table = first :: second :: rest ->
  sorted (keys table) = keys table ->
  IZR (fst first) <= T <= IZR (last (keys table) 0%Z) ->
  exists pre post e1 e2,
    table = pre ++ e1 :: e2 :: post
    /\ IZR (fst e1) <= T <= IZR (fst e2)
    /\ lookup_table table T = ([], Return (interpolate e1 e2 T)).
Proof.
  intros Htable Hsorted HT.
  assert (Hfound : exists t1 t2, bracket (keys table) T = Some (t1, t2)).
  { rewrite Htable in HT |- *. cbn [keys map] in HT |- *.
    now apply bracket_found. }
  destruct Hfound as (t1 & t2 & Hb).
  destruct (bracket_neighbours _ _ _ _ Hb) as (kpre & kpost & Hk & Ht).
  unfold keys in Hk.
  apply map_eq_app in Hk as (pre & l2 & Hl & _ & Hk).
  apply map_eq_cons in Hk as (e1 & l3 & -> & He1 & Hk).
  apply map_eq_cons in Hk as (e2 & post & -> & He2 & _).
  subst t1 t2.
  exists pre, post, e1, e2.
  split; [exact Hl |]. split; [exact Ht |].
  assert (Hin1 : In e1 table)
    by (rewrite Hl; apply in_or_app; right; left; reflexivity).
  assert (Hin2 : In e2 table)
    by (rewrite Hl; apply in_or_app; right; right; left; reflexivity).
  assert (Hlt := table_neighbours_ordered _ _ _ _ Hl).
  apply IZR_lt in Hlt.
  unfold lookup_table. rewrite Hsorted.
  destruct (contains (keys table) T) eqn:Ec.
  - destruct (contains_key _ _ Ec) as (t & Hin & <-).
    unfold keys in Hin. apply in_map_iff in Hin as (e & <- & He).
    rewrite (getitem_entry e He). f_equal. f_equal.
    destruct Ht as [Ht1 Ht2]. apply le_IZR in Ht1. apply le_IZR in Ht2.
    destruct (table_neighbours_apart _ _ _ _ e Hl He) as [H | H].
    + assert (E : e = e1) by (apply table_entry_unique; try assumption; lia).
      subst e. unfold interpolate. field. lra.
    + assert (E : e = e2) by (apply table_entry_unique; try assumption; lia).
      subst e. unfold interpolate. field. lra.
  - rewrite Hb, (getitem_entry e1 Hin1), bind_nil,
      (getitem_entry e2 Hin2), bind_nil.
    reflexivity.
Qed.

(** Strictly between two neighbouring entries the lookup interpolates on
    that pair. *)
Lemma lookup_table_interpolates (T : R) (first second : Z * R)
    (rest pre post : list (Z * R)) (e1 e2 : Z * R) :
  table = first :: second :: rest ->
  sorted (keys table) = keys table ->
  IZR (fst first) <= T <= IZR (last (keys table) 0%Z) ->
  table = pre ++ e1 :: e2 :: post ->
  IZR (fst e1) < T < IZR (fst e2) ->
  lookup_table table T = ([], Return (interpolate e1 e2 T)).
Proof.
  intros Htable Hsorted Hrange Hl [H1 H2].
  destruct (lookup_table_on_segment T first second rest Htable Hsorted Hrange)
    as (pre' & post' & e1' & e2' & Hl' & [H1' H2'] & ->).
  assert (Hin1 : In e1 table)
    by (rewrite Hl; apply in_or_app; right; left; reflexivity).
  assert (Hin2 : In e2 table)
    by (rewrite Hl; apply in_or_app; right; right; left; reflexivity).
  assert (Hin1' : In e1' table)
    by (rewrite Hl'; apply in_or_app; right; left; reflexivity).
  assert (Hin2' : In e2' table)
    by (rewrite Hl'; apply in_or_app; right; right; left; reflexivity).
  assert (E1 : e1' = e1).
  { apply table_entry_unique; try assumption.
    destruct (table_neighbours_apart _ _ _ _ e1' Hl Hin1') as [H | H];
      [| apply IZR_le in H; lra].
    destruct (table_neighbours_apart _ _ _ _ e1 Hl' Hin1) as [H' | H'];
      [lia | apply IZR_le in H'; lra]. }
  assert (E2 : e2' = e2).
  { apply table_entry_unique; try assumption.
    destruct (table_neighbours_apart _ _ _ _ e2' Hl Hin2') as [H | H];
      [apply IZR_le in H; lra |].
    destruct (table_neighbours_apart _ _ _ _ e2 Hl' Hin2) as [H' | H'];
      [apply IZR_le in H'; lra | lia]. }
  now subst.
Qed.

Hypothesis table_descending : StronglySorted descending table.

(** Of two entries, the one at the lower temperature has the value that is
    not lower. *)
Lemma table_values_descend (a b : Z * R) :
  In a table -> In b table -> (fst a <= fst b)%Z -> snd b <= snd a.
Proof. exact (descending_values table table_descending a b). Qed.

(** On one segment the interpolation does not rise. *)
Lemma interpolate_descends (e1 e2 : Z * R) (T T' : R) :
  descending e1 e2 -> T <= T' ->
  interpolate e1 e2 T' <= interpolate e1 e2 T.
Proof.
  intros [Hlt Hv] HT. apply IZR_lt in Hlt. unfold interpolate.
  assert (Hd : 0 < / (IZR (fst e2) - IZR (fst e1)))
    by (apply Rinv_0_lt_compat; lra).
  set (k := / (IZR (fst e2) - IZR (fst e1))) in *.
  assert (Hc : (snd e2 - snd e1) * k <= 0) by nra.
  set (c := (snd e2 - snd e1) * k) in *.
  replace ((snd e2 - snd e1) * (T' - IZR (fst e1))
           / (IZR (fst e2) - IZR (fst e1)))
    with (c * (T' - IZR (fst e1))) by (subst c k; unfold Rdiv; ring).
  replace ((snd e2 - snd e1) * (T - IZR (fst e1))
           / (IZR (fst e2) - IZR (fst e1)))
    with (c * (T - IZR (fst e1))) by (subst c k; unfold Rdiv; ring).
  nra.
Qed.

Lemma interpolate_within (e1 e2 : Z * R) (T : R) :
  descending e1 e2 -> IZR (fst e1) <= T <= IZR (fst e2) ->
  snd e2 <= interpolate e1 e2 T <= snd e1.
Proof.
  intros [Hlt Hv] HT. apply IZR_lt in Hlt. unfold interpolate.
  apply interpolation_between; lra.
Qed.

Lemma table_neighbours_descend (pre post : list (Z * R)) (e1 e2 : Z * R) :
  table = pre ++ e1 :: e2 :: post -> descending e1 e2.
Proof.
  intros Hl. split; [now apply (table_neighbours_ordered pre post) |].
  apply table_values_descend.
  - rewrite Hl; apply in_or_app; right; left; reflexivity.
  - rewrite Hl; apply in_or_app; right; right; left; reflexivity.
  - assert (H := table_neighbours_ordered _ _ _ _ Hl). lia.
Qed.

(** From the first anchor to the last, the value looked up does not rise
    with the temperature. *)
Lemma lookup_table_descends (T T' : R) (first second : Z * R)
    (rest : list (Z * R)) :
  table = first :: second :: rest ->
  sorted (keys table) = keys table ->
  IZR (fst first) <= T -> T <= T' -> T' <= IZR (last (keys table) 0%Z) ->
  exists v v',
    lookup_table table T = ([], Return v)
    /\ lookup_table table T' = ([], Return v')
    /\ v' <= v.
Proof.
  intros Htable Hsorted H0 HTT H1.
  destruct (lookup_table_on_segment T first second rest Htable Hsorted
              ltac:(lra))
    as (pre & post & e1 & e2 & Hl & Ht & ->).
  destruct (lookup_table_on_segment T' first second rest Htable Hsorted
              ltac:(lra))
    as (pre' & post' & e1' & e2' & Hl' & Ht' & ->).
  eexists; eexists. split; [reflexivity |]. split; [reflexivity |].
  assert (Hd := table_neighbours_descend _ _ _ _ Hl).
  assert (Hd' := table_neighbours_descend _ _ _ _ Hl').
  assert (Hin1 : In e1 table)
    by (rewrite Hl; apply in_or_app; right; left; reflexivity).
  assert (Hin2 : In e2 table)
    by (rewrite Hl; apply in_or_app; right; right; left; reflexivity).
  assert (Hin1' : In e1' table)
    by (rewrite Hl'; apply in_or_app; right; left; reflexivity).
  assert (Hin2' : In e2' table)
    by (rewrite Hl'; apply in_or_app; right; right; left; reflexivity).
  destruct (interpolate_within e1 e2 T Hd Ht) as [Hlo Hhi].
  destruct (interpolate_within e1' e2' T' Hd' Ht') as [Hlo' Hhi'].
  destruct (Z_le_gt_dec (fst e2) (fst e1')) as [Hsep | Hov].
  - assert (Hv := table_values_descend e2 e1' Hin2 Hin1' Hsep). lra.
  - destruct (table_neighbours_apart _ _ _ _ e1' Hl Hin1') as [Hle | Hge];
      [| lia].
    destruct (Z.eq_dec (fst e1') (fst e1)) as [Heq | Hne].
    + assert (E1 : e1' = e1) by now apply table_entry_unique.
      subst e1'.
      assert (E2 : e2' = e2).
      { apply table_entry_unique; try assumption.
        destruct (table_neighbours_apart _ _ _ _ e2' Hl Hin2') as [H | H];
          destruct (table_neighbours_apart _ _ _ _ e2 Hl' Hin2) as [H' | H'];
          destruct Hd as [Hd _]; destruct Hd' as [Hd' _]; lia. }
      subst e2'. now apply interpolate_descends.
    + assert (Hlt : (fst e1' < fst e1)%Z) by lia.
      destruct (table_neighbours_apart _ _ _ _ e1 Hl' Hin1) as [H | H];
        [lia |].
      assert (HZ : IZR (fst e2') <= IZR (fst e1)) by now apply IZR_le.
      assert (HT1 : T' <= IZR (fst e1)) by lra.
      assert (HTe : T = T') by lra.
      assert (Ee : fst e2' = fst e1).
      { apply eq_IZR. lra. }
      assert (E : e2' = e1) by now apply table_entry_unique.
      subst e2'.
      assert (HTv : T' = IZR (fst e1)) by lra.
      assert (Hi' : interpolate e1' e1 T' = snd e1).
      { unfold interpolate. rewrite HTv.
        destruct Hd' as [Hk _]. apply IZR_lt in Hk. field. lra. }
      assert (Hi : interpolate e1 e2 T = snd e1).
      { unfold interpolate. rewrite HTe, HTv.
        destruct Hd as [Hk _]. apply IZR_lt in Hk. field. lra. }
      lra.
Qed.

End SortedTable.

Lemma viscosity_table_descending : StronglySorted descending viscosity_table.
Proof.
  unfold viscosity_table.
  repeat (apply SSorted_cons;
          [| repeat (apply Forall_cons;
                     [unfold descending; cbn [fst snd]; split; [lia | lra] |]);
             apply Forall_nil]).
  apply SSorted_nil.
Qed.

Lemma density_table_ascending : StronglySorted key_lt density_table.
Proof.
  unfold density_table.
  repeat (apply SSorted_cons;
          [| repeat (apply Forall_cons;
                     [unfold key_lt; cbn [fst]; lia |]);
             apply Forall_nil]).
  apply SSorted_nil.
Qed.

Lemma anchors_in_range (table : list (Z * R)) (e : Z * R) :
  keys table = [0; 5; 10; 15; 20; 25; 30; 40; 50; 60; 70; 80; 90; 100]%Z ->
  In e table -> (0 <= fst e <= 100)%Z.
Proof.
  intros Hk He.
  assert (Hin : In (fst e) (keys table)) by now apply in_map.
  rewrite Hk in Hin. cbn [In] in Hin.
  repeat (destruct Hin as [<- | Hin]; [lia |]). contradiction.
Qed.

(** X29.  Strictly between two neighbouring anchors of the
    table both lookups return the linear interpolation of the two tabulated
    values, and no advisory is emitted; at an anchor they return the
    tabulated value itself. *)
Theorem fluid_properties_interpolated
    (T : R) (t1 t2 : Z) (nu1 nu2 rho1 rho2 : R)
    (vpre vpost dpre dpost : list (Z * R)) :
  viscosity_table = vpre ++ (t1, nu1) :: (t2, nu2) :: vpost ->
  density_table = dpre ++ (t1, rho1) :: (t2, rho2) :: dpost ->
  IZR t1 < T < IZR t2 ->
  get_kinematic_viscosity T
    = ([], Return (nu1 + (nu2 - nu1) * (T - IZR t1) / (IZR t2 - IZR t1)))
  /\ get_water_density T
     = ([], Return (rho1 + (rho2 - rho1) * (T - IZR t1) / (IZR t2 - IZR t1)))
  /\ get_kinematic_viscosity (IZR t1) = ([], Return nu1)
  /\ get_water_density (IZR t1) = ([], Return rho1)
  /\ get_kinematic_viscosity (IZR t2) = ([], Return nu2)
  /\ get_water_density (IZR t2) = ([], Return rho2).
Proof.
  intros Hv Hd HT.
  assert (Hv1 : In (t1, nu1) viscosity_table)
    by (rewrite Hv; apply in_or_app; right; left; reflexivity).
  assert (Hv2 : In (t2, nu2) viscosity_table)
    by (rewrite Hv; apply in_or_app; right; right; left; reflexivity).
  assert (Hd1 : In (t1, rho1) density_table)
    by (rewrite Hd; apply in_or_app; right; left; reflexivity).
  assert (Hd2 : In (t2, rho2) density_table)
    by (rewrite Hd; apply in_or_app; right; right; left; reflexivity).
  assert (Hr1 := anchors_in_range viscosity_table _ eq_refl Hv1).
  assert (Hr2 := anchors_in_range viscosity_table _ eq_refl Hv2).
  cbn [fst] in Hr1, Hr2.
  assert (H0 : 0 <= IZR t1) by (apply IZR_le; lia).
  assert (H100 : IZR t2 <= 100) by (apply IZR_le; lia).
  assert (Hlt : IZR t1 < IZR t2) by lra.
  assert (Hquiet : forall x, 0 <= x <= 100 ->
            get_kinematic_viscosity x = lookup_table viscosity_table x).
  { intros x Hx. unfold get_kinematic_viscosity.
    rewrite !Rltb_false by lra. cbn [orb]. now rewrite bind_ret. }
  rewrite !Hquiet by lra. unfold get_water_density.
  assert (Hva := descending_ascending _ viscosity_table_descending).
  split; [| split; [| repeat split]].
  - apply (lookup_table_interpolates viscosity_table Hva T
             (0%Z, 1.787e-6) (5%Z, 1.519e-6) _ vpre vpost
             (t1, nu1) (t2, nu2) eq_refl eq_refl);
      [cbn; lra | exact Hv | cbn [fst]; lra].
  - apply (lookup_table_interpolates density_table density_table_ascending T
             (0%Z, 999.8) (5%Z, 1000.0) _ dpre dpost
             (t1, rho1) (t2, rho2) eq_refl eq_refl);
      [cbn; lra | exact Hd | cbn [fst]; lra].
  - apply lookup_table_tabulated;
      [reflexivity | exact anchors_ascending | assumption].
  - apply lookup_table_tabulated;
      [reflexivity | exact anchors_ascending | assumption].
  - apply lookup_table_tabulated;
      [reflexivity | exact anchors_ascending | assumption].
  - apply lookup_table_tabulated;
      [reflexivity | exact anchors_ascending | assumption].
Qed.

Lemma fluid_properties_interpolated_witness :
  viscosity_table
  = [ (0%Z, 1.787e-6); (5%Z, 1.519e-6); (10%Z, 1.307e-6); (15%Z, 1.139e-6) ]
    ++ (20%Z, 1.004e-6) :: (25%Z, 0.893e-6)
       :: [ (30%Z, 0.801e-6); (40%Z, 0.658e-6); (50%Z, 0.553e-6);
            (60%Z, 0.475e-6); (70%Z, 0.413e-6); (80%Z, 0.364e-6);
            (90%Z, 0.326e-6); (100%Z, 0.294e-6) ]
  /\ density_table
     = [ (0%Z, 999.8); (5%Z, 1000.0); (10%Z, 999.7); (15%Z, 999.1) ]
       ++ (20%Z, 998.2) :: (25%Z, 997.0)
          :: [ (30%Z, 995.7); (40%Z, 992.2); (50%Z, 988.0); (60%Z, 983.2);
               (70%Z, 977.8); (80%Z, 971.8); (90%Z, 965.3); (100%Z, 958.4) ]
  /\ IZR 20 < 22 < IZR 25
  /\ get_kinematic_viscosity 22
     = ([], Return (1.004e-6
                    + (0.893e-6 - 1.004e-6) * (22 - IZR 20)
                      / (IZR 25 - IZR 20)))
  /\ get_water_density 22
     = ([], Return (998.2 + (997.0 - 998.2) * (22 - IZR 20)
                            / (IZR 25 - IZR 20)))
  /\ get_kinematic_viscosity (IZR 20) = ([], Return 1.004e-6)
  /\ get_water_density (IZR 20) = ([], Return 998.2)
  /\ get_kinematic_viscosity (IZR 25) = ([], Return 0.893e-6)
  /\ get_water_density (IZR 25) = ([], Return 997.0).
Proof.
  assert (HT : IZR 20 < 22 < IZR 25) by lra.
  assert (Hv :
    viscosity_table
    = [ (0%Z, 1.787e-6); (5%Z, 1.519e-6); (10%Z, 1.307e-6); (15%Z, 1.139e-6) ]
      ++ (20%Z, 1.004e-6) :: (25%Z, 0.893e-6)
         :: [ (30%Z, 0.801e-6); (40%Z, 0.658e-6); (50%Z, 0.553e-6);
              (60%Z, 0.475e-6); (70%Z, 0.413e-6); (80%Z, 0.364e-6);
              (90%Z, 0.326e-6); (100%Z, 0.294e-6) ]) by reflexivity.
  assert (Hd :
    density_table
    = [ (0%Z, 999.8); (5%Z, 1000.0); (10%Z, 999.7); (15%Z, 999.1) ]
      ++ (20%Z, 998.2) :: (25%Z, 997.0)
         :: [ (30%Z, 995.7); (40%Z, 992.2); (50%Z, 988.0); (60%Z, 983.2);
              (70%Z, 977.8); (80%Z, 971.8); (90%Z, 965.3); (100%Z, 958.4) ])
    by reflexivity.
  split; [exact Hv |]. split; [exact Hd |]. split; [exact HT |].
  exact (fluid_properties_interpolated 22 20 25 1.004e-6 0.893e-6 998.2 997.0
           _ _ _ _ Hv Hd HT).
Defined.

(** X30.  From 0 to 100 degrees the kinematic viscosity looked up never
    rises with the temperature. *)
Theorem viscosity_descends (T T' : R) :
  0 <= T -> T <= T' -> T' <= 100 ->
  exists nu nu',
    get_kinematic_viscosity T = ([], Return nu)
    /\ get_kinematic_viscosity T' = ([], Return nu')
    /\ nu' <= nu.
Proof.
  intros H0 HTT H100.
  assert (Hquiet : forall x, 0 <= x <= 100 ->
            get_kinematic_viscosity x = lookup_table viscosity_table x).
  { intros x Hx. unfold get_kinematic_viscosity.
    rewrite !Rltb_false by lra. cbn [orb]. now rewrite bind_ret. }
  rewrite !Hquiet by lra.
  apply (lookup_table_descends viscosity_table
           (descending_ascending _ viscosity_table_descending)
           viscosity_table_descending T T'
           (0%Z, 1.787e-6) (5%Z, 1.519e-6) _ eq_refl eq_refl);
    [cbn [fst]; lra | exact HTT | cbn; lra].
Qed.

Lemma viscosity_descends_witness :
  0 <= 18 /\ 18 <= 42 /\ 42 <= 100
  /\ exists nu nu',
       get_kinematic_viscosity 18 = ([], Return nu)
       /\ get_kinematic_viscosity 42 = ([], Return nu')
       /\ nu' <= nu.
Proof.
  split; [lra |]. split; [lra |]. split; [lra |].
  apply (viscosity_descends 18 42); lra.
Defined.

End Interpolation.
